(** * history_rag: the scraper and the retrieval pipeline, embedded in Rocq

    The development follows the three source files:
    - [scraper.py]    (module [Scraper]): date conversion, file-name
      sanitising, the per-document extraction and the pagination loop;
    - [Ollama_RAG.py] (module [Rag]): document loading, the fallback chain,
      the command line and the interactive loop;
    - [Open_AI_RAG.py] (module [Rag], [load_docx_texts_from_folder]).

    Python [str] values are modelled as [string]; a character is read as a
    code point in the range U+0000..U+00FF. *)

From Stdlib Require Import String Ascii List Arith NArith Lia Bool.
From stdpp Require Import base option strings gmap pretty.
Import ListNotations.
Open Scope string_scope.
Open Scope list_scope.
Open Scope nat_scope.

(** String concatenation unfolds on constructors, as list concatenation does. *)
Arguments String.append !s1 s2 : simpl nomatch.

(** ** Python string primitives *)

Module Py.

Definition code (c : ascii) : N := N_of_ascii c.

(** [str.isspace] on one character, as used by [str.strip] and by the
    regular-expression class [\s]. *)
Definition is_space (c : ascii) : bool :=
  let n := code c in
  (((9 <=? n) && (n <=? 13)) || ((28 <=? n) && (n <=? 32))
   || (n =? 133) || (n =? 160))%N.

(** The regular-expression class [\d]. *)
Definition is_digit (c : ascii) : bool :=
  let n := code c in ((48 <=? n) && (n <=? 57))%N.

Definition digit_value (c : ascii) : N := (code c - 48)%N.

Definition digit_char (d : N) : ascii := ascii_of_N (48 + d).

(** [str.lower] on one character. *)
Definition lower_char (c : ascii) : ascii :=
  let n := code c in
  if (((65 <=? n) && (n <=? 90))
      || ((192 <=? n) && (n <=? 222) && negb (n =? 215)))%N
  then ascii_of_N (n + 32) else c.

Fixpoint map (f : ascii -> ascii) (s : string) : string :=
  match s with
  | EmptyString => EmptyString
  | String c s' => String (f c) (map f s')
  end.

Definition lower (s : string) : string := map lower_char s.

(** [s.replace(a, b)] for one-character [a] and [b]. *)
Definition replace_char (a b : ascii) (s : string) : string :=
  map (fun c => if Ascii.eqb c a then b else c) s.

Fixpoint forallb (p : ascii -> bool) (s : string) : bool :=
  match s with
  | EmptyString => true
  | String c s' => p c && forallb p s'
  end.

Fixpoint existsb (p : ascii -> bool) (s : string) : bool :=
  match s with
  | EmptyString => false
  | String c s' => p c || existsb p s'
  end.

(** [c in s] for a character [c]. *)
Definition contains_char (c : ascii) (s : string) : bool :=
  existsb (Ascii.eqb c) s.

(** [s[:n]] *)
Fixpoint take (n : nat) (s : string) : string :=
  match n, s with
  | S n', String c s' => String c (take n' s')
  | _, _ => EmptyString
  end.

(** [s[n:]] *)
Fixpoint drop (n : nat) (s : string) : string :=
  match n, s with
  | S n', String _ s' => drop n' s'
  | _, _ => s
  end.

Fixpoint lstrip (s : string) : string :=
  match s with
  | String c s' => if is_space c then lstrip s' else s
  | EmptyString => EmptyString
  end.

Fixpoint rstrip (s : string) : string :=
  match s with
  | String c s' =>
      match rstrip s' with
      | EmptyString => if is_space c then EmptyString else String c EmptyString
      | r => String c r
      end
  | EmptyString => EmptyString
  end.

Definition strip (s : string) : string := rstrip (lstrip s).

(** [s.startswith(p)] *)
Fixpoint startswith (s p : string) : bool :=
  match p, s with
  | EmptyString, _ => true
  | String a p', String b s' => Ascii.eqb a b && startswith s' p'
  | String _ _, EmptyString => false
  end.

(** [s.endswith(p)] *)
Definition endswith (s p : string) : bool :=
  String.eqb (drop (String.length s - String.length p) s) p
  && (String.length p <=? String.length s).

(** [sep.join(l)] *)
Fixpoint join (sep : string) (l : list string) : string :=
  match l with
  | [] => ""
  | [x] => x
  | x :: l' => x +:+ sep +:+ join sep l'
  end.

(** [c * n] for a character [c]. *)
Fixpoint repeat (c : ascii) (n : nat) : string :=
  match n with
  | 0 => ""
  | S n' => String c (repeat c n')
  end.

(** [s in t], substring test. *)
Fixpoint contains (t s : string) : bool :=
  startswith t s ||
  match t with
  | EmptyString => false
  | String _ t' => contains t' s
  end.

(** [int(s)] for a string of decimal digits, most significant first. *)
Fixpoint int_digits (acc : N) (s : string) : N :=
  match s with
  | EmptyString => acc
  | String c s' => int_digits (10 * acc + digit_value c)%N s'
  end.

(** [int(s)]: surrounding white space is ignored. *)
Definition int (s : string) : N := int_digits 0 (strip s).

(** Two-digit and four-digit zero-padded decimals: [strftime] prints the
  fields [%m] and [%d] with two digits, and a year is written with four
  digits for the field [%Y] of [strptime]. *)
Definition pad2 (n : N) : string :=
  String (digit_char (n / 10 mod 10)) (String (digit_char (n mod 10)) "").

Definition pad4 (n : N) : string :=
  String (digit_char (n / 1000 mod 10))
    (String (digit_char (n / 100 mod 10)) (pad2 n)).

Definition LF : ascii := ascii_of_nat 10.
Definition CR : ascii := ascii_of_nat 13.
Definition NL : string := String LF "".

End Py.

(** ** Exceptions and results *)

(** The exception classes the programs distinguish.  [KeyboardInterrupt]
    stands for the [BaseException]s that [except Exception] lets through. *)
Inductive exn : Type :=
| ValueError (msg : string)
| TimeoutException
| NoSuchElementException
| ImportError (msg : string)
| EOFError
| KeyError (msg : string)
| IndexError (msg : string)
| OtherException (msg : string)
| KeyboardInterrupt.

Definition is_Exception (e : exn) : bool :=
  match e with
  | KeyboardInterrupt => false
  | _ => true
  end.

(** [str(e)]; the text of library messages is not modelled in detail. *)
Definition exn_text (e : exn) : string :=
  match e with
  | ValueError m => m
  | TimeoutException => "Message: "
  | NoSuchElementException => "Message: no such element"
  | ImportError m => m
  | EOFError => "EOF when reading a line"
  | KeyError m => m
  | IndexError m => m
  | OtherException m => m
  | KeyboardInterrupt => ""
  end.

Inductive result (A : Type) : Type :=
| Ok (a : A)
| Raise (e : exn).
Arguments Ok {A} a.
Arguments Raise {A} e.

(** [os.path.join(a, b)] on POSIX. *)
Definition os_path_join (a b : string) : string :=
  if Py.startswith b "/" then b
  else if String.eqb a "" then b
  else if Py.endswith a "/" then a +:+ b
  else a +:+ "/" +:+ b.

(** ** Computations with state and exceptions

    A computation changes a state of type [S] and returns a value or
    raises. *)

Definition Eff (S A : Type) : Type := S -> result A * S.

Section Eff.
Context {S : Type}.
Local Abbreviation M := (Eff S).

Definition ret {A} (a : A) : M A := fun st => (Ok a, st).

Definition raise {A} (e : exn) : M A := fun st => (Raise e, st).

Definition bind {A C} (m : M A) (k : A -> M C) : M C :=
  fun st =>
    match m st with
    | (Ok a, st') => k a st'
    | (Raise e, st') => (Raise e, st')
    end.

(** [try: body  except <catches> as e: handler e] *)
Definition try_except {A} (body : M A) (catches : exn -> bool)
    (handler : exn -> M A) : M A :=
  fun st =>
    match body st with
    | (Ok a, st') => (Ok a, st')
    | (Raise e, st') => if catches e then handler e st' else (Raise e, st')
    end.

(** [try: body  finally: fin] *)
Definition try_finally {A} (body : M A) (fin : M unit) : M A :=
  fun st =>
    match body st with
    | (r, st') =>
        match fin st' with
        | (Ok _, st'') => (r, st'')
        | (Raise e, st'') => (Raise e, st'')
        end
    end.

End Eff.

Notation "x <- c1 ;; c2" := (bind c1 (fun x => c2))
  (at level 100, c1 at next level, right associativity).
Notation "c1 ;;; c2" := (bind c1 (fun _ => c2))
  (at level 100, right associativity).

(** ** scraper.py *)

Module Scraper.

(** *** [sanitize_filename] *)

(** The character class of the pattern given to [re.sub]: the nine
  characters that are invalid in file names (less-than, greater-than,
  colon, double quote, slash, backslash, bar, question mark, star). *)
Definition invalid_chars : list ascii :=
  [ "<"%char; ">"%char; ":"%char; ascii_of_nat 34; "/"%char;
    ascii_of_nat 92; "|"%char; "?"%char; "*"%char ].

Definition is_invalid (c : ascii) : bool :=
  List.existsb (Ascii.eqb c) invalid_chars.

(** [re.sub] with a one-character class and a one-character replacement. *)
Definition re_sub_class (cls : ascii -> bool) (repl : ascii) (s : string)
  : string :=
  Py.map (fun c => if cls c then repl else c) s.

Definition sanitize_filename (filename : string) : string :=
  let sanitized := re_sub_class is_invalid "_"%char filename in
  let sanitized :=
    Py.replace_char Py.CR " "%char (Py.replace_char Py.LF " "%char sanitized) in
  if 240 <? String.length sanitized then Py.take 240 sanitized else sanitized.

(** *** [convert_date_format]

    [datetime.strptime(date_str, '%B %d, %Y')] compiles its format into the
    regular expression

      (?P<B>september|february|...|may)\s+(?P<d>3[0-1]|[1-2]\d|0[1-9]|[1-9]| [1-9]),\s+(?P<Y>\d\d\d\d)

    (flag IGNORECASE), matches it at the start of the string, rejects the
    string when text remains after the match, and builds a date from the
    three groups.  The regular expression is modelled by backtracking
    matchers: a matcher lists the ways its pattern matches a prefix of the
    subject, in the order the engine tries them, each with the captured
    text and the unmatched rest.  [re.match] returns the first. *)

Definition matcher (A : Type) : Type := string -> list (A * string).

Definition m_ret {A} (a : A) : matcher A := fun s => [(a, s)].

Definition m_fail {A} : matcher A := fun _ => [].

Definition m_bind {A B} (p : matcher A) (f : A -> matcher B) : matcher B :=
  fun s => flat_map (fun ar => f (fst ar) (snd ar)) (p s).

Definition m_alt {A} (p q : matcher A) : matcher A :=
  fun s => p s ++ q s.

(** A literal, compared without regard to case. *)
Definition m_lit_i (p : string) : matcher string :=
  fun s =>
    let t := Py.take (String.length p) s in
    if String.eqb (Py.lower t) (Py.lower p)
    then [(t, Py.drop (String.length p) s)] else [].

(** One character of a class. *)
Definition m_class (cls : ascii -> bool) : matcher string :=
  fun s =>
    match s with
    | String c r => if cls c then [(String c "", r)] else []
    | EmptyString => []
    end.

(** Two classes in sequence, capturing both characters. *)
Definition m_class2 (cls1 cls2 : ascii -> bool) : matcher string :=
  m_bind (m_class cls1) (fun a =>
  m_bind (m_class cls2) (fun b => m_ret (a +:+ b))).

(** [\s*], greedy: the longest run first. *)
Fixpoint m_spaces_star (s : string) : list (string * string) :=
  match s with
  | String c r =>
      if Py.is_space c
      then List.map (fun wr => (String c (fst wr), snd wr)) (m_spaces_star r)
           ++ [("", s)]
      else [("", s)]
  | EmptyString => [("", "")]
  end.

(** [\s+], greedy. *)
Definition m_spaces_plus : matcher string :=
  fun s =>
    match s with
    | String c r =>
        if Py.is_space c
        then List.map (fun wr => (String c (fst wr), snd wr)) (m_spaces_star r)
        else []
    | EmptyString => []
    end.

Definition in_range (lo hi : ascii) (c : ascii) : bool :=
  ((Py.code lo <=? Py.code c) && (Py.code c <=? Py.code hi))%N.

(** [calendar.month_name[1:]] in the C locale. *)
Definition month_name : list string :=
  [ "January"; "February"; "March"; "April"; "May"; "June"; "July";
    "August"; "September"; "October"; "November"; "December" ].

(** [locale_time.f_month[1:]]: the names in lower case. *)
Definition f_month : list string := List.map Py.lower month_name.

(** [sorted(names, key=len, reverse=True)]; the sort is stable. *)
Fixpoint insert_by_len (x : string) (l : list string) : list string :=
  match l with
  | [] => [x]
  | y :: l' =>
      if String.length y <=? String.length x then x :: l
      else y :: insert_by_len x l'
  end.

Definition sorted_by_len_desc (l : list string) : list string :=
  fold_right insert_by_len [] l.

(** Group [B]: the alternatives of the month names. *)
Definition m_B : matcher string :=
  fold_right (fun n acc => m_alt (m_lit_i n) acc) m_fail
    (sorted_by_len_desc f_month).

(** Group [d]: [3[0-1]|[1-2]\d|0[1-9]|[1-9]| [1-9]]. *)
Definition m_d : matcher string :=
  m_alt (m_class2 (Ascii.eqb "3") (in_range "0" "1"))
 (m_alt (m_class2 (in_range "1" "2") Py.is_digit)
 (m_alt (m_class2 (Ascii.eqb "0") (in_range "1" "9"))
 (m_alt (m_class (in_range "1" "9"))
        (m_class2 (Ascii.eqb " ") (in_range "1" "9"))))).

(** Group [Y]: [\d\d\d\d]. *)
Definition m_Y : matcher string :=
  m_bind (m_class2 Py.is_digit Py.is_digit) (fun a =>
  m_bind (m_class2 Py.is_digit Py.is_digit) (fun b => m_ret (a +:+ b))).

(** The compiled format; the groups are returned in the order B, d, Y. *)
Definition format_regex : matcher (string * string * string) :=
  m_bind m_B (fun b =>
  m_bind m_spaces_plus (fun _ =>
  m_bind m_d (fun d =>
  m_bind (m_lit_i ",") (fun _ =>
  m_bind m_spaces_plus (fun _ =>
  m_bind m_Y (fun y => m_ret (b, d, y))))))).

Definition re_match {A} (p : matcher A) (s : string) : option (A * string) :=
  head (p s).

(** [list.index], counted from 1 as [f_month] has an empty entry 0. *)
Fixpoint index_from (i : N) (x : string) (l : list string) : option N :=
  match l with
  | [] => None
  | y :: l' => if String.eqb x y then Some i else index_from (N.succ i) x l'
  end.

Record date : Type := Date { year : N; month : N; day : N }.

Definition is_leap (y : N) : bool :=
  ((y mod 4 =? 0) && (negb (y mod 100 =? 0) || (y mod 400 =? 0)))%N.

Definition days_in_month (y m : N) : N :=
  match m with
  | 2 => if is_leap y then 29 else 28
  | 4 | 6 | 9 | 11 => 30
  | _ => 31
  end%N.

(** The range checks of the [date] constructor. *)
Definition valid_date (y m d : N) : bool :=
  ((1 <=? y) && (y <=? 9999) && (1 <=? m) && (m <=? 12)
   && (1 <=? d) && (d <=? days_in_month y m))%N.

(** [datetime.strptime(s, '%B %d, %Y')].  The text of the messages is not
    modelled. *)
Definition strptime (data_string : string) : result date :=
  match re_match format_regex data_string with
  | None => Raise (ValueError "time data does not match format")
  | Some ((b, d, y), rest) =>
      if negb (String.eqb rest "")
      then Raise (ValueError "unconverted data remains")
      else
        match index_from 1 (Py.lower b) f_month with
        | None => Raise (ValueError "month name not found")
        | Some m =>
            let yy := Py.int y in
            let dd := Py.int d in
            if valid_date yy m dd then Ok (Date yy m dd)
            else Raise (ValueError "date value out of range")
        end
  end.

(** [date_obj.strftime('%Y-%m-%d')].  The month and the day are printed
    with two digits; the year is printed as the C library prints it, as a
    decimal number without leading zeros (the year 933 as 933). *)
Definition strftime (d : date) : string :=
  pretty (year d) +:+ "-" +:+ Py.pad2 (month d) +:+ "-" +:+ Py.pad2 (day d).

(** The records of the log.  The logger is set up by
    [logging.basicConfig(level=logging.INFO, ..., filename='scraping.log')]:
    every record of [logger.info] and [logger.error] is appended as a
    line to the file [scraping.log] in the working directory; the time
    stamp of the line is not modelled. *)
Inductive log_record : Type :=
| LogInfo (msg : string)
| LogError (msg : string).

Definition log_file : string := "scraping.log".

(** The result and the records written to the log; only [ValueError] is
    intercepted. *)
Definition convert_date_format (date_str : string)
  : result string * list log_record :=
  match strptime date_str with
  | Ok date_obj => (Ok (strftime date_obj), [])
  | Raise (ValueError m) =>
      (Ok "0000-00-00",
       [LogError ("Error parsing date '" +:+ date_str +:+ "': " +:+ m)])
  | Raise e => (Raise e, [])
  end.

(** The date format in the words of the docstring, Month DD, YYYY: what
    it means for [s] to write the calendar date [y]-[m]-[d].  The month is
    one of the twelve English names in any letter case, the day has one or
    two digits, the year has four, and the parts are separated by white
    space. *)
Definition spaces (w : string) : Prop :=
  w <> "" /\ Py.forallb Py.is_space w = true.

Definition day_numeral (ds : string) (d : N) : Prop :=
  ds = Py.pad2 d \/ ((d <= 9)%N /\ ds = String (Py.digit_char d) "").

Definition written_date (s : string) (y m d : N) : Prop :=
  exists name name' w1 ds w2,
    s = name +:+ w1 +:+ ds +:+ "," +:+ w2 +:+ Py.pad4 y
    /\ nth_error month_name (N.to_nat m - 1) = Some name'
    /\ Py.lower name = Py.lower name'
    /\ spaces w1 /\ spaces w2
    /\ day_numeral ds d
    /\ valid_date y m d = true.

(** *** The browser capability, the scraper's state and its effects *)

Inductive locator : Type :=
| CssSelector (value : string)
| ClassName (value : string).

(** The operations of Selenium the scraper uses, on a browser (with the
    site behind it) in a state of type [B]; [elem] is the type of web
    elements.  Each operation returns its outcome and the new state.
    [can_open] tells whether [open(path, 'w')] succeeds. *)
Class Capabilities (B elem : Type) : Type := {
  driver_get : string -> B -> result unit * B;
  driver_back : B -> result unit * B;
  driver_quit : B -> result unit * B;
  driver_find_element : locator -> B -> result elem * B;
  wait_presence_of_element : locator -> B -> result elem * B;
  wait_presence_of_all_elements : locator -> B -> result (list elem) * B;
  element_text : elem -> B -> result string * B;
  element_click : elem -> B -> result unit * B;
  can_open : string -> bool
}.

(** The calls made on the browser and, through [open], on the files of
    the documents, in order.  The writes of the logger to the log file
    are not calls of the trace: they are the field [log] of the state. *)
Inductive event (elem : Type) : Type :=
| EGet (url : string)
| EBack
| EQuit
| EFind (l : locator)
| EWait (l : locator)
| EWaitAll (l : locator)
| EText (e : elem)
| EClick (e : elem)
| EOpen (path : string)
| EWrite (path : string) (text : string)
| EClose (path : string).
Arguments EGet {elem} url.
Arguments EBack {elem}.
Arguments EQuit {elem}.
Arguments EFind {elem} l.
Arguments EWait {elem} l.
Arguments EWaitAll {elem} l.
Arguments EText {elem} e.
Arguments EClick {elem} e.
Arguments EOpen {elem} path.
Arguments EWrite {elem} path text.
Arguments EClose {elem} path.

(** The state of a run: the browser with the site behind it, the files
    written through [open] (by path), the content of the log file
    [scraping.log] as the records appended to it, and the trace of the
    calls on the browser and of the calls made through [open]. *)
Record state (B elem : Type) : Type := State {
  browser : B;
  files : gmap string string;
  log : list log_record;
  events : list (event elem)
}.
Arguments State {B elem} browser files log events.
Arguments browser {B elem} s.
Arguments files {B elem} s.
Arguments log {B elem} s.
Arguments events {B elem} s.

(** Computations of the scraper. *)
Definition M (B elem A : Type) : Type := Eff (state B elem) A.

Section Effects.
Context {B elem : Type} `{Capabilities B elem}.
Local Abbreviation M := (M B elem).

(** A call on the browser, recorded in the trace. *)
Definition call {A} (ev : event elem) (op : B -> result A * B) : M A :=
  fun st =>
    match op (browser st) with
    | (r, b') =>
        (r, State b' (files st) (log st) (events st ++ [ev]))
    end.

(** [self.logger.error(msg)]: a record is appended to the log file. *)
Definition logger_error (msg : string) : M unit :=
  fun st => (Ok tt, State (browser st) (files st) (log st ++ [LogError msg])
                      (events st)).

(** [self.logger.info(msg)]: a record is appended to the log file. *)
Definition logger_info (msg : string) : M unit :=
  fun st => (Ok tt, State (browser st) (files st) (log st ++ [LogInfo msg])
                      (events st)).

(** [time.sleep(2)] *)
Definition sleep : M unit := ret tt.

(** [open(path, 'w', encoding='utf-8')]: the file is created or truncated. *)
Definition open_w (path : string) : M unit :=
  fun st =>
    if can_open path
    then (Ok tt, State (browser st) (<[path := ""]> (files st)) (log st)
                   (events st ++ [EOpen path]))
    else (Raise (OtherException "OSError"), st).

(** [f.write(text)] *)
Definition write (path text : string) : M unit :=
  fun st =>
    (Ok tt,
     State (browser st)
       (<[path := default "" (files st !! path) +:+ text]> (files st))
       (log st) (events st ++ [EWrite path text])).

Definition close (path : string) : M unit :=
  fun st => (Ok tt, State (browser st) (files st) (log st)
                      (events st ++ [EClose path])).

(** [with open(path, 'w', encoding='utf-8') as f: body] *)
Definition with_open_w (path : string) (body : M unit) : M unit :=
  bind (open_w path) (fun _ => try_finally body (close path)).

End Effects.

Definition is_Timeout (e : exn) : bool :=
  match e with TimeoutException => true | _ => false end.

Definition is_NoSuchElement (e : exn) : bool :=
  match e with NoSuchElementException => true | _ => false end.

Definition output_dir : string := "presidential_documents".

Section ScraperMethods.
Context {B elem : Type} `{Capabilities B elem}.
Local Abbreviation M := (M B elem).

(** The result of [convert_date_format], its log records appended. *)
Definition convert_date_format_m (date_str : string) : M string :=
  fun st =>
    match convert_date_format date_str with
    | (r, records) =>
        (r, State (browser st) (files st) (log st ++ records) (events st))
    end.

(** [get_document_links] *)
Definition get_document_links : M (list elem) :=
  try_except
    (links <- call (EWaitAll (CssSelector ".views-field-title a"))
                (wait_presence_of_all_elements
                   (CssSelector ".views-field-title a")) ;;
     ret links)
    is_Timeout
    (fun _ => logger_error "Timeout waiting for document links" ;;; ret []).

(** The block of [extract_and_save_document] that reads the date. *)
Definition read_date : M (string * string) :=
  try_except
    (date_element <- call (EFind (ClassName "date-display-single"))
                       (driver_find_element (ClassName "date-display-single")) ;;
     text <- call (EText date_element) (element_text date_element) ;;
     let date := Py.strip text in
     formatted_date <- convert_date_format_m date ;;
     ret (date, formatted_date))
    is_NoSuchElement
    (fun _ => ret ("NO_DATE", "0000-00-00")).

(** The block that reads the main content. *)
Definition read_content : M string :=
  try_except
    (content_element <- call (EFind (ClassName "field-docs-content"))
                          (driver_find_element (ClassName "field-docs-content")) ;;
     content <- call (EText content_element) (element_text content_element) ;;
     ret content)
    is_NoSuchElement
    (fun _ => ret "NO CONTENT FOUND").

Definition document_filename (formatted_date link_text : string) : string :=
  formatted_date +:+ "_" +:+ sanitize_filename link_text +:+ ".txt".

(** The text written to the file. *)
Definition document_text (date link_text content : string) : string :=
  ("Date: " +:+ date +:+ Py.NL)
  +:+ ("Title: " +:+ link_text +:+ Py.NL)
  +:+ (Py.repeat "=" 80 +:+ Py.NL +:+ Py.NL)
  +:+ content.

(** [extract_and_save_document] *)
Definition extract_and_save_document (link_text : string) : M unit :=
  try_except
    (call (EWait (ClassName "field-docs-content"))
       (wait_presence_of_element (ClassName "field-docs-content")) ;;;
     df <- read_date ;;
     let date := fst df in
     let formatted_date := snd df in
     let filename := document_filename formatted_date link_text in
     let filepath := os_path_join output_dir filename in
     content <- read_content ;;
     with_open_w filepath
       (write filepath ("Date: " +:+ date +:+ Py.NL) ;;;
        write filepath ("Title: " +:+ link_text +:+ Py.NL) ;;;
        write filepath (Py.repeat "=" 80 +:+ Py.NL +:+ Py.NL) ;;;
        write filepath content) ;;;
     logger_info ("Saved document to: " +:+ filename))
    is_Exception
    (fun e =>
       match e with
       | TimeoutException => logger_error "Timeout waiting for document content"
       | _ => logger_error ("Error saving document: " +:+ exn_text e)
       end).

(** [go_to_next_page] *)
Definition go_to_next_page : M bool :=
  try_except
    (next_link <- call (EFind (CssSelector "a[title='Go to next page']"))
                    (driver_find_element
                       (CssSelector "a[title='Go to next page']")) ;;
     call (EClick next_link) (element_click next_link) ;;;
     sleep ;;;
     ret true)
    is_NoSuchElement
    (fun _ => logger_info "No more pages to process" ;;; ret false).

(** [cleanup] *)
Definition cleanup : M unit :=
  try_except
    (call EQuit driver_quit)
    is_Exception
    (fun e => logger_error ("Error during cleanup: " +:+ exn_text e)).

(** The body of the [try] inside the [for] loop of [start_scraping]. *)
Definition process_document (link : elem) : M unit :=
  text <- call (EText link) (element_text link) ;;
  let link_text := Py.strip text in
  call (EClick link) (element_click link) ;;;
  sleep ;;;
  extract_and_save_document link_text ;;;
  call EBack driver_back ;;;
  sleep.

Definition page_url (base_url : string) (current_page : N) : string :=
  base_url +:+ "?page=" +:+ pretty current_page.

(** The [for] loop over the links of one page. *)
Fixpoint process_links (base_url : string) (current_page : N)
    (document_links : list elem) : M unit :=
  match document_links with
  | [] => ret tt
  | link :: rest =>
      try_except
        (process_document link)
        is_Exception
        (fun e =>
           logger_error ("Error processing document: " +:+ exn_text e) ;;;
           call (EGet (page_url base_url current_page))
             (driver_get (page_url base_url current_page))) ;;;
      process_links base_url current_page rest
  end.

(** One iteration of the [while True] loop, up to the test of
    [go_to_next_page]. *)
Definition scrape_page (base_url : string) (current_page : N) : M bool :=
  logger_info ("Processing page " +:+ pretty current_page) ;;;
  document_links <- get_document_links ;;
  process_links base_url current_page document_links ;;;
  go_to_next_page.

(** The [while True] loop; [None] when the fuel does not suffice. *)
Fixpoint scrape_pages (fuel : nat) (base_url : string) (current_page : N)
    (st : state B elem) : option (result unit * state B elem) :=
  match fuel with
  | 0 => None
  | S fuel' =>
      match scrape_page base_url current_page st with
      | (Raise e, st') => Some (Raise e, st')
      | (Ok false, st') => Some (Ok tt, st')
      | (Ok true, st') => scrape_pages fuel' base_url (current_page + 1) st'
      end
  end.

(** [start_scraping]: the [try] ... [except Exception] ... [finally]. *)
Definition start_scraping (fuel : nat) (base_url : string)
    (st : state B elem) : option (result unit * state B elem) :=
  match call (EGet base_url) (driver_get base_url) st with
  | (r0, st0) =>
      let body :=
        match r0 with
        | Ok _ => scrape_pages fuel base_url 1 st0
        | Raise e => Some (Raise e, st0)
        end in
      match body with
      | None => None
      | Some (r, st1) =>
          Some (try_finally
                  (try_except (fun _ => (r, st1)) is_Exception
                     (fun e => logger_error ("Fatal error: " +:+ exn_text e)))
                  cleanup st1)
      end
  end.

End ScraperMethods.

(** *** Traces *)

Section Traces.
Context {B elem : Type} `{Capabilities B elem}.

(** Whatever [m] does, it only appends calls to the trace, and the calls
    it appends satisfy [P]. *)
Definition emits {A} (P : list (event elem) -> Prop) (m : M B elem A) : Prop :=
  forall st r st',
    m st = (r, st') -> exists tr, events st' = events st ++ tr /\ P tr.

Definition no_quit (tr : list (event elem)) : Prop := ~ In EQuit tr.

(** The result of a call that [except Exception] has guarded. *)
Definition returns_or_interrupts {A} (r : result A) : Prop :=
  match r with
  | Ok _ => True
  | Raise e => is_Exception e = false
  end.

(** Reading from the browser leaves the files alone. *)
Definition keeps_files {A} (m : M B elem A) : Prop :=
  forall st r st', m st = (r, st') -> files st' = files st.

End Traces.

(** The record that [cleanup] logs for the outcome of [driver.quit()]. *)
Definition cleanup_records (quit_result : result unit) : list log_record :=
  match quit_result with
  | Ok _ => []
  | Raise e =>
      if is_Exception e
      then [LogError ("Error during cleanup: " +:+ exn_text e)]
      else []
  end.

Definition content_locator : locator := ClassName "field-docs-content".

Definition links_locator : locator := CssSelector ".views-field-title a".

(** *** A scripted browser

    A browser whose replies are given in advance, one for each call in
    order; it serves to run the scraper on concrete sessions.  Web elements
    are numbers. *)

Inductive reply : Type :=
| RUnit (r : result unit)
| RElem (r : result nat)
| RElems (r : result (list nat))
| RText (r : result string).

Definition exhausted {A} : result A := Raise (OtherException "script exhausted").

Definition reply_unit (b : list reply) : result unit * list reply :=
  match b with
  | RUnit r :: b' => (r, b')
  | _ => (exhausted, [])
  end.

Definition reply_elem (b : list reply) : result nat * list reply :=
  match b with
  | RElem r :: b' => (r, b')
  | _ => (exhausted, [])
  end.

Definition reply_elems (b : list reply) : result (list nat) * list reply :=
  match b with
  | RElems r :: b' => (r, b')
  | _ => (exhausted, [])
  end.

Definition reply_text (b : list reply) : result string * list reply :=
  match b with
  | RText r :: b' => (r, b')
  | _ => (exhausted, [])
  end.

#[export] Instance scripted : Capabilities (list reply) nat := {|
  driver_get := fun _ => reply_unit;
  driver_back := reply_unit;
  driver_quit := reply_unit;
  driver_find_element := fun _ => reply_elem;
  wait_presence_of_element := fun _ => reply_elem;
  wait_presence_of_all_elements := fun _ => reply_elems;
  element_text := fun _ => reply_text;
  element_click := fun _ => reply_unit;
  can_open := fun _ => true
|}.

Definition session (script : list reply) : state (list reply) nat :=
  State script ∅ [] [].

(** Sessions for the examples.  The replies for one document whose
    content loads: link text, click, wait, date element, its text, content
    element, its text, back. *)
Definition document_replies (title date body : string) : list reply :=
  [ RText (Ok title); RUnit (Ok tt); RElem (Ok 10); RElem (Ok 11);
    RText (Ok date); RElem (Ok 10); RText (Ok body); RUnit (Ok tt) ].

(** One listing page with two documents and no next page. *)
Definition two_documents : list reply :=
  [RUnit (Ok tt); RElems (Ok [1; 2])]
  ++ document_replies " Inaugural Address " "January 20, 2001" "Thank you."
  ++ document_replies "Remarks: Q/A" "soon" "Good morning."
  ++ [RElem (Raise NoSuchElementException); RUnit (Ok tt)].

(** The first navigation fails. *)
Definition browser_crash : list reply :=
  [RUnit (Raise (OtherException "unknown error: net::ERR_CONNECTION_RESET"));
   RUnit (Ok tt)].

(** The replies while one document is extracted. *)
Definition inaugural_page : list reply :=
  [ RElem (Ok 10); RElem (Ok 11); RText (Ok "January 20, 2001");
    RElem (Ok 10); RText (Ok "Thank you.") ].

(** One listing page with two documents of the same title and date. *)
Definition same_title_twice : list reply :=
  [RUnit (Ok tt); RElems (Ok [1; 2])]
  ++ document_replies "Remarks to Reporters" "March 3, 2003" "Morning remarks."
  ++ document_replies "Remarks to Reporters" "March 3, 2003" "Evening remarks."
  ++ [RElem (Raise NoSuchElementException); RUnit (Ok tt)].

(** One listing page with one document whose content never appears. *)
Definition content_timeout : list reply :=
  [ RUnit (Ok tt); RElems (Ok [1]);
    RText (Ok "Radio Address"); RUnit (Ok tt); RElem (Raise TimeoutException);
    RUnit (Ok tt);
    RElem (Raise NoSuchElementException); RUnit (Ok tt) ].

(** A link that cannot be clicked, followed by the reload. *)
Definition stale_link (reload : result unit) : list reply :=
  [ RText (Ok "Radio Address");
    RUnit (Raise (OtherException "stale element reference"));
    RUnit reload ].
(** The subject does not start with white space. *)
Definition no_leading_space (r : string) : Prop :=
  match r with
  | String c _ => Py.is_space c = false
  | EmptyString => True
  end.

(** The text of a date in the literal format Month DD, YYYY, and the
    ISO-8601 text of a date. *)
Definition literal_date (name : string) (d y : N) : string :=
  name +:+ " " +:+ Py.pad2 d +:+ ", " +:+ Py.pad4 y.

Definition iso_date (y m d : N) : string :=
  Py.pad4 y +:+ "-" +:+ Py.pad2 m +:+ "-" +:+ Py.pad2 d.

(** The text that [strftime] prints for a date: year, month and day, the
    year without leading zeros. *)
Definition date_text (y m d : N) : string :=
  pretty y +:+ "-" +:+ Py.pad2 m +:+ "-" +:+ Py.pad2 d.

(** The formatted date is the sentinel or the text of a calendar date. *)
Definition sentinel_or_date (fdate : string) : Prop :=
  fdate = "0000-00-00"
  \/ exists y m d, valid_date y m d = true /\ fdate = date_text y m d.

(** A text that is not in the literal format: the month in mixed case, a
    tabulator and a line feed as separators, a day of one digit. *)
Definition loose_january : string :=
  "jAnUaRy" +:+ String (ascii_of_nat 9) "4," +:+ Py.NL +:+ "2021".

(** What the three substitutions do to one character. *)
Definition clean_char (c : ascii) : ascii :=
  let c1 := if is_invalid c then "_"%char else c in
  let c2 := if Ascii.eqb c1 Py.LF then " "%char else c1 in
  if Ascii.eqb c2 Py.CR then " "%char else c2.

(** A character that may not occur in a sanitised name. *)
Definition forbidden (c : ascii) : bool :=
  is_invalid c || Ascii.eqb c Py.LF || Ascii.eqb c Py.CR.

(** A path of a file that lies directly in the output directory. *)
Definition in_output_dir (path : string) : Prop :=
  exists filename,
    path = output_dir +:+ "/" +:+ filename
    /\ Py.contains_char "/" filename = false.

(** The calls that a run on [base_url] may make: it loads only the
    listing pages of [base_url], and through [open] it touches only files
    in the output directory. *)
Definition confined_event {elem : Type} (base_url : string) (ev : event elem)
  : Prop :=
  match ev with
  | EGet url => url = base_url \/ exists k, url = page_url base_url k
  | EOpen path | EWrite path _ | EClose path => in_output_dir path
  | _ => True
  end.

(** From [st] to [st'] only confined calls were added to the trace, no
    file outside the output directory was changed through [open], and
    records were only appended to the log file. *)
Definition changes_within {B elem : Type} (base_url : string)
    (st st' : state B elem) : Prop :=
  (exists tr, events st' = events st ++ tr
              /\ Forall (confined_event base_url) tr)
  /\ (forall path,
        ~ in_output_dir path -> files st' !! path = files st !! path)
  /\ exists records, log st' = log st ++ records.

Definition confined {B elem A : Type} (base_url : string) (m : M B elem A)
  : Prop :=
  forall st r st', m st = (r, st') -> changes_within base_url st st'.

(** A site without end: every page shows no document, so that the wait
    for the links of the documents times out, and a link to the next
    page; every other call succeeds. *)
Definition endless : Capabilities unit unit := {|
  driver_get := fun _ b => (Ok tt, b);
  driver_back := fun b => (Ok tt, b);
  driver_quit := fun b => (Ok tt, b);
  driver_find_element := fun _ b => (Ok tt, b);
  wait_presence_of_element := fun _ b => (Ok tt, b);
  wait_presence_of_all_elements := fun _ b => (Raise TimeoutException, b);
  element_text := fun _ b => (Ok "", b);
  element_click := fun _ b => (Ok tt, b);
  can_open := fun _ => true
|}.

(** A document page without date and without content. *)
Definition bare_page : list reply :=
  [ RElem (Ok 10); RElem (Raise NoSuchElementException);
    RElem (Raise NoSuchElementException) ].

Definition next_locator : locator := CssSelector "a[title='Go to next page']".

(** The calls made through [open]: on the files of the documents. *)
Definition is_file_event {elem : Type} (ev : event elem) : bool :=
  match ev with
  | EOpen _ | EWrite _ _ | EClose _ => true
  | _ => false
  end.

Definition file_events {elem : Type} (tr : list (event elem))
  : list (event elem) :=
  List.filter is_file_event tr.

(** The calls that save one document: the file is opened, the three
    header lines and the body are written, and the file is closed. *)
Definition save_block {elem : Type} (path date link_text content : string)
  : list (event elem) :=
  [ EOpen path;
    EWrite path ("Date: " +:+ date +:+ Py.NL);
    EWrite path ("Title: " +:+ link_text +:+ Py.NL);
    EWrite path (Py.repeat "=" 80 +:+ Py.NL +:+ Py.NL);
    EWrite path content;
    EClose path ].

(** A sequence of whole saves. *)
Inductive saves {elem : Type} : list (event elem) -> Prop :=
| saves_nil : saves []
| saves_cons path date link_text content rest :
    saves rest -> saves (save_block path date link_text content ++ rest).

End Scraper.

(** ** Ollama_RAG.py and Open_AI_RAG.py *)

Module Rag.

(** A document as the loader returns it. *)
Record Document : Type := { page_content : string; source : string }.

(** The directory tree below a folder. *)
#[warnings="-register-all"] Inductive entry : Type :=
| File (name : string)
| Dir (name : string) (children : list entry).

Definition file_names (es : list entry) : list string :=
  flat_map (fun e => match e with File n => [n] | Dir _ _ => [] end) es.

Definition dir_names (es : list entry) : list string :=
  flat_map (fun e => match e with File _ => [] | Dir n _ => [n] end) es.

(** [os.walk], top-down: a directory is reported with the names of its
    sub-directories and files, then its sub-directories are walked. *)
Fixpoint walk_entry (parent : string) (e : entry)
  : list (string * list string * list string) :=
  match e with
  | File _ => []
  | Dir name children =>
      let here := os_path_join parent name in
      (here, dir_names children, file_names children)
      :: flat_map (walk_entry here) children
  end.

(** [os.walk(top)]; the tree is [None] when [top] is not a directory, and
    then nothing is reported. *)
Definition os_walk (top : string) (tree : option (list entry))
  : list (string * list string * list string) :=
  match tree with
  | None => []
  | Some children =>
      (top, dir_names children, file_names children)
      :: flat_map (walk_entry top) children
  end.

(** The external services: the document loader, the vector store with
    its retriever, the language model and the composed runnable. *)
Class Services (retriever : Type) : Type := {
  (** [Docx2txtLoader(file_path).load()] *)
  loader_load : string -> result (list Document);
  (** [from langchain_community.vectorstores import Chroma] *)
  import_chroma : result unit;
  (** splitting the documents, [Chroma.from_documents] with the embeddings
      of a model, and [as_retriever] *)
  chroma_retriever : string -> nat -> nat -> list Document -> result retriever;
  (** [OllamaLLM(model=model_name).invoke(prompt)] *)
  llm_invoke : string -> string -> result string;
  (** calling the composed retrieval chain with a question *)
  call_runnable : retriever -> string -> string -> string -> result string;
  (** [template.format] with keyword arguments, for a template that is
      not plain: one with a conversion, a format specification, an
      attribute, an index or a position in a replacement field, with a
      field that names no argument, or with a single brace *)
  str_format : string -> list (string * string) -> result string;
  (** [PromptTemplate.from_template(template)], for a template that has
      more than plain fields named context and question *)
  prompt_from_template : string -> result unit
}.

(** What the program prints, the prompts it sends to the language model
    (with the name of the model), and the questions given to [query]. *)
Record console : Type := Console {
  stdout : list string;
  prompts : list (string * string);
  asked : list string
}.

Definition print (line : string) : Eff console unit :=
  fun st => (Ok tt, Console (stdout st ++ [line]) (prompts st) (asked st)).

Definition lift {A} (r : result A) : Eff console A := fun st => (r, st).

(** *** [str.format] with keyword arguments

    A template is plain when its braces are doubled or enclose the name
    of a keyword argument, an identifier of letters, digits and
    underscores, and nothing else.  On plain templates [str.format] is
    computed here: a doubled brace stands for a brace and a field for
    the value of its argument.  On every other template the outcome is
    left to the interpreter, see [str_format]. *)

Fixpoint lookup_kw (kwargs : list (string * string)) (name : string)
  : option string :=
  match kwargs with
  | [] => None
  | (k, v) :: rest => if String.eqb k name then Some v else lookup_kw rest name
  end.

Definition open_brace : ascii := "{".
Definition close_brace : ascii := "}".

Definition is_identifier_char (c : ascii) : bool :=
  let n := Py.code c in
  (((65 <=? n) && (n <=? 90)) || ((97 <=? n) && (n <=? 122)) || (n =? 95))%N
  || Py.is_digit c.

(** [str.isidentifier], for names of the characters above. *)
Definition isidentifier (name : string) : bool :=
  match name with
  | EmptyString => false
  | String c _ => negb (Py.is_digit c) && Py.forallb is_identifier_char name
  end.

(** The text of a plain template, and [None] for a template that is not
    plain.  [field] is [None] outside a replacement field, and the name
    read so far inside one; [lookup] gives the value of an argument. *)
Fixpoint format_plain (lookup : string -> option string) (field : option string)
    (s : string) : option string :=
  match field with
  | None =>
      match s with
      | EmptyString => Some ""
      | String c r =>
          if Ascii.eqb c open_brace then
            match r with
            | String c' r' =>
                if Ascii.eqb c' open_brace
                then option_map (String open_brace) (format_plain lookup None r')
                else format_plain lookup (Some "") r
            | EmptyString => None
            end
          else if Ascii.eqb c close_brace then
            match r with
            | String c' r' =>
                if Ascii.eqb c' close_brace
                then option_map (String close_brace) (format_plain lookup None r')
                else None
            | EmptyString => None
            end
          else option_map (String c) (format_plain lookup None r)
      end
  | Some name =>
      match s with
      | EmptyString => None
      | String c r =>
          if Ascii.eqb c close_brace then
            if isidentifier name then
              match lookup name with
              | Some v => option_map (String.append v) (format_plain lookup None r)
              | None => None
              end
            else None
          else format_plain lookup (Some (name +:+ String c "")) r
      end
  end.

(** *** [DocxRAGSystem] *)

Section WithServices.
Context {retriever : Type} `{Services retriever}.

(** [template.format(context=..., question=...)], for the keyword
    arguments [kwargs]. *)
Definition format (template : string) (kwargs : list (string * string))
  : result string :=
  match format_plain (lookup_kw kwargs) None template with
  | Some text => Ok text
  | None => str_format template kwargs
  end.

(** [PromptTemplate.from_template(template)]: a plain template whose
    fields are context and question is accepted. *)
Definition from_template (template : string) : result unit :=
  match
    format_plain (lookup_kw [("context", ""); ("question", "")]) None template
  with
  | Some _ => Ok tt
  | None => prompt_from_template template
  end.

(** The inner [for] loop of [_load_docx_documents]. *)
Fixpoint load_files (root : string) (files : list string)
    (documents : list Document) : result (list Document) :=
  match files with
  | [] => Ok documents
  | filename :: rest =>
      if Py.endswith filename ".docx" then
        match loader_load (os_path_join root filename) with
        | Ok docs => load_files root rest (documents ++ docs)
        | Raise e => Raise e
        end
      else load_files root rest documents
  end.

(** The outer [for] loop over [os.walk]. *)
Fixpoint load_walk (items : list (string * list string * list string))
    (documents : list Document) : result (list Document) :=
  match items with
  | [] => Ok documents
  | (root, _, files) :: rest =>
      match load_files root files documents with
      | Ok documents' => load_walk rest documents'
      | Raise e => Raise e
      end
  end.

(** [DocxRAGSystem._load_docx_documents] *)
Definition _load_docx_documents (folder_path : string)
    (tree : option (list entry)) : Eff console (list Document) :=
  documents <- lift (load_walk (os_walk folder_path tree) []) ;;
  match documents with
  | [] => raise (ValueError ("No DOCX files found in " +:+ folder_path))
  | _ =>
      print ("Loaded " +:+ pretty (length documents) +:+ " documents") ;;;
      ret documents
  end.

(** [load_docx_texts_from_folder] of Open_AI_RAG.py *)
Fixpoint texts_of_files (root : string) (files : list string)
    (all_text : string) : result string :=
  match files with
  | [] => Ok all_text
  | filename :: rest =>
      if Py.endswith filename ".docx" then
        match loader_load (os_path_join root filename) with
        | Ok documents =>
            texts_of_files root rest
              (all_text +:+ Py.join " " (List.map page_content documents)
               +:+ Py.NL)
        | Raise e => Raise e
        end
      else texts_of_files root rest all_text
  end.

Fixpoint texts_of_walk (items : list (string * list string * list string))
    (all_text : string) : result string :=
  match items with
  | [] => Ok all_text
  | (root, _, files) :: rest =>
      match texts_of_files root files all_text with
      | Ok all_text' => texts_of_walk rest all_text'
      | Raise e => Raise e
      end
  end.

Definition load_docx_texts_from_folder (folder_path : string)
    (tree : option (list entry)) : result string :=
  texts_of_walk (os_walk folder_path tree) "".

(** The chain that [create_retrieval_chain] returns: the closure
    [simple_chain] with the template and the context it captured, or the
    composed runnable. *)
Inductive Chain : Type :=
| simple_chain (template context : string)
| retrieval_chain (r : retriever) (template : string).

Record DocxRAGSystem : Type := {
  folder_path : string;
  model_name : string;
  chunk_size : nat;
  chunk_overlap : nat;
  documents : list Document;
  the_retriever : option retriever;
  chain : Chain
}.

Definition default_template : string :=
"Use the following pieces of context to answer the question. 
            If you don't know the answer, just say that you don't know, don't try to make up an answer.
            
            Context: {context}
            Question: {question}
            
            Helpful Answer:".

(** [create_retrieval_chain] *)
Definition create_retrieval_chain (docs : list Document)
    (r : option retriever) (template : option string) : Eff console Chain :=
  let template := default default_template template in
  lift (from_template template) ;;;
  match r with
  | None =>
      print "No retriever available. Using direct document context." ;;;
      let context := Py.join (Py.NL +:+ Py.NL) (List.map page_content docs) in
      ret (simple_chain template context)
  | Some r => ret (retrieval_chain r template)
  end.

(** [DocxRAGSystem.__init__] *)
Definition init (folder : string) (model : string) (size overlap : nat)
    (tree : option (list entry)) : Eff console DocxRAGSystem :=
  docs <- _load_docx_documents folder tree ;;
  r <- try_except
         (lift import_chroma ;;;
          r <- lift (chroma_retriever model size overlap docs) ;;
          ret (Some r))
         (fun e => match e with ImportError _ => true | _ => false end)
         (fun _ =>
            print "Chroma not available. Falling back to in-memory storage." ;;;
            ret None) ;;
  c <- create_retrieval_chain docs r None ;;
  ret {| folder_path := folder; model_name := model; chunk_size := size;
         chunk_overlap := overlap; documents := docs; the_retriever := r;
         chain := c |}.

(** [DocxRAGSystem.query]: the chain is called with the question. *)
Definition query (self : DocxRAGSystem) (question : string)
  : Eff console string :=
  fun st =>
    let st := Console (stdout st) (prompts st) (asked st ++ [question]) in
    match chain self with
    | simple_chain template context =>
        match format template [("context", context); ("question", question)] with
        | Raise e => (Raise e, st)
        | Ok filled_template =>
            (llm_invoke (model_name self) filled_template,
             Console (stdout st)
               (prompts st ++ [(model_name self, filled_template)])
               (asked st))
        end
    | retrieval_chain r template =>
        (call_runnable r template (model_name self) question, st)
    end.

(** *** [main] *)

(** The namespace that [parser.parse_args()] returns. *)
Record Namespace : Type := { args_folder_path : string; args_model : string }.

(** The two texts shown to the user start with a line feed and a symbol;
    the characters of the symbols are held as their UTF-8 bytes. *)
Definition question_prompt : string :=
  Py.NL +:+ "ðŸ¤– Enter your question (or 'quit' to exit): ".

Definition response_label : string := Py.NL +:+ "ðŸ“„ Response:".

(** The inner [try] of the loop: the question is answered and the answer
    printed, or the error is printed. *)
Definition answer_question (rag_system : DocxRAGSystem) (line : string)
  : Eff console unit :=
  try_except
    (response <- query rag_system line ;;
     print (response_label +:+ " " +:+ response))
    is_Exception
    (fun e => print ("Error processing query: " +:+ exn_text e)).

(** The interactive loop: [lines] is what remains on standard input. *)
Fixpoint interactive_loop (rag_system : DocxRAGSystem) (lines : list string)
  : Eff console unit :=
  match lines with
  | [] => print question_prompt ;;; raise EOFError
  | line :: rest =>
      print question_prompt ;;;
      if String.eqb (Py.lower line) "quit" then ret tt
      else
        answer_question rag_system line ;;;
        interactive_loop rag_system rest
  end.

(** [main], from the parsed arguments on. *)
Definition main (args : Namespace) (tree : option (list entry))
    (lines : list string) : Eff console unit :=
  try_except
    (rag_system <- init (args_folder_path args) "llama3.2" 500 100 tree ;;
     interactive_loop rag_system lines)
    is_Exception
    (fun e => print ("Error initializing RAG system: " +:+ exn_text e)).

End WithServices.

(** *** Specification-side definitions and an example installation *)

(** The number of files below an entry whose name ends in .docx. *)
Fixpoint count_docx (e : entry) : nat :=
  match e with
  | File name => if Py.endswith name ".docx" then 1 else 0
  | Dir _ children => list_sum (List.map count_docx children)
  end.

Definition matching_files (tree : option (list entry)) : nat :=
  match tree with
  | None => 0
  | Some children => list_sum (List.map count_docx children)
  end.

(** The paths that the loops hand to the loader. *)
Definition docx_paths (items : list (string * list string * list string))
  : list string :=
  flat_map
    (fun item =>
       List.map (os_path_join (fst (fst item)))
         (List.filter (fun name => Py.endswith name ".docx") (snd item)))
    items.

(** What the walk of an entry contributes to the paths. *)
Definition walked (e : entry) : Prop :=
  forall parent, length (docx_paths (walk_entry parent e))
                 = match e with File _ => 0 | Dir _ _ => count_docx e end.

Definition is_docx (name : string) : bool := Py.endswith name ".docx".

(** Every matching file yields exactly one document. *)
Definition one_each {retriever : Type} `{Services retriever}
    (paths : list string) : Prop :=
  forall p, In p paths -> exists d, loader_load p = Ok [d].

(** The lines that are questions: those before the first [quit]. *)
Fixpoint questions_before_quit (lines : list string) : list string :=
  match lines with
  | [] => []
  | line :: rest =>
      if String.eqb (Py.lower line) "quit" then []
      else line :: questions_before_quit rest
  end.

(** The default template around its two fields. *)
Definition template_prefix : string :=
"Use the following pieces of context to answer the question. 
            If you don't know the answer, just say that you don't know, don't try to make up an answer.
            
            Context: ".

Definition template_middle : string :=
"
            Question: ".

Definition template_suffix : string :=
"
            
            Helpful Answer:".

(** The installations below are used with the default template only;
    they answer every template that is not plain with one error. *)
Definition other_templates : result string :=
  Raise (ValueError "Single '}' encountered in format string").

(** An installation without the vector store: the import fails. *)
#[export] Instance offline : Services unit := {|
  loader_load := fun path =>
    Ok [ {| page_content := "Text of " +:+ path; source := path |} ];
  import_chroma := Raise (ImportError "No module named 'chromadb'");
  chroma_retriever := fun _ _ _ _ => Ok tt;
  llm_invoke := fun model _ => Ok ("An answer by " +:+ model);
  call_runnable := fun _ _ _ _ =>
    Raise (OtherException "'RunnableSequence' object is not callable");
  str_format := fun _ _ => other_templates;
  prompt_from_template := fun _ => Raise (ValueError "Invalid prompt schema")
|}.

Definition example_system : DocxRAGSystem (retriever:=unit) :=
  {| folder_path := "docs"; model_name := "llama3.2"; chunk_size := 500;
     chunk_overlap := 100;
     documents := [ {| page_content := "Bob stayed home."; source := "b.docx" |} ];
     the_retriever := None;
     chain := simple_chain default_template "Bob stayed home." |}.

Definition blank : console := Console [] [] [].

Definition archive : option (list entry) :=
  Some [ File "notes.txt";
         Dir "2001" [ File "inaugural.docx"; File "scan.pdf" ];
         File "farewell.docx" ].

(** The loads of [_load_docx_documents], in the order of the paths. *)
Fixpoint load_paths {retriever : Type} `{Services retriever}
    (paths : list string) (documents : list Document)
  : result (list Document) :=
  match paths with
  | [] => Ok documents
  | path :: rest =>
      match loader_load path with
      | Ok docs => load_paths rest (documents ++ docs)
      | Raise e => Raise e
      end
  end.

(** The loads of [load_docx_texts_from_folder], in the order of the
    paths. *)
Fixpoint texts_of_paths {retriever : Type} `{Services retriever}
    (paths : list string) (all_text : string) : result string :=
  match paths with
  | [] => Ok all_text
  | path :: rest =>
      match loader_load path with
      | Ok documents =>
          texts_of_paths rest
            (all_text +:+ Py.join " " (List.map page_content documents)
             +:+ Py.NL)
      | Raise e => Raise e
      end
  end.

(** Texts, each followed by a line feed. *)
Fixpoint lines_of (texts : list string) : string :=
  match texts with
  | [] => ""
  | text :: rest => text +:+ Py.NL +:+ lines_of rest
  end.

(** The prompt of the fallback chain for a question. *)
Definition fallback_prompt (docs : list Document) (question : string) : string :=
  template_prefix
  +:+ Py.join (Py.NL +:+ Py.NL) (List.map page_content docs)
  +:+ template_middle +:+ question +:+ template_suffix.

(** What the loop prints for the outcome of a query. *)
Definition outcome_line (r : result string) : string :=
  match r with
  | Ok response => response_label +:+ " " +:+ response
  | Raise e => "Error processing query: " +:+ exn_text e
  end.

(** An installation with a vector store whose embedding service is down. *)
Definition refused : Services unit := {|
  loader_load := fun path =>
    Ok [ {| page_content := "Text of " +:+ path; source := path |} ];
  import_chroma := Ok tt;
  chroma_retriever := fun _ _ _ _ => Raise (OtherException "Connection refused");
  llm_invoke := fun _ _ => Raise (OtherException "Connection refused");
  call_runnable := fun _ _ _ _ => Raise (OtherException "Connection refused");
  str_format := fun _ _ => other_templates;
  prompt_from_template := fun _ => Raise (ValueError "Invalid prompt schema")
|}.

(** An installation whose loader fails on scans. *)
Definition fragile : Services unit := {|
  loader_load := fun path =>
    if Py.contains path "scan"
    then Raise (OtherException "File is not a zip file")
    else Ok [ {| page_content := "Text of " +:+ path; source := path |} ];
  import_chroma := Raise (ImportError "No module named 'chromadb'");
  chroma_retriever := fun _ _ _ _ => Ok tt;
  llm_invoke := fun model _ => Ok ("An answer by " +:+ model);
  call_runnable := fun _ _ _ _ =>
    Raise (OtherException "'RunnableSequence' object is not callable");
  str_format := fun _ _ => other_templates;
  prompt_from_template := fun _ => Raise (ValueError "Invalid prompt schema")
|}.

(** An installation where the module of the vector store is imported,
    and the store cannot be built for want of the package it drives. *)
Definition no_chromadb : Services unit := {|
  loader_load := fun path =>
    Ok [ {| page_content := "Text of " +:+ path; source := path |} ];
  import_chroma := Ok tt;
  chroma_retriever := fun _ _ _ _ =>
    Raise (ImportError "Could not import chromadb python package. Please install it with `pip install chromadb`.");
  llm_invoke := fun model _ => Ok ("An answer by " +:+ model);
  call_runnable := fun _ _ _ _ =>
    Raise (OtherException "'RunnableSequence' object is not callable");
  str_format := fun _ _ => other_templates;
  prompt_from_template := fun _ => Raise (ValueError "Invalid prompt schema")
|}.

Definition scans : option (list entry) :=
  Some [ File "a.docx"; File "scan.docx"; File "z.docx" ].

End Rag.

(** ** The chunk splitter *)

Module Splitter.

(** Modelled from the spec: the programs split text with the library class
    [RecursiveCharacterTextSplitter], whose code is not part of the
    repository.  The definition follows the contract of the specification:
    a window of [chunk_size] characters moves over the text in steps of
    [chunk_size - chunk_overlap], the last chunk is cut to the remaining
    text, and an empty text gives no chunk.  [fuel] bounds the number of
    chunks. *)
Fixpoint split_from (fuel : nat) (text : string)
    (chunk_size chunk_overlap : nat) : list string :=
  match fuel with
  | 0 => []
  | S fuel' =>
      match text with
      | EmptyString => []
      | _ =>
          Py.take chunk_size text
          :: (if String.length text <=? chunk_size then []
              else split_from fuel' (Py.drop (chunk_size - chunk_overlap) text)
                     chunk_size chunk_overlap)
      end
  end.

(** Modelled from the spec: the chunks of a text. *)
Definition split_text (text : string) (chunk_size chunk_overlap : nat)
  : list string :=
  split_from (String.length text) text chunk_size chunk_overlap.

(** Modelled from the spec: the chunks put together again, the overlapping
    prefix of every chunk but the first removed. *)
Definition reconstruct (chunk_overlap : nat) (chunks : list string) : string :=
  match chunks with
  | [] => ""
  | first :: rest =>
      first +:+ String.concat "" (List.map (Py.drop chunk_overlap) rest)
  end.

(** Modelled from the spec: the quotient rounded up. *)
Definition ceil_div (a b : nat) : nat := (a + b - 1) / b.

(** Modelled from the spec: the number of chunks that the specification
    gives for a text of [len] characters. *)
Definition chunk_count (len chunk_size chunk_overlap : nat) : nat :=
  ceil_div (Nat.max (len - chunk_overlap) 0) (chunk_size - chunk_overlap).

(** Modelled from the spec: the number of chunks of a window that covers
    the text: one chunk for a text no longer than the overlap. *)
Definition expected (len chunk_size chunk_overlap : nat) : nat :=
  if len =? 0 then 0
  else if len <=? chunk_overlap then 1
  else chunk_count len chunk_size chunk_overlap.

End Splitter.

(* ================================================================== *)
(** * Theorems *)

Lemma map_length f s : String.length (Py.map f s) = String.length s.
Proof. induction s as [|c s IH]; simpl; congruence. Qed.

(** ** Facts about the string primitives *)

Lemma take_length_le n s : String.length (Py.take n s) <= n.
Proof.
  revert s; induction n as [|n IH]; intros [|c s]; simpl; try lia.
  specialize (IH s); lia.
Qed.

Lemma take_all n s : String.length s <= n -> Py.take n s = s.
Proof.
  revert s; induction n as [|n IH]; intros [|c s]; simpl; intros H;
    try reflexivity; try lia.
  f_equal; apply IH; lia.
Qed.

Lemma take_map f n s : Py.take n (Py.map f s) = Py.map f (Py.take n s).
Proof.
  revert s; induction n as [|n IH]; intros [|c s]; simpl; try reflexivity.
  f_equal; apply IH.
Qed.

Lemma take_take n s : Py.take n (Py.take n s) = Py.take n s.
Proof. apply take_all, take_length_le. Qed.

Lemma map_map f g s : Py.map f (Py.map g s) = Py.map (fun c => f (g c)) s.
Proof. induction s as [|c s IH]; simpl; congruence. Qed.

Lemma map_ext f g s : (forall c, f c = g c) -> Py.map f s = Py.map g s.
Proof. intros E; induction s as [|c s IH]; simpl; congruence. Qed.

Lemma forallb_map p f s :
  Py.forallb p (Py.map f s) = Py.forallb (fun c => p (f c)) s.
Proof. induction s as [|c s IH]; simpl; congruence. Qed.

Lemma forallb_true p s : (forall c, p c = true) -> Py.forallb p s = true.
Proof. intros E; induction s as [|c s IH]; simpl; rewrite ?E, ?IH; auto. Qed.

Lemma forallb_take p n s :
  Py.forallb p s = true -> Py.forallb p (Py.take n s) = true.
Proof.
  revert s; induction n as [|n IH]; intros [|c s]; simpl; auto.
  intros [Hc Hs]%andb_true_iff. rewrite Hc; simpl; auto.
Qed.

Lemma app_assoc_s (a b c : string) : (a +:+ b) +:+ c = a +:+ (b +:+ c).
Proof. induction a as [|x a IH]; simpl; congruence. Qed.

Lemma app_empty_r (a : string) : a +:+ "" = a.
Proof. induction a as [|x a IH]; simpl; congruence. Qed.

Lemma app_length_s (a b : string) :
  String.length (a +:+ b) = String.length a + String.length b.
Proof. induction a as [|x a IH]; simpl; congruence. Qed.

Lemma take_drop n s : Py.take n s +:+ Py.drop n s = s.
Proof.
  revert s; induction n as [|n IH]; intros [|c s]; simpl; try reflexivity.
  now rewrite IH.
Qed.

Lemma take_app a b : Py.take (String.length a) (a +:+ b) = a.
Proof. induction a as [|x a IH]; simpl; [now destruct b|congruence]. Qed.

Lemma drop_app a b : Py.drop (String.length a) (a +:+ b) = b.
Proof. induction a as [|x a IH]; simpl; auto. Qed.

Lemma lower_app a b : Py.lower (a +:+ b) = Py.lower a +:+ Py.lower b.
Proof. unfold Py.lower. induction a as [|x a IH]; simpl; congruence. Qed.

Lemma lower_length a : String.length (Py.lower a) = String.length a.
Proof. apply map_length. Qed.

Lemma lower_char_idem c : Py.lower_char (Py.lower_char c) = Py.lower_char c.
Proof. destruct c as [[] [] [] [] [] [] [] []]; reflexivity. Qed.

Lemma lower_idem s : Py.lower (Py.lower s) = Py.lower s.
Proof.
  unfold Py.lower. rewrite map_map. apply map_ext, lower_char_idem.
Qed.

Lemma forallb_app p a b :
  Py.forallb p (a +:+ b) = Py.forallb p a && Py.forallb p b.
Proof.
  induction a as [|x a IH]; simpl; [reflexivity|].
  now rewrite IH, andb_assoc.
Qed.

(** ** [sanitize_filename] *)

Module SanitizeFacts.
Import Scraper.

Lemma sanitize_unfold s :
  sanitize_filename s = Py.take 240 (Py.map clean_char s).
Proof.
  unfold sanitize_filename, re_sub_class, Py.replace_char.
  rewrite !map_map. fold clean_char.
  destruct (240 <? String.length (Py.map clean_char s)) eqn:E; [reflexivity|].
  apply Nat.ltb_ge in E. symmetry; apply take_all; exact E.
Qed.

Lemma clean_char_idem c : clean_char (clean_char c) = clean_char c.
Proof. destruct c as [[] [] [] [] [] [] [] []]; reflexivity. Qed.

Lemma clean_char_allowed c : forbidden (clean_char c) = false.
Proof. destruct c as [[] [] [] [] [] [] [] []]; reflexivity. Qed.

Lemma sanitize_idempotent s :
  sanitize_filename (sanitize_filename s) = sanitize_filename s.
Proof.
  rewrite !sanitize_unfold, !take_map, take_take, map_map.
  apply map_ext, clean_char_idem.
Qed.

Lemma sanitize_length s : String.length (sanitize_filename s) <= 240.
Proof. rewrite sanitize_unfold; apply take_length_le. Qed.

Lemma sanitize_allowed s :
  Py.forallb (fun c => negb (forbidden c)) (sanitize_filename s) = true.
Proof.
  rewrite sanitize_unfold. apply forallb_take. rewrite forallb_map.
  apply forallb_true. intros c; now rewrite clean_char_allowed.
Qed.

Lemma contains_char_forallb c p s :
  Py.forallb p s = true -> p c = false -> Py.contains_char c s = false.
Proof.
  unfold Py.contains_char.
  induction s as [|a s IH]; simpl; auto.
  intros [Ha Hs]%andb_true_iff Hc.
  rewrite (IH Hs Hc), orb_false_r.
  destruct (Ascii.eqb_spec c a) as [->|]; congruence.
Qed.

(** C4.  [sanitize_filename] is idempotent, its result has at most 240
    characters, and none of the reserved characters
    (less-than, greater-than, colon, double quote, slash, backslash, bar,
    question mark, star), no line feed and no carriage return occurs in
    it. *)
Theorem sanitize_filename_spec (s : string) :
  sanitize_filename (sanitize_filename s) = sanitize_filename s
  /\ String.length (sanitize_filename s) <= 240
  /\ List.forallb
       (fun c => negb (Py.contains_char c (sanitize_filename s)))
       (invalid_chars ++ [Py.LF; Py.CR]) = true.
Proof.
  split; [apply sanitize_idempotent|].
  split; [apply sanitize_length|].
  apply List.forallb_forall. intros c Hc.
  rewrite (contains_char_forallb c _ _ (sanitize_allowed s)); [reflexivity|].
  apply negb_false_iff.
  simpl in Hc. repeat (destruct Hc as [<-|Hc]; [reflexivity|]). destruct Hc.
Qed.

End SanitizeFacts.

(** ** [convert_date_format] *)

Module DateFacts.
Import Scraper.

(** *** Digits *)

Lemma is_digit_char c :
  Py.is_digit c = true ->
  c = Py.digit_char (Py.digit_value c) /\ (Py.digit_value c <= 9)%N.
Proof.
  destruct c as [[] [] [] [] [] [] [] []]; intros H; try discriminate H;
    (split; [reflexivity | vm_compute; discriminate]).
Qed.

Lemma le_9_cases (k : N) :
  (k <= 9)%N -> In k [0; 1; 2; 3; 4; 5; 6; 7; 8; 9]%N.
Proof. intros H; simpl. lia. Qed.

Ltac digit_cases H :=
  apply le_9_cases in H; simpl in H;
  repeat (destruct H as [<-|H]; [|]); [..|destruct H].

Lemma digit_char_props k :
  (k <= 9)%N ->
  Py.is_digit (Py.digit_char k) = true
  /\ Py.is_space (Py.digit_char k) = false
  /\ Py.digit_value (Py.digit_char k) = k.
Proof. intros H. digit_cases H; repeat split; reflexivity. Qed.

Lemma mod10_le k : (k mod 10 <= 9)%N.
Proof. pose proof (N.mod_upper_bound k 10); lia. Qed.

Lemma digits4 y :
  (y <= 9999)%N ->
  (y = 1000 * (y / 1000 mod 10) + 100 * (y / 100 mod 10)
       + 10 * (y / 10 mod 10) + y mod 10)%N.
Proof.
  intros H.
  pose proof (N.div_mod y 10 ltac:(lia)).
  pose proof (N.div_mod (y/10) 10 ltac:(lia)).
  pose proof (N.div_mod (y/100) 10 ltac:(lia)).
  pose proof (N.div_mod (y/1000) 10 ltac:(lia)).
  assert (y / 100 = y / 10 / 10)%N by (rewrite N.Div0.div_div; reflexivity).
  assert (y / 1000 = y / 100 / 10)%N by (rewrite N.Div0.div_div; reflexivity).
  assert (y / 1000 / 10 = 0)%N
    by (apply N.div_small; apply N.Div0.div_lt_upper_bound; lia).
  lia.
Qed.

Lemma lstrip_nonspace c s :
  Py.is_space c = false -> Py.lstrip (String c s) = String c s.
Proof. intros H; simpl; now rewrite H. Qed.

Lemma rstrip_nonspace s :
  Py.forallb (fun c => negb (Py.is_space c)) s = true -> Py.rstrip s = s.
Proof.
  induction s as [|c s IH]; simpl; [reflexivity|].
  intros [Hc Hs]%andb_true_iff. rewrite (IH Hs).
  destruct s; [|reflexivity].
  apply negb_true_iff in Hc. now rewrite Hc.
Qed.

Lemma strip_nonspace s :
  Py.forallb (fun c => negb (Py.is_space c)) s = true -> Py.strip s = s.
Proof.
  intros H. unfold Py.strip.
  destruct s as [|c s]; [reflexivity|].
  pose proof H as H'. simpl in H'. apply andb_true_iff in H' as [Hc _].
  apply negb_true_iff in Hc. rewrite (lstrip_nonspace _ _ Hc).
  now apply rstrip_nonspace.
Qed.

Lemma int_pad4 y : (y <= 9999)%N -> Py.int (Py.pad4 y) = y.
Proof.
  intros H. unfold Py.int.
  pose proof (digit_char_props _ (mod10_le (y / 1000))) as (_ & S3 & V3).
  pose proof (digit_char_props _ (mod10_le (y / 100))) as (_ & S2 & V2).
  pose proof (digit_char_props _ (mod10_le (y / 10))) as (_ & S1 & V1).
  pose proof (digit_char_props _ (mod10_le y)) as (_ & S0 & V0).
  rewrite strip_nonspace.
  - unfold Py.pad4, Py.pad2; simpl. rewrite V3, V2, V1, V0.
    pose proof (digits4 y H). lia.
  - unfold Py.pad4, Py.pad2; simpl. now rewrite S3, S2, S1, S0.
Qed.


(** *** What a matcher returns *)

Lemma in_m_bind {A B} (p : matcher A) (f : A -> matcher B) s b r :
  In (b, r) (m_bind p f s) <->
  exists a r', In (a, r') (p s) /\ In (b, r) (f a r').
Proof.
  unfold m_bind. rewrite in_flat_map. split.
  - intros ([a r'] & Hin & Hf). now exists a, r'.
  - intros (a & r' & Hin & Hf). now exists (a, r').
Qed.

Lemma in_m_ret {A} (a b : A) s r : In (b, r) (m_ret a s) <-> b = a /\ r = s.
Proof.
  unfold m_ret; simpl. split.
  - intros [E|[]]. now inversion E.
  - intros [-> ->]; now left.
Qed.

Lemma in_m_lit_i p s t r :
  In (t, r) (m_lit_i p s) -> s = t +:+ r /\ Py.lower t = Py.lower p.
Proof.
  unfold m_lit_i.
  destruct (String.eqb_spec (Py.lower (Py.take (String.length p) s)) (Py.lower p))
    as [E|E]; [|intros []].
  intros [H|[]]. inversion H; subst. split; [|exact E].
  symmetry; apply take_drop.
Qed.

Lemma in_m_class cls s t r :
  In (t, r) (m_class cls s) ->
  exists c, t = String c "" /\ cls c = true /\ s = String c r.
Proof.
  destruct s as [|c s]; simpl; [intros []|].
  destruct (cls c) eqn:E; [|intros []].
  intros [H|[]]. inversion H; subst. now exists c.
Qed.

Lemma in_m_class2 cls1 cls2 s t r :
  In (t, r) (m_class2 cls1 cls2 s) ->
  exists c1 c2, t = String c1 (String c2 "")
    /\ cls1 c1 = true /\ cls2 c2 = true /\ s = String c1 (String c2 r).
Proof.
  unfold m_class2. rewrite in_m_bind. intros (a & r1 & H1 & H2).
  apply in_m_bind in H2 as (b & r2 & H2 & H3).
  apply in_m_ret in H3 as [-> ->].
  apply in_m_class in H1 as (c1 & -> & Hc1 & ->).
  apply in_m_class in H2 as (c2 & -> & Hc2 & ->).
  now exists c1, c2.
Qed.

Lemma in_spaces_star s w r :
  In (w, r) (m_spaces_star s) ->
  s = w +:+ r /\ Py.forallb Py.is_space w = true.
Proof.
  revert w; induction s as [|c s IH]; intros w; simpl.
  - intros [H|[]]. now inversion H.
  - destruct (Py.is_space c) eqn:E.
    + rewrite in_app_iff, in_map_iff. intros [([w' r'] & H & Hin)|[H|[]]].
      * inversion H; subst; simpl in *. destruct (IH _ Hin) as [-> Hw].
        now rewrite E, Hw.
      * now inversion H.
    + intros [H|[]]. now inversion H.
Qed.

Lemma in_spaces_plus s w r :
  In (w, r) (m_spaces_plus s) -> s = w +:+ r /\ spaces w.
Proof.
  unfold m_spaces_plus, spaces. destruct s as [|c s]; [intros []|].
  destruct (Py.is_space c) eqn:E; [|intros []].
  rewrite in_map_iff. intros ([w' r'] & H & Hin).
  inversion H; subst; simpl in *. destruct (in_spaces_star _ _ _ Hin) as [-> Hw].
  now rewrite E, Hw.
Qed.

Lemma in_m_B s b r :
  In (b, r) (m_B s) -> s = b +:+ r /\ In (Py.lower b) f_month.
Proof.
  unfold m_B.
  assert (Hl : forall x, In x (sorted_by_len_desc f_month) ->
                         In x f_month /\ Py.lower x = x).
  { intros x Hx. vm_compute in Hx.
    repeat (destruct Hx as [<-|Hx]; [split; [vm_compute; tauto|reflexivity]|]).
    destruct Hx. }
  generalize dependent (sorted_by_len_desc f_month). intros l Hl. induction l as [|n l IH]; simpl; [intros []|].
  unfold m_alt. rewrite in_app_iff. intros [H|H].
  - apply in_m_lit_i in H as [-> E]. split; [reflexivity|].
    destruct (Hl n (or_introl eq_refl)) as [Hin Hn]. now rewrite E, Hn.
  - apply IH; [|exact H]. intros x Hx; apply Hl; now right.
Qed.


Lemma in_range_digit lo hi c :
  in_range lo hi c = true -> Py.is_digit lo = true -> Py.is_digit hi = true ->
  Py.is_digit c = true
  /\ (Py.digit_value lo <= Py.digit_value c <= Py.digit_value hi)%N.
Proof.
  unfold in_range, Py.is_digit, Py.digit_value.
  rewrite !andb_true_iff, !N.leb_le. lia.
Qed.

(** A character of the class [lo-hi], both digits, is the digit of some
    [k] between them. *)
Lemma in_range_cases lo hi c :
  in_range lo hi c = true -> Py.is_digit lo = true -> Py.is_digit hi = true ->
  exists k, c = Py.digit_char k /\ (k <= 9)%N
            /\ (Py.digit_value lo <= k <= Py.digit_value hi)%N.
Proof.
  intros H Hlo Hhi. destruct (in_range_digit _ _ _ H Hlo Hhi) as [Hd Hb].
  destruct (is_digit_char _ Hd) as [Hc Hk].
  exists (Py.digit_value c). auto.
Qed.

Lemma is_digit_cases c :
  Py.is_digit c = true -> exists k, c = Py.digit_char k /\ (k <= 9)%N.
Proof.
  intros Hd. destruct (is_digit_char _ Hd). eauto.
Qed.

Ltac to_digit H :=
  first
    [ apply Ascii.eqb_eq in H; subst
    | let k := fresh "k" in
      let Hk := fresh "Hk" in
      let Hb := fresh "Hb" in
      apply in_range_cases in H as (k & -> & Hk & Hb);
      [ unfold Py.digit_value, Py.code in Hb; simpl in Hb;
        digit_cases Hk; try (exfalso; lia) | reflexivity ..]
    | let k := fresh "k" in
      let Hk := fresh "Hk" in
      apply is_digit_cases in H as (k & -> & Hk); digit_cases Hk ].

Lemma in_m_d s t r :
  In (t, r) (m_d s) ->
  s = t +:+ r
  /\ exists pre ds, t = pre +:+ ds /\ (pre = "" \/ pre = " ")
                    /\ day_numeral ds (Py.int t).
Proof.
  unfold m_d, m_alt. rewrite !in_app_iff.
  intros [H|[H|[H|[H|H]]]].
  - apply in_m_class2 in H as (c1 & c2 & -> & H1 & H2 & ->).
    split; [reflexivity|]. to_digit H1. to_digit H2;
      (eexists "", _;
       split; [reflexivity|split; [now left|left; reflexivity]]).
  - apply in_m_class2 in H as (c1 & c2 & -> & H1 & H2 & ->).
    split; [reflexivity|]. to_digit H1; to_digit H2;
      (eexists "", _; split; [reflexivity|split; [now left|left; reflexivity]]).
  - apply in_m_class2 in H as (c1 & c2 & -> & H1 & H2 & ->).
    split; [reflexivity|]. to_digit H1. to_digit H2;
      (eexists "", _; split; [reflexivity|split; [now left|left; reflexivity]]).
  - apply in_m_class in H as (c1 & -> & H1 & ->).
    split; [reflexivity|]. to_digit H1;
      (eexists "", _; split; [reflexivity|split; [now left|]]);
      (right; split; [vm_compute; discriminate|reflexivity]).
  - apply in_m_class2 in H as (c1 & c2 & -> & H1 & H2 & ->).
    split; [reflexivity|]. to_digit H1. to_digit H2;
      (eexists " ", (String _ ""); split; [reflexivity|split; [now right|]]);
      (right; split; [vm_compute; discriminate|reflexivity]).
Qed.

Lemma pad4_digits k1 k2 k3 k4 :
  (k1 <= 9 -> k2 <= 9 -> k3 <= 9 -> k4 <= 9 ->
   Py.pad4 (1000 * k1 + 100 * k2 + 10 * k3 + k4)
   = String (Py.digit_char k1) (String (Py.digit_char k2)
       (String (Py.digit_char k3) (String (Py.digit_char k4) ""))))%N.
Proof.
  intros H1 H2 H3 H4. unfold Py.pad4, Py.pad2.
  set (y := (1000 * k1 + 100 * k2 + 10 * k3 + k4)%N).
  assert (E0 : (y mod 10 = k4)%N).
  { symmetry. apply (N.mod_unique y 10 (100 * k1 + 10 * k2 + k3)); unfold y; lia. }
  assert (D1 : (y / 10 = 100 * k1 + 10 * k2 + k3)%N).
  { symmetry. apply (N.div_unique y 10 _ k4); unfold y; lia. }
  assert (D2 : (y / 100 = 10 * k1 + k2)%N).
  { symmetry. apply (N.div_unique y 100 _ (10 * k3 + k4)); unfold y; lia. }
  assert (D3 : (y / 1000 = k1)%N).
  { symmetry. apply (N.div_unique y 1000 _ (100 * k2 + 10 * k3 + k4)); unfold y; lia. }
  rewrite E0, D1, D2, D3.
  replace ((100 * k1 + 10 * k2 + k3) mod 10)%N with k3
    by (apply (N.mod_unique _ 10 (10 * k1 + k2)); lia).
  replace ((10 * k1 + k2) mod 10)%N with k2
    by (apply (N.mod_unique _ 10 k1); lia).
  replace (k1 mod 10)%N with k1 by (symmetry; apply N.mod_small; lia).
  reflexivity.
Qed.

Lemma in_m_Y s t r :
  In (t, r) (m_Y s) ->
  s = t +:+ r /\ t = Py.pad4 (Py.int t) /\ (Py.int t <= 9999)%N.
Proof.
  unfold m_Y. rewrite in_m_bind. intros (a & r1 & H1 & H2).
  apply in_m_bind in H2 as (b & r2 & H2 & H3).
  apply in_m_ret in H3 as [-> ->].
  apply in_m_class2 in H1 as (c1 & c2 & -> & D1 & D2 & ->).
  apply in_m_class2 in H2 as (c3 & c4 & -> & D3 & D4 & ->).
  split; [reflexivity|]. simpl.
  apply is_digit_cases in D1 as (k1 & -> & K1).
  apply is_digit_cases in D2 as (k2 & -> & K2).
  apply is_digit_cases in D3 as (k3 & -> & K3).
  apply is_digit_cases in D4 as (k4 & -> & K4).
  rewrite <- (pad4_digits k1 k2 k3 k4) by assumption.
  rewrite int_pad4 by lia. split; [reflexivity|lia].
Qed.

Lemma lower_comma t : Py.lower t = Py.lower "," -> t = ",".
Proof.
  destruct t as [|c [|c' t]]; try discriminate.
  intros H. unfold Py.lower in H. simpl in H. injection H as H.
  f_equal. revert H.
  destruct c as [[] [] [] [] [] [] [] []]; intros H; try discriminate H;
    reflexivity.
Qed.

Lemma index_from_month x m :
  index_from 1 x f_month = Some m ->
  exists name', nth_error month_name (N.to_nat m - 1) = Some name'
                /\ Py.lower name' = x /\ (1 <= m <= 12)%N.
Proof.
  unfold f_month, month_name. cbn [index_from List.map].
  repeat match goal with
         | |- context [String.eqb x ?n] =>
             destruct (String.eqb_spec x n) as [->|_];
             [intros [= <-]; eexists; split;
              [reflexivity|split; [reflexivity|lia]]|]
         end.
  discriminate.
Qed.

Lemma spaces_app_pre w pre :
  spaces w -> pre = "" \/ pre = " " -> spaces (w +:+ pre).
Proof.
  intros [Hne Hw] [->| ->].
  - now rewrite app_empty_r.
  - split.
    + destruct w; [congruence|discriminate].
    + rewrite forallb_app, Hw. reflexivity.
Qed.

Lemma head_In {A} (l : list A) x : head l = Some x -> In x l.
Proof. destruct l; simpl; [discriminate|]. intros [= ->]; now left. Qed.

(** Soundness of the parser: a date returned by [strptime] is the date
    the string writes. *)
Lemma strptime_sound s dt :
  strptime s = Ok dt -> written_date s (year dt) (month dt) (day dt).
Proof.
  unfold strptime, re_match.
  destruct (head (format_regex s)) as [[[[b d] y] rest]|] eqn:Hh; [|discriminate].
  destruct (String.eqb rest "") eqn:Er; cbn [negb]; [|discriminate].
  apply String.eqb_eq in Er; subst rest.
  destruct (index_from 1 (Py.lower b) f_month) as [m|] eqn:Hm; [|discriminate].
  destruct (valid_date (Py.int y) m (Py.int d)) eqn:Hv; [|discriminate].
  intros [= <-]; simpl.
  apply head_In in Hh. unfold format_regex in Hh.
  apply in_m_bind in Hh as (b' & r1 & HB & Hh).
  apply in_m_bind in Hh as (w1 & r2 & HW1 & Hh).
  apply in_m_bind in Hh as (d' & r3 & HD & Hh).
  apply in_m_bind in Hh as (c & r4 & HC & Hh).
  apply in_m_bind in Hh as (w2 & r5 & HW2 & Hh).
  apply in_m_bind in Hh as (y' & r6 & HY & Hh).
  apply in_m_ret in Hh as [[= <- <- <-] <-].
  apply in_m_B in HB as [-> _].
  apply in_spaces_plus in HW1 as [-> S1].
  apply in_m_d in HD as [-> (pre & ds & Ed & Hpre & Hds)].
  apply in_m_lit_i in HC as [-> ->%lower_comma].
  apply in_spaces_plus in HW2 as [-> S2].
  apply in_m_Y in HY as [-> [Ey Hy]].
  destruct (index_from_month _ _ Hm) as (name' & Hn & Hl & _).
  exists b, name', (w1 +:+ pre), ds, w2.
  split; [|repeat split; auto using spaces_app_pre; try (apply S2)].
  - rewrite Ed at 1. rewrite <- Ey, app_empty_r, !app_assoc_s. reflexivity.
  - apply (spaces_app_pre _ _ S1 Hpre).
  - apply (spaces_app_pre _ _ S1 Hpre).
Qed.


(** *** The first match *)

Lemma head_m_bind {A B} (p : matcher A) (f : A -> matcher B) s a r x :
  head (p s) = Some (a, r) -> head (f a r) = Some x ->
  head (m_bind p f s) = Some x.
Proof.
  unfold m_bind. destruct (p s) as [|[a' r'] l]; simpl; [discriminate|].
  intros [= -> ->] Hx. rewrite head_app. now rewrite Hx.
Qed.

Lemma m_lit_i_yes p name t :
  Py.lower name = Py.lower p -> m_lit_i p (name +:+ t) = [(name, t)].
Proof.
  intros Hl. unfold m_lit_i.
  assert (E : String.length p = String.length name)
    by (rewrite <- (lower_length p), <- Hl; apply lower_length).
  rewrite E, take_app, drop_app, Hl, String.eqb_refl. reflexivity.
Qed.

Lemma eqb_take_startswith p s :
  String.eqb (Py.take (String.length p) s) p = Py.startswith s p.
Proof.
  revert s; induction p as [|a p IH]; intros [|b s]; simpl; try reflexivity.
  rewrite Ascii.eqb_sym. destruct (Ascii.eqb a b); [apply IH|reflexivity].
Qed.

Lemma m_lit_i_no p s :
  Py.startswith (Py.lower s) (Py.lower p) = false -> m_lit_i p s = [].
Proof.
  intros H. unfold m_lit_i, Py.lower in *.
  rewrite <- take_map, <- (map_length Py.lower_char p), eqb_take_startswith.
  now rewrite H.
Qed.

Lemma m_B_month name name' t :
  In name' month_name -> Py.lower name = Py.lower name' ->
  m_B (name +:+ t) = [(name, t)].
Proof.
  intros Hin Hl. unfold m_B.
  let l := eval vm_compute in (sorted_by_len_desc f_month) in
  change (sorted_by_len_desc f_month) with l.
  cbn [fold_right]. unfold m_alt, m_fail.
  simpl in Hin.
  repeat (destruct Hin as [<-|Hin];
    [repeat first
       [ rewrite (m_lit_i_yes _ name t) by exact Hl
       | rewrite m_lit_i_no by (rewrite lower_app, Hl; reflexivity) ];
     reflexivity|]).
  destruct Hin.
Qed.

Lemma spaces_star_head w r :
  Py.forallb Py.is_space w = true -> no_leading_space r ->
  head (m_spaces_star (w +:+ r)) = Some (w, r).
Proof.
  intros Hw Hr. induction w as [|c w IH]; simpl in *.
  - destruct r as [|c r]; simpl in *; [reflexivity|]. now rewrite Hr.
  - apply andb_true_iff in Hw as [Hc Hw]. rewrite Hc.
    rewrite head_app. specialize (IH Hw).
    destruct (m_spaces_star (w +:+ r)) as [|[w' r'] l]; [discriminate|].
    simpl in *. now inversion IH.
Qed.

Lemma spaces_plus_head w r :
  spaces w -> no_leading_space r ->
  head (m_spaces_plus (w +:+ r)) = Some (w, r).
Proof.
  intros [Hne Hw] Hr. destruct w as [|c w]; [congruence|]. simpl in *.
  apply andb_true_iff in Hw as [Hc Hw]. rewrite Hc.
  pose proof (spaces_star_head w r Hw Hr) as H.
  destruct (m_spaces_star (w +:+ r)) as [|[w' r'] l]; [discriminate|].
  simpl in *. now inversion H.
Qed.

Lemma le_31_cases (d : N) :
  (1 <= d <= 31)%N ->
  In d [1; 2; 3; 4; 5; 6; 7; 8; 9; 10; 11; 12; 13; 14; 15; 16; 17; 18; 19;
        20; 21; 22; 23; 24; 25; 26; 27; 28; 29; 30; 31]%N.
Proof. intros H; simpl. lia. Qed.

Lemma m_d_head ds d r :
  day_numeral ds d -> (1 <= d <= 31)%N ->
  head (m_d (ds +:+ "," +:+ r)) = Some (ds, "," +:+ r) /\ Py.int ds = d.
Proof.
  intros Hds Hd. apply le_31_cases in Hd. simpl in Hd.
  destruct Hds as [->|[H9 ->]];
    repeat (destruct Hd as [<-|Hd];
            [first [split; reflexivity | exfalso; lia]|]);
    destruct Hd.
Qed.

Lemma m_Y_head y :
  (y <= 9999)%N -> head (m_Y (Py.pad4 y)) = Some (Py.pad4 y, "").
Proof.
  intros _. unfold Py.pad4, Py.pad2, m_Y, m_class2, m_bind, m_class.
  pose proof (digit_char_props _ (mod10_le (y / 1000))) as (D3 & _).
  pose proof (digit_char_props _ (mod10_le (y / 100))) as (D2 & _).
  pose proof (digit_char_props _ (mod10_le (y / 10))) as (D1 & _).
  pose proof (digit_char_props _ (mod10_le y)) as (D0 & _).
  simpl. rewrite D3. simpl. rewrite D2. simpl. rewrite D1. simpl. rewrite D0.
  reflexivity.
Qed.

Lemma days_in_month_le y m : (days_in_month y m <= 31)%N.
Proof.
  unfold days_in_month.
  repeat match goal with
         | |- context [match ?x with _ => _ end] => destruct x
         end; lia.
Qed.

Lemma valid_date_bounds y m d :
  valid_date y m d = true ->
  (1 <= y <= 9999 /\ 1 <= m <= 12 /\ 1 <= d <= 31)%N.
Proof.
  unfold valid_date. rewrite !andb_true_iff, !N.leb_le.
  pose proof (days_in_month_le y m). lia.
Qed.

Lemma le_12_cases (m : N) :
  (1 <= m <= 12)%N -> In m [1; 2; 3; 4; 5; 6; 7; 8; 9; 10; 11; 12]%N.
Proof. intros H; simpl. lia. Qed.

Lemma index_of_month m name' :
  (1 <= m <= 12)%N -> nth_error month_name (N.to_nat m - 1) = Some name' ->
  index_from 1 (Py.lower name') f_month = Some m.
Proof.
  intros Hm. apply le_12_cases in Hm. simpl in Hm.
  repeat (destruct Hm as [<-|Hm]; [intros [= <-]; reflexivity|]).
  destruct Hm.
Qed.

Lemma pad4_no_leading_space y : no_leading_space (Py.pad4 y).
Proof.
  unfold Py.pad4; simpl. apply (digit_char_props _ (mod10_le (y / 1000))).
Qed.

Lemma day_numeral_no_leading_space ds d t :
  day_numeral ds d -> no_leading_space (ds +:+ t).
Proof.
  intros [->|[H ->]]; simpl.
  - apply (digit_char_props _ (mod10_le (d / 10))).
  - apply (digit_char_props _ H).
Qed.

(** Completeness of the parser: a string that writes a date is parsed to
    that date. *)
Lemma strptime_complete s y m d :
  written_date s y m d -> strptime s = Ok (Date y m d).
Proof.
  intros (name & name' & w1 & ds & w2 & -> & Hn & Hl & S1 & S2 & Hds & Hv).
  destruct (valid_date_bounds _ _ _ Hv) as (Hy & Hm & Hd).
  destruct (m_d_head ds d (w2 +:+ Py.pad4 y) Hds Hd) as [HD Hint].
  assert (Hh : head (format_regex
                       (name +:+ w1 +:+ ds +:+ "," +:+ w2 +:+ Py.pad4 y))
               = Some ((name, ds, Py.pad4 y), "")).
  { unfold format_regex.
    eapply head_m_bind.
    { rewrite (m_B_month name name'); [reflexivity| |exact Hl].
      eapply nth_error_In; exact Hn. }
    eapply head_m_bind.
    { apply spaces_plus_head; [exact S1|].
      eapply day_numeral_no_leading_space; exact Hds. }
    eapply head_m_bind; [exact HD|].
    eapply head_m_bind; [reflexivity|].
    eapply head_m_bind.
    { simpl. apply spaces_plus_head; [exact S2|apply pad4_no_leading_space]. }
    eapply head_m_bind; [apply m_Y_head; lia|].
    reflexivity. }
  unfold strptime, re_match. rewrite Hh. cbn [String.eqb negb].
  rewrite Hl, (index_of_month m name' Hm Hn), Hint, int_pad4 by lia.
  now rewrite Hv.
Qed.

Lemma strptime_raises s e : strptime s = Raise e -> exists m, e = ValueError m.
Proof.
  unfold strptime.
  destruct (re_match format_regex s) as [[[[b d] y] rest]|]; [|intros [= <-]; eauto].
  destruct (negb (String.eqb rest "")); [intros [= <-]; eauto|].
  destruct (index_from 1 (Py.lower b) f_month); [|intros [= <-]; eauto].
  destruct (valid_date _ _ _); [discriminate|intros [= <-]; eauto].
Qed.

Lemma convert_written s y m d :
  written_date s y m d -> fst (convert_date_format s) = Ok (date_text y m d).
Proof.
  intros H. unfold convert_date_format.
  now rewrite (strptime_complete _ _ _ _ H).
Qed.

Lemma convert_not_written s :
  (forall y m d, ~ written_date s y m d) ->
  fst (convert_date_format s) = Ok "0000-00-00".
Proof.
  intros H. unfold convert_date_format.
  destruct (strptime s) as [dt|e] eqn:E.
  - exfalso. exact (H _ _ _ (strptime_sound _ _ E)).
  - destruct (strptime_raises _ _ E) as [msg ->]. reflexivity.
Qed.

Lemma literal_written name y m d :
  nth_error month_name (N.to_nat m - 1) = Some name ->
  valid_date y m d = true ->
  written_date (literal_date name d y) y m d.
Proof.
  intros Hn Hv. exists name, name, " ", (Py.pad2 d), " ".
  repeat split; try assumption; try reflexivity; try discriminate.
  now left.
Qed.

Lemma pretty_char_digit k : (k <= 9)%N -> pretty_N_char k = Py.digit_char k.
Proof. intros H. digit_cases H; reflexivity. Qed.

(** The decimal text of a year is its four-digit text without the leading
    zeros. *)
Lemma pretty_year y :
  (1 <= y <= 9999)%N ->
  exists k, k <= 3 /\ pretty y = Py.drop k (Py.pad4 y)
            /\ ((1000 <= y)%N -> k = 0).
Proof.
  intros Hy. unfold pretty, pretty_N.
  destruct (decide (y = 0)%N) as [->|_]; [lia|].
  assert (H100 : (y / 10 / 10 = y / 100)%N)
    by (rewrite N.Div0.div_div; reflexivity).
  assert (H1000 : (y / 100 / 10 = y / 1000)%N)
    by (rewrite N.Div0.div_div; reflexivity).
  assert (H10000 : (y / 1000 / 10 = y / 10000)%N)
    by (rewrite N.Div0.div_div; reflexivity).
  assert (Hsmall : forall a : N, (y < a)%N -> (y / a = 0)%N)
    by (intros; now apply N.div_small).
  assert (Hpos : forall a : N, (0 < a)%N -> (a <= y)%N -> (0 < y / a)%N)
    by (intros; apply N.div_str_pos; lia).
  unfold Py.pad4, Py.pad2.
  rewrite pretty_N_go_step by lia.
  rewrite (pretty_char_digit _ (mod10_le y)).
  destruct (N.lt_ge_cases y 10) as [H1|H1].
  { exists 3. rewrite (Hsmall 10%N H1), pretty_N_go_0.
    split; [lia|]. split; [reflexivity|lia]. }
  rewrite pretty_N_go_step by (apply Hpos; lia).
  rewrite (pretty_char_digit _ (mod10_le (y / 10))), H100.
  destruct (N.lt_ge_cases y 100) as [H2|H2].
  { exists 2. rewrite (Hsmall 100%N H2), pretty_N_go_0.
    split; [lia|]. split; [reflexivity|lia]. }
  rewrite pretty_N_go_step by (apply Hpos; lia).
  rewrite (pretty_char_digit _ (mod10_le (y / 100))), H1000.
  destruct (N.lt_ge_cases y 1000) as [H3|H3].
  { exists 1. rewrite (Hsmall 1000%N H3), pretty_N_go_0.
    split; [lia|]. split; [reflexivity|lia]. }
  rewrite pretty_N_go_step by (apply Hpos; lia).
  rewrite (pretty_char_digit _ (mod10_le (y / 1000))), H10000.
  exists 0. rewrite (Hsmall 10000%N ltac:(lia)), pretty_N_go_0.
  split; [lia|]. split; [reflexivity|reflexivity].
Qed.

Lemma date_text_iso y m d :
  (1000 <= y <= 9999)%N -> date_text y m d = iso_date y m d.
Proof.
  intros Hy. destruct (pretty_year y ltac:(lia)) as (k & _ & E & Hk).
  unfold date_text, iso_date. now rewrite E, (Hk (proj1 Hy)).
Qed.


Lemma not_written_not_a_date y m d : ~ written_date "not a date" y m d.
Proof. intros H. apply strptime_complete in H. discriminate H. Qed.

Lemma written_july_4 : written_date "july  4, 1976" 1976 7 4.
Proof.
  exists "july", "July", "  ", "4", " ".
  repeat split; try reflexivity; try discriminate.
  right. split; [lia|reflexivity].
Qed.



End DateFacts.

(** ** Traces of the scraper *)

Module TraceFacts.
Import Scraper.

Section WithBrowser.
Context {B elem : Type} `{Capabilities B elem}.
Local Abbreviation M := (M B elem).
Local Abbreviation quiet := (emits (B:=B) (elem:=elem) no_quit).

Lemma no_quit_nil : no_quit (elem:=elem) [].
Proof. intros []. Qed.

Lemma no_quit_app (a b : list (event elem)) :
  no_quit a -> no_quit b -> no_quit (a ++ b).
Proof. unfold no_quit. rewrite in_app_iff. tauto. Qed.

Lemma no_quit_one (ev : event elem) : ev <> EQuit -> no_quit [ev].
Proof. intros Hne [->|[]]. now apply Hne. Qed.

Lemma quiet_ret {A} (a : A) : quiet (ret a).
Proof.
  intros st r st' [= <- <-]. exists []. rewrite app_nil_r.
  split; [reflexivity|apply no_quit_nil].
Qed.

Lemma quiet_raise {A} e : quiet (raise (A:=A) e).
Proof.
  intros st r st' [= <- <-]. exists []. rewrite app_nil_r.
  split; [reflexivity|apply no_quit_nil].
Qed.

Lemma quiet_bind {A C} (m : M A) (k : A -> M C) :
  quiet m -> (forall a, quiet (k a)) -> quiet (bind m k).
Proof.
  intros Hm Hk st r st'. unfold bind.
  destruct (m st) as [[a|e] st1] eqn:E1.
  - intros E2. destruct (Hm _ _ _ E1) as (t1 & T1 & N1).
    destruct (Hk a _ _ _ E2) as (t2 & T2 & N2).
    exists (t1 ++ t2). rewrite T2, T1, app_assoc. auto using no_quit_app.
  - intros [= <- <-]. exact (Hm _ _ _ E1).
Qed.

Lemma quiet_try_except {A} (body : M A) catches handler :
  quiet body -> (forall e, quiet (handler e)) ->
  quiet (try_except body catches handler).
Proof.
  intros Hb Hh st r st'. unfold try_except.
  destruct (body st) as [[a|e] st1] eqn:E1.
  - intros [= <- <-]. exact (Hb _ _ _ E1).
  - destruct (Hb _ _ _ E1) as (t1 & E & N1).
    destruct (catches e).
    + intros E2. destruct (Hh e _ _ _ E2) as (t2 & T2 & N2).
      exists (t1 ++ t2). rewrite T2, E, app_assoc. auto using no_quit_app.
    + intros [= <- <-]. eauto.
Qed.

Lemma quiet_try_finally {A} (body : M A) fin :
  quiet body -> quiet fin -> quiet (try_finally body fin).
Proof.
  intros Hb Hf st r st'. unfold try_finally.
  destruct (body st) as [r1 st1] eqn:E1.
  destruct (Hb _ _ _ E1) as (t1 & E & N1).
  destruct (fin st1) as [[u|e] st2] eqn:E2;
    destruct (Hf _ _ _ E2) as (t2 & E' & N2);
    intros [= <- <-]; exists (t1 ++ t2);
    rewrite E', E, app_assoc; auto using no_quit_app.
Qed.

Lemma quiet_call {A} ev (op : B -> result A * B) :
  ev <> EQuit -> quiet (call ev op).
Proof.
  intros Hne st r st'. unfold call.
  destruct (op (browser st)) as [r1 b']. intros [= <- <-]; simpl.
  exists [ev]. auto using no_quit_one.
Qed.

Lemma quiet_silent {A} (m : M A) :
  (forall st r st', m st = (r, st') -> events st' = events st) -> quiet m.
Proof.
  intros Hm st r st' E. exists []. rewrite app_nil_r.
  split; [exact (Hm _ _ _ E)|apply no_quit_nil].
Qed.

Lemma quiet_logger_error msg : quiet (logger_error msg).
Proof. apply quiet_silent. now intros st r st' [= <- <-]. Qed.

Lemma quiet_logger_info msg : quiet (logger_info msg).
Proof. apply quiet_silent. now intros st r st' [= <- <-]. Qed.

Lemma quiet_convert d : quiet (convert_date_format_m d).
Proof.
  apply quiet_silent. intros st r st'. unfold convert_date_format_m.
  destruct (convert_date_format d). now intros [= <- <-].
Qed.

Lemma quiet_open_w path : quiet (open_w path).
Proof.
  intros st r st'. unfold open_w. destruct (can_open path); intros [= <- <-].
  - exists [EOpen path]. split; [reflexivity|now apply no_quit_one].
  - exists []. rewrite app_nil_r. split; [reflexivity|apply no_quit_nil].
Qed.

Lemma quiet_write path text : quiet (write path text).
Proof.
  intros st r st' [= <- <-]. exists [EWrite path text].
  split; [reflexivity|now apply no_quit_one].
Qed.

Lemma quiet_close path : quiet (close path).
Proof.
  intros st r st' [= <- <-]. exists [EClose path].
  split; [reflexivity|now apply no_quit_one].
Qed.

Ltac quiet_step :=
  first
    [ apply quiet_ret | apply quiet_raise
    | apply quiet_logger_error | apply quiet_logger_info
    | apply quiet_convert | apply quiet_open_w | apply quiet_write
    | apply quiet_close
    | apply quiet_call; discriminate
    | apply quiet_bind; [|intros ?]
    | apply quiet_try_except; [|intros ?]
    | apply quiet_try_finally
    | match goal with |- emits _ (match ?e with _ => _ end) => destruct e end ].

Ltac quiet_auto := unfold sleep, with_open_w; repeat quiet_step.

Lemma quiet_get_document_links : quiet get_document_links.
Proof. unfold get_document_links. quiet_auto. Qed.

Lemma quiet_extract link_text : quiet (extract_and_save_document link_text).
Proof.
  unfold extract_and_save_document, read_date, read_content. quiet_auto.
Qed.

Lemma quiet_go_to_next_page : quiet go_to_next_page.
Proof. unfold go_to_next_page. quiet_auto. Qed.

Lemma quiet_process_document link : quiet (process_document link).
Proof.
  unfold process_document. quiet_auto.
Qed.

Lemma quiet_process_links base page links :
  quiet (process_links base page links).
Proof.
  induction links as [|link rest IH]; simpl; [apply quiet_ret|].
  apply quiet_bind; [|intros _; exact IH].
  apply quiet_try_except; [apply quiet_process_document|intros e].
  quiet_auto.
Qed.

Lemma quiet_scrape_page base page : quiet (scrape_page base page).
Proof.
  unfold scrape_page. quiet_auto;
    auto using quiet_get_document_links, quiet_process_links,
      quiet_go_to_next_page.
Qed.

Lemma quiet_scrape_pages fuel base page st r st' :
  scrape_pages fuel base page st = Some (r, st') ->
  exists tr, events st' = events st ++ tr /\ no_quit tr.
Proof.
  revert page st. induction fuel as [|fuel IH]; intros page st; simpl;
    [discriminate|].
  destruct (scrape_page base page st) as [[[|]|e] st1] eqn:E;
    destruct (quiet_scrape_page _ _ _ _ _ E) as (t1 & E1 & N1).
  - intros E2. destruct (IH _ _ E2) as (t2 & T2 & N2).
    exists (t1 ++ t2). rewrite T2, E1, app_assoc. auto using no_quit_app.
  - intros [= <- <-]. eauto.
  - intros [= <- <-]. eauto.
Qed.


(** More fuel does not change a result. *)
Lemma scrape_pages_fuel fuel fuel' base page st out :
  scrape_pages fuel base page st = Some out -> fuel <= fuel' ->
  scrape_pages fuel' base page st = Some out.
Proof.
  revert fuel' page st. induction fuel as [|fuel IH]; intros fuel' page st;
    simpl; [discriminate|].
  intros E Hle. destruct fuel' as [|fuel']; [lia|]. simpl.
  destruct (scrape_page base page st) as [[[|]|e] st1]; try exact E.
  apply IH; [exact E|lia].
Qed.

Lemma start_scraping_fuel fuel fuel' base st out :
  start_scraping fuel base st = Some out -> fuel <= fuel' ->
  start_scraping fuel' base st = Some out.
Proof.
  unfold start_scraping.
  destruct (call (EGet base) (driver_get base) st) as [[u|e] st0];
    [|now intros].
  destruct (scrape_pages fuel base 1 st0) as [[r1 st1]|] eqn:E; [|discriminate].
  intros E' Hle. now rewrite (scrape_pages_fuel _ _ _ _ _ _ E Hle).
Qed.

Lemma cleanup_spec (st : state B elem) r st' :
  cleanup st = (r, st') ->
  events st' = events st ++ [EQuit] /\ returns_or_interrupts r.
Proof.
  unfold cleanup, try_except, call, logger_error.
  destruct (driver_quit (browser st)) as [[u|e] b'].
  - intros [= <- <-]. now split.
  - destruct (is_Exception e) eqn:Ee; intros [= <- <-]; now split.
Qed.

Lemma guarded_spec {A} (r1 : result A) (st1 : state B elem)
    (handler : exn -> M A) r2 st2 :
  (forall e st, exists a st', handler e st = (Ok a, st')
                              /\ events st' = events st) ->
  try_except (fun _ => (r1, st1)) is_Exception handler st1 = (r2, st2) ->
  events st2 = events st1 /\ returns_or_interrupts r2.
Proof.
  intros Hh. unfold try_except. destruct r1 as [a|e].
  - intros [= <- <-]. now split.
  - destruct (is_Exception e) eqn:Ee.
    + destruct (Hh e st1) as (a & st' & -> & Hev). intros [= <- <-].
      now split.
    + intros [= <- <-]. now split.
Qed.

Lemma cleanup_calls_quit (st : state B elem) r st' :
  cleanup st = (r, st') ->
  exists rq,
    driver_quit (browser st) = (rq, browser st')
    /\ events st' = events st ++ [EQuit]
    /\ files st' = files st
    /\ log st' = log st ++ cleanup_records rq
    /\ returns_or_interrupts r.
Proof.
  unfold cleanup, try_except, call, logger_error.
  destruct (driver_quit (browser st)) as [[u|e] b'] eqn:Eq.
  - intros [= <- <-]. exists (Ok u). cbn. rewrite app_nil_r. auto.
  - destruct (is_Exception e) eqn:Ee; intros [= <- <-]; exists (Raise e);
      cbn; rewrite Ee, ?app_nil_r; auto.
Qed.

(** C8.  Whenever [start_scraping] returns -- the pages are exhausted, a
    call raised an error that nothing inside intercepted, or an interrupt
    came -- [cleanup] has run: the run made no [quit] before, and at its
    end [driver.quit()] was called on the browser as the run had left it;
    this is the last call, the browser is left as [quit] left it, and no
    file is touched afterwards.  An error of [quit] is logged and not
    raised.  Errors are logged and not raised again, so that the result
    is a normal return unless an interrupt occurred. *)
Theorem cleanup_on_every_exit fuel base (st : state B elem) r st' :
  start_scraping fuel base st = Some (r, st') ->
  exists tr before quit_result,
    events before = events st ++ tr /\ no_quit tr
    /\ driver_quit (browser before) = (quit_result, browser st')
    /\ events st' = events before ++ [EQuit]
    /\ files st' = files before
    /\ log st' = log before ++ cleanup_records quit_result
    /\ returns_or_interrupts r.
Proof.
  unfold start_scraping.
  destruct (call (EGet base) (driver_get base) st) as [r0 st0] eqn:E0.
  assert (Hbody : forall r1 st1,
            match r0 with
            | Ok _ => scrape_pages fuel base 1 st0
            | Raise e => Some (Raise e, st0)
            end = Some (r1, st1) ->
            exists tr, events st1 = events st ++ tr /\ no_quit tr).
  { intros r1 st1 E1.
    destruct (quiet_call (EGet base) (driver_get base) ltac:(discriminate)
                _ _ _ E0) as (t0 & T0 & N0).
    destruct r0 as [u|e].
    - destruct (quiet_scrape_pages _ _ _ _ _ _ E1) as (t1 & T1 & N1).
      exists (t0 ++ t1). rewrite T1, T0, app_assoc. auto using no_quit_app.
    - injection E1 as <- <-. eauto. }
  match goal with
  | |- match ?body with Some _ => _ | None => _ end = _ -> _ =>
      destruct body as [[r1 st1]|]; [|discriminate]
  end.
  destruct (Hbody r1 st1) as (tr & T & N); [reflexivity|]. clear Hbody E0.
  unfold try_finally.
  destruct (try_except _ _ _ st1) as [r2 st2] eqn:E2.
  apply guarded_spec in E2 as [T2 R2];
    [|intros e s; unfold logger_error; eauto].
  destruct (cleanup st2) as [rc stq] eqn:Eq.
  pose proof (cleanup_calls_quit _ _ _ Eq) as (rq & Hq & Tq & Fq & Lq & Rq).
  assert (Hev : events st2 = events st ++ tr) by (rewrite T2; exact T).
  destruct rc as [u|e]; intros [= <- <-];
    exists tr, st2, rq; repeat split; assumption.
Qed.

End WithBrowser.

(** Two runs: one that ends when the pages are exhausted, one that ends
    with a fatal error. *)
Lemma cleanup_on_every_exit_witness :
  (exists r st',
     start_scraping 2 "https://archive.example/documents" (session two_documents)
     = Some (r, st')
     /\ exists tr before quit_result,
          events before = [] ++ tr /\ no_quit tr
          /\ driver_quit (browser before) = (quit_result, browser st')
          /\ events st' = events before ++ [EQuit]
          /\ files st' = files before
          /\ log st' = log before ++ cleanup_records quit_result
          /\ returns_or_interrupts r)
  /\ (exists r st',
        start_scraping 0 "https://archive.example/documents"
          (session browser_crash) = Some (r, st')
        /\ exists tr before quit_result,
             events before = [] ++ tr /\ no_quit tr
             /\ driver_quit (browser before) = (quit_result, browser st')
             /\ events st' = events before ++ [EQuit]
             /\ files st' = files before
             /\ log st' = log before ++ cleanup_records quit_result
             /\ returns_or_interrupts r).
Proof.
  split; eexists _, _; (split; [vm_compute; reflexivity|]).
  - apply (cleanup_on_every_exit 2 "https://archive.example/documents"
             (session two_documents)).
    vm_compute; reflexivity.
  - apply (cleanup_on_every_exit 0 "https://archive.example/documents"
             (session browser_crash)).
    vm_compute; reflexivity.
Defined.

End TraceFacts.

(** ** [extract_and_save_document] *)

Module ExtractFacts.
Import Scraper.

Section WithBrowser.
Context {B elem : Type} `{Capabilities B elem}.
Local Abbreviation M := (M B elem).
Local Abbreviation keeps := (keeps_files (B:=B) (elem:=elem)).

Lemma keeps_bind {A C} (m : M A) (k : A -> M C) :
  keeps m -> (forall a, keeps (k a)) -> keeps (bind m k).
Proof.
  intros Hm Hk st r st'. unfold bind.
  destruct (m st) as [[a|e] st1] eqn:E1.
  - intros E2. rewrite (Hk a _ _ _ E2). exact (Hm _ _ _ E1).
  - intros [= <- <-]. exact (Hm _ _ _ E1).
Qed.

Lemma keeps_try_except {A} (body : M A) catches handler :
  keeps body -> (forall e, keeps (handler e)) ->
  keeps (try_except body catches handler).
Proof.
  intros Hb Hh st r st'. unfold try_except.
  destruct (body st) as [[a|e] st1] eqn:E1.
  - intros [= <- <-]. exact (Hb _ _ _ E1).
  - destruct (catches e).
    + intros E2. rewrite (Hh e _ _ _ E2). exact (Hb _ _ _ E1).
    + intros [= <- <-]. exact (Hb _ _ _ E1).
Qed.

Lemma keeps_call {A} (ev : event elem) (op : B -> result A * B) :
  keeps (call ev op).
Proof.
  intros st r st'. unfold call. destruct (op (browser st)).
  now intros [= <- <-].
Qed.

Lemma keeps_ret {A} (a : A) : keeps (ret a).
Proof. now intros st r st' [= <- <-]. Qed.

Lemma keeps_convert d : keeps (convert_date_format_m d).
Proof.
  intros st r st'. unfold convert_date_format_m.
  destruct (convert_date_format d). now intros [= <- <-].
Qed.

Lemma keeps_read_date : keeps read_date.
Proof.
  unfold read_date.
  repeat first [ apply keeps_ret | apply keeps_call | apply keeps_convert
               | apply keeps_bind; [|intros ?]
               | apply keeps_try_except; [|intros ?] ].
Qed.

Lemma keeps_read_content : keeps read_content.
Proof.
  unfold read_content.
  repeat first [ apply keeps_ret | apply keeps_call
               | apply keeps_bind; [|intros ?]
               | apply keeps_try_except; [|intros ?] ].
Qed.

Lemma strptime_valid s dt :
  strptime s = Ok dt -> valid_date (year dt) (month dt) (day dt) = true.
Proof.
  intros E. apply DateFacts.strptime_sound in E.
  destruct E as (? & ? & ? & ? & ? & ? & ? & ? & ? & ? & ? & Hv). exact Hv.
Qed.

Lemma convert_sentinel_or_date s text :
  fst (convert_date_format s) = Ok text -> sentinel_or_date text.
Proof.
  unfold convert_date_format.
  destruct (strptime s) as [dt|e] eqn:E.
  - intros [= <-]. right. exists (year dt), (month dt), (day dt).
    split; [exact (strptime_valid _ _ E)|reflexivity].
  - destruct e; simpl; try discriminate. intros [= <-]. now left.
Qed.

Lemma read_date_formatted st date fdate st' :
  read_date st = (Ok (date, fdate), st') -> sentinel_or_date fdate.
Proof.
  unfold read_date, try_except, bind, ret, convert_date_format_m.
  destruct (call _ _ st) as [[el|e] st1].
  - destruct (call _ _ st1) as [[text|e] st2].
    + destruct (convert_date_format (Py.strip text)) as [[f|e] records] eqn:E.
      * intros [= <- <- <-]. apply (convert_sentinel_or_date (Py.strip text)).
        now rewrite E.
      * destruct (is_NoSuchElement e); [|discriminate].
        intros [= <- <- <-]. now left.
    + destruct (is_NoSuchElement e); [|discriminate].
      intros [= <- <- <-]. now left.
  - destruct (is_NoSuchElement e); [|discriminate].
    intros [= <- <- <-]. now left.
Qed.


Lemma contains_char_app c a b :
  Py.contains_char c (a +:+ b) = Py.contains_char c a || Py.contains_char c b.
Proof.
  unfold Py.contains_char. induction a as [|x a IH]; simpl; [reflexivity|].
  now rewrite IH, orb_assoc.
Qed.

Lemma slash_not_digit k :
  (k <= 9)%N -> Ascii.eqb "/" (Py.digit_char k) = false.
Proof. intros Hk. DateFacts.digit_cases Hk; reflexivity. Qed.

Lemma contains_char_cons c x s :
  Py.contains_char c (String x s) = Ascii.eqb c x || Py.contains_char c s.
Proof. reflexivity. Qed.

Lemma pad2_no_slash n : Py.contains_char "/" (Py.pad2 n) = false.
Proof.
  unfold Py.pad2. rewrite !contains_char_cons.
  now rewrite !slash_not_digit by apply DateFacts.mod10_le.
Qed.

Lemma pad4_no_slash n : Py.contains_char "/" (Py.pad4 n) = false.
Proof.
  unfold Py.pad4. rewrite !contains_char_cons, pad2_no_slash.
  now rewrite !slash_not_digit by apply DateFacts.mod10_le.
Qed.

Lemma contains_char_drop c k s :
  Py.contains_char c s = false -> Py.contains_char c (Py.drop k s) = false.
Proof.
  revert s; induction k as [|k IH]; intros [|x s] Hs; simpl; try assumption.
  apply IH. rewrite contains_char_cons in Hs.
  now apply orb_false_iff in Hs.
Qed.

Lemma pretty_no_slash y :
  (1 <= y <= 9999)%N -> Py.contains_char "/" (pretty y) = false.
Proof.
  intros Hy. destruct (DateFacts.pretty_year y Hy) as (k & _ & -> & _).
  apply contains_char_drop, pad4_no_slash.
Qed.

Lemma formatted_no_slash fdate :
  sentinel_or_date fdate -> Py.contains_char "/" fdate = false.
Proof.
  intros [->|(y & m & d & Hv & ->)]; [reflexivity|].
  destruct (DateFacts.valid_date_bounds _ _ _ Hv) as (Hy & _).
  unfold date_text.
  rewrite !contains_char_app, (pretty_no_slash y Hy), !pad2_no_slash.
  reflexivity.
Qed.

Lemma sanitized_no_slash t :
  Py.contains_char "/" (sanitize_filename t) = false.
Proof.
  apply (SanitizeFacts.contains_char_forallb _ _ _
           (SanitizeFacts.sanitize_allowed t)).
  reflexivity.
Qed.

Lemma filename_no_slash fdate t :
  sentinel_or_date fdate ->
  Py.contains_char "/" (document_filename fdate t) = false.
Proof.
  intros Hf. unfold document_filename.
  rewrite !contains_char_app, (formatted_no_slash _ Hf), sanitized_no_slash.
  reflexivity.
Qed.

Lemma startswith_contains c s :
  Py.contains_char c s = false -> Py.startswith s (String c "") = false.
Proof.
  unfold Py.contains_char. destruct s as [|x s]; simpl; [reflexivity|].
  intros [Hx _]%orb_false_iff. rewrite Hx. reflexivity.
Qed.

Lemma filepath_under_output_dir filename :
  Py.contains_char "/" filename = false ->
  os_path_join output_dir filename = output_dir +:+ "/" +:+ filename.
Proof.
  intros Hf. unfold os_path_join. now rewrite (startswith_contains _ _ Hf).
Qed.

(** The four writes inside [with open(...)]. *)
Lemma with_open_w_writes path a b c d (st : state B elem) :
  can_open path = true ->
  with_open_w path
    (write path a ;;; write path b ;;; write path c ;;; write path d) st
  = (Ok tt,
     State (browser st) (<[path := a +:+ b +:+ c +:+ d]> (files st)) (log st)
       (events st ++ [EOpen path; EWrite path a; EWrite path b;
                      EWrite path c; EWrite path d; EClose path])).
Proof.
  intros Hopen.
  unfold with_open_w, try_finally, bind, open_w, write, close. rewrite Hopen.
  cbn [browser files log events].
  rewrite !lookup_insert_eq. cbn [default]. rewrite !insert_insert_eq.
  rewrite <- !app_assoc. cbn [List.app]. unfold id.
  change ("" +:+ a) with a.
  now rewrite !app_assoc_s.
Qed.


Lemma bind_Ok {A C} (m : M A) (k : A -> M C) st a st' :
  m st = (Ok a, st') -> bind m k st = k a st'.
Proof. intros E. unfold bind. now rewrite E. Qed.

Lemma bind_Raise {A C} (m : M A) (k : A -> M C) st e st' :
  m st = (Raise e, st') -> bind m k st = (Raise e, st').
Proof. intros E. unfold bind. now rewrite E. Qed.

Lemma try_except_Ok {A} (body : M A) catches handler st a st' :
  body st = (Ok a, st') -> try_except body catches handler st = (Ok a, st').
Proof. intros E. unfold try_except. now rewrite E. Qed.

Lemma try_except_Raise {A} (body : M A) catches handler st e st' :
  body st = (Raise e, st') ->
  try_except body catches handler st
  = if catches e then handler e st' else (Raise e, st').
Proof. intros E. unfold try_except. now rewrite E. Qed.


End WithBrowser.



End ExtractFacts.

(** ** The loop over the documents of a page *)

Module LoopFacts.
Import Scraper.
Import ExtractFacts.

Section WithBrowser.
Context {B elem : Type} `{Capabilities B elem}.
Local Abbreviation M := (M B elem).

Lemma get_document_links_timeout (st : state B elem) b' :
  wait_presence_of_all_elements links_locator (browser st)
  = (Raise TimeoutException, b') ->
  get_document_links st
  = (Ok [],
     State b' (files st)
       (log st ++ [LogError "Timeout waiting for document links"])
       (events st ++ [EWaitAll links_locator])).
Proof.
  intros Hwait. unfold get_document_links. fold links_locator.
  erewrite try_except_Raise
    by (apply bind_Raise; unfold call; rewrite Hwait; reflexivity).
  reflexivity.
Qed.

Lemma extract_returns link_text (st : state B elem) r st' :
  extract_and_save_document link_text st = (r, st') ->
  returns_or_interrupts r.
Proof.
  unfold extract_and_save_document, try_except.
  match goal with |- (match ?body st with _ => _ end) = _ -> _ =>
    destruct (body st) as [[u|e] st1] end.
  - now intros [= <- <-].
  - destruct (is_Exception e) eqn:Ee.
    + destruct e; unfold logger_error; now intros [= <- <-].
    + now intros [= <- <-].
Qed.

Lemma process_links_cons_ok base page link rest (st st1 : state B elem) :
  process_document link st = (Ok tt, st1) ->
  process_links base page (link :: rest) st = process_links base page rest st1.
Proof.
  intros E. cbn [process_links]. unfold bind at 1.
  now rewrite (try_except_Ok _ _ _ _ _ _ E).
Qed.

Lemma process_links_cons_error base page link rest (st st1 : state B elem)
    e b2 :
  process_document link st = (Raise e, st1) ->
  is_Exception e = true ->
  driver_get (page_url base page) (browser st1) = (Ok tt, b2) ->
  process_links base page (link :: rest) st
  = process_links base page rest
      (State b2 (files st1)
         (log st1 ++ [LogError ("Error processing document: " +:+ exn_text e)])
         (events st1 ++ [EGet (page_url base page)])).
Proof.
  intros E Ee Hget. cbn [process_links].
  unfold bind at 1. rewrite (try_except_Raise _ _ _ _ _ _ E), Ee.
  unfold bind at 1, logger_error, call. cbn [browser files log events].
  now rewrite Hget.
Qed.

Lemma process_links_exit base page links (st : state B elem) e st' :
  process_links base page links st = (Raise e, st') ->
  is_Exception e = true ->
  exists st1 b2,
    driver_get (page_url base page) (browser st1) = (Raise e, b2)
    /\ events st' = events st1 ++ [EGet (page_url base page)].
Proof.
  revert st. induction links as [|link rest IH]; intros st; cbn [process_links].
  - discriminate.
  - unfold bind at 1.
    destruct (try_except _ _ _ st) as [[u|e1] st2] eqn:E.
    + apply IH.
    + intros [= -> ->] Ee. revert E. unfold try_except.
      destruct (process_document link st) as [[u|e0] st1]; [discriminate|].
      destruct (is_Exception e0) eqn:Ee0.
      * unfold bind, logger_error, call. cbn [browser files log events].
        destruct (driver_get (page_url base page) (browser st1))
          as [[u|e2] b2] eqn:Hget; [discriminate|].
        intros [= -> <-]. exists st1, b2. split; [exact Hget|reflexivity].
      * intros [= -> <-]. congruence.
Qed.


End WithBrowser.




End LoopFacts.

(** ** Ingestion *)

Module IngestFacts.
Import Rag.

(** Induction on a directory tree. *)
Lemma entry_tree_ind (P : entry -> Prop) :
  (forall name, P (File name)) ->
  (forall name children, Forall P children -> P (Dir name children)) ->
  forall e, P e.
Proof.
  intros HF HD. fix IH 1. intros [name|name children].
  - apply HF.
  - apply HD. induction children as [|e children IHc]; constructor.
    + apply IH.
    + exact IHc.
Qed.

Lemma docx_paths_app a b : docx_paths (a ++ b) = docx_paths a ++ docx_paths b.
Proof. unfold docx_paths. apply flat_map_app. Qed.

Lemma docx_paths_cons root dirs files items :
  length (docx_paths ((root, dirs, files) :: items))
  = length (List.filter (fun name => Py.endswith name ".docx") files)
    + length (docx_paths items).
Proof.
  unfold docx_paths; simpl. now rewrite length_app, length_map.
Qed.

Lemma file_names_file name children :
  file_names (File name :: children) = name :: file_names children.
Proof. reflexivity. Qed.

Lemma file_names_dir name sub children :
  file_names (Dir name sub :: children) = file_names children.
Proof. reflexivity. Qed.

Lemma walked_children children root :
  Forall walked children ->
  length (List.filter (fun name => Py.endswith name ".docx")
            (file_names children))
  + length (docx_paths (flat_map (walk_entry root) children))
  = list_sum (List.map count_docx children).
Proof.
  induction 1 as [|e children He _ IH]; [reflexivity|].
  cbn [flat_map List.map list_sum].
  rewrite docx_paths_app, length_app, (He root).
  destruct e as [name|name sub].
  - rewrite file_names_file. cbn [List.filter count_docx].
    destruct (Py.endswith name ".docx"); simpl in *; lia.
  - rewrite file_names_dir. simpl in *. lia.
Qed.

Lemma walked_all e : walked e.
Proof.
  induction e as [name|name children IH] using entry_tree_ind;
    intros parent; [reflexivity|].
  cbn [walk_entry]. rewrite docx_paths_cons.
  now rewrite (walked_children _ _ IH).
Qed.

Lemma docx_paths_count top tree :
  length (docx_paths (os_walk top tree)) = matching_files tree.
Proof.
  destruct tree as [children|]; [|reflexivity].
  cbn [os_walk matching_files]. rewrite docx_paths_cons.
  apply walked_children. apply Forall_forall. intros e _. apply walked_all.
Qed.


Section WithServices.
Context {retriever : Type} `{Services retriever}.

Lemma load_files_one_each root files acc :
  one_each (List.map (os_path_join root) (List.filter is_docx files)) ->
  exists docs,
    load_files root files acc = Ok (acc ++ docs)
    /\ length docs = length (List.filter is_docx files).
Proof.
  revert acc. induction files as [|name files IH]; intros acc Hone.
  - exists []. now rewrite app_nil_r.
  - cbn [load_files List.filter] in *. fold (is_docx name) in *.
    destruct (is_docx name).
    + destruct (Hone (os_path_join root name)) as [d Hd]; [now left|].
      rewrite Hd.
      destruct (IH (acc ++ [d])) as (docs & E & L).
      { intros p Hp. apply Hone. now right. }
      exists (d :: docs). rewrite E, <- app_assoc. simpl. auto.
    + apply IH, Hone.
Qed.

Lemma load_walk_one_each items acc :
  one_each (docx_paths items) ->
  exists docs,
    load_walk items acc = Ok (acc ++ docs)
    /\ length docs = length (docx_paths items).
Proof.
  revert acc. induction items as [|[[root dirs] files] items IH];
    intros acc Hone.
  - exists []. now rewrite app_nil_r.
  - cbn [load_walk]. unfold docx_paths in Hone. cbn [flat_map fst snd] in Hone.
    destruct (load_files_one_each root files acc) as (d1 & E1 & L1).
    { intros p Hp. apply Hone, in_or_app. now left. }
    rewrite E1.
    destruct (IH (acc ++ d1)) as (d2 & E2 & L2).
    { intros p Hp. apply Hone, in_or_app. now right. }
    exists (d1 ++ d2). rewrite E2, <- app_assoc, docx_paths_cons, length_app.
    unfold is_docx in L1. split; [reflexivity|lia].
Qed.

Lemma texts_of_files_none root files all_text :
  List.filter is_docx files = [] ->
  texts_of_files root files all_text = Ok all_text.
Proof.
  induction files as [|name files IH]; [reflexivity|].
  cbn [texts_of_files List.filter]. fold (is_docx name).
  destruct (is_docx name); [discriminate|exact IH].
Qed.

Lemma texts_of_walk_none items all_text :
  docx_paths items = [] -> texts_of_walk items all_text = Ok all_text.
Proof.
  induction items as [|[[root dirs] files] items IH]; [reflexivity|].
  unfold docx_paths. cbn [flat_map texts_of_walk fst snd].
  intros [E1 E2]%app_eq_nil.
  rewrite texts_of_files_none; [exact (IH E2)|].
  unfold is_docx. destruct (List.filter _ files); [reflexivity|discriminate].
Qed.

(** C3, as amended.  [DocxRAGSystem._load_docx_documents] fails with
    [ValueError] when the tree holds no file whose name ends in .docx,
    and when it holds N > 0 such files, each of which the loader turns
    into one document, it returns exactly N documents.
    [load_docx_texts_from_folder] of Open_AI_RAG.py does not fail on a
    tree without such files: it returns the empty text. *)
Theorem ingestion_counts folder tree (st : console) :
  (matching_files tree = 0 ->
   _load_docx_documents folder tree st
   = (Raise (ValueError ("No DOCX files found in " +:+ folder)), st))
  /\ (0 < matching_files tree ->
      one_each (docx_paths (os_walk folder tree)) ->
      exists docs,
        _load_docx_documents folder tree st
        = (Ok docs,
           Console
             (stdout st
              ++ ["Loaded " +:+ pretty (matching_files tree) +:+ " documents"])
             (prompts st) (asked st))
        /\ length docs = matching_files tree)
  /\ (matching_files tree = 0 ->
      load_docx_texts_from_folder folder tree = Ok "").
Proof.
  pose proof (docx_paths_count folder tree) as Hcount.
  split; [|split].
  - intros H0. rewrite H0 in Hcount.
    destruct (load_walk_one_each (os_walk folder tree) []) as (docs & E & L).
    { intros p Hp. destruct (docx_paths (os_walk folder tree)); [destruct Hp|
        discriminate]. }
    rewrite Hcount in L. destruct docs; [|discriminate].
    unfold _load_docx_documents, bind, lift. now rewrite E.
  - intros Hpos Hone.
    destruct (load_walk_one_each (os_walk folder tree) [] Hone)
      as (docs & E & L).
    rewrite Hcount in L. exists docs. split; [|exact L].
    unfold _load_docx_documents, bind, lift. rewrite E. simpl.
    destruct docs as [|d docs]; [simpl in L; lia|].
    unfold print, ret. now rewrite L.
  - intros H0. rewrite H0 in Hcount. unfold load_docx_texts_from_folder.
    apply texts_of_walk_none.
    destruct (docx_paths (os_walk folder tree)); [reflexivity|discriminate].
Qed.

End WithServices.

(** Ingestion by Open_AI_RAG.py over a folder without documents. *)
Lemma no_documents_no_error :
  matching_files (Some [File "notes.txt"; Dir "old" [File "scan.pdf"]]) = 0
  /\ load_docx_texts_from_folder "presidential_documents"
       (Some [File "notes.txt"; Dir "old" [File "scan.pdf"]])
     = Ok "".
Proof. split; reflexivity. Qed.

Lemma ingestion_counts_witness :
  _load_docx_documents "docs" (Some [File "notes.txt"]) blank
  = (Raise (ValueError ("No DOCX files found in " +:+ "docs")), blank)
  /\ (exists docs,
        _load_docx_documents "docs" archive blank
        = (Ok docs,
           Console
             ([] ++ ["Loaded " +:+ pretty (matching_files archive)
                     +:+ " documents"]) [] [])
        /\ length docs = matching_files archive)
  /\ load_docx_texts_from_folder "docs" (Some [File "notes.txt"]) = Ok "".
Proof.
  split; [|split].
  - exact (proj1 (ingestion_counts (H:=offline) "docs"
                    (Some [File "notes.txt"]) blank) eq_refl).
  - apply (proj1 (proj2 (ingestion_counts (H:=offline) "docs" archive blank))).
    + vm_compute; lia.
    + intros p _. eexists. reflexivity.
  - exact (proj2 (proj2 (ingestion_counts (H:=offline) "docs"
                           (Some [File "notes.txt"]) blank)) eq_refl).
Defined.

End IngestFacts.

(** ** The fallback chain and the interactive loop *)

Module AnswerFacts.
Import Rag.

Lemma startswith_app s b : Py.startswith (s +:+ b) s = true.
Proof.
  induction s as [|c s IH]; simpl; [now destruct b|].
  now rewrite Ascii.eqb_refl.
Qed.

Lemma contains_unfold t s :
  Py.contains t s
  = Py.startswith t s
    || match t with
       | EmptyString => false
       | String _ t' => Py.contains t' s
       end.
Proof. destruct t; reflexivity. Qed.

Lemma contains_app a s b : Py.contains (a +:+ s +:+ b) s = true.
Proof.
  induction a as [|c a IH].
  - change ("" +:+ s +:+ b) with (s +:+ b).
    now rewrite contains_unfold, startswith_app.
  - change (String c a +:+ s +:+ b) with (String c (a +:+ s +:+ b)).
    rewrite contains_unfold, IH. apply orb_true_r.
Qed.

Lemma join_In sep x l :
  In x l -> exists a b, Py.join sep l = a +:+ x +:+ b.
Proof.
  induction l as [|y l IH]; [intros []|].
  intros [->|Hin].
  - destruct l as [|z l].
    + exists "", "". simpl. now rewrite app_empty_r.
    + exists "", (sep +:+ Py.join sep (z :: l)). reflexivity.
  - destruct (IH Hin) as (a & b & E). destruct l as [|z l]; [destruct Hin|].
    exists (y +:+ sep +:+ a), b.
    change (Py.join sep (y :: z :: l)) with (y +:+ sep +:+ Py.join sep (z :: l)).
    now rewrite E, !app_assoc_s.
Qed.

Section WithServices.
Context {retriever : Type} `{Services retriever}.

Lemma format_default context question :
  format default_template [("context", context); ("question", question)]
  = Ok (template_prefix +:+ context +:+ template_middle +:+ question
        +:+ template_suffix).
Proof. vm_compute. reflexivity. Qed.

Lemma from_template_default : from_template default_template = Ok tt.
Proof. vm_compute. reflexivity. Qed.

(** A system that was set up without retriever: the import or the
    building of the store raised an [ImportError], and the chain is the
    fallback chain over the loaded documents. *)
Lemma init_without_retriever folder model size overlap tree (st : console)
    sys st' :
  init folder model size overlap tree st = (Ok sys, st') ->
  the_retriever sys = None ->
  (exists st0,
     _load_docx_documents folder tree st = (Ok (documents sys), st0))
  /\ ((exists msg, import_chroma = Raise (ImportError msg))
      \/ (import_chroma = Ok tt
          /\ exists msg,
               chroma_retriever model size overlap (documents sys)
               = Raise (ImportError msg)))
  /\ chain sys
     = simple_chain default_template
         (Py.join (Py.NL +:+ Py.NL) (List.map page_content (documents sys)))
  /\ model_name sys = model.
Proof.
  intros Hinit Hnone. revert Hnone. revert Hinit.
  unfold init. unfold bind at 1.
  destruct (_load_docx_documents folder tree st) as [[docs|e] st0] eqn:Eload;
    [|discriminate].
  unfold bind at 1, try_except. unfold bind at 1, lift at 1.
  destruct import_chroma as [[]|e] eqn:Ei.
  - unfold bind at 1, lift at 1.
    destruct (chroma_retriever model size overlap docs) as [r|e] eqn:Ec.
    + unfold ret at 1. unfold bind at 1, create_retrieval_chain.
      cbn [default]. unfold bind at 1, lift at 1.
      rewrite from_template_default. unfold ret.
      intros [= <- <-]. discriminate.
    + destruct e; try discriminate.
      unfold bind at 1, print at 1, ret at 1.
      unfold bind at 1, create_retrieval_chain. cbn [default].
      unfold bind at 1, lift at 1. rewrite from_template_default.
      unfold bind at 1, print at 1, ret at 1, ret.
      intros [= <- <-] _. cbn [documents chain model_name].
      split; [eexists; reflexivity|].
      split; [right; split; [reflexivity|eexists; exact Ec]|].
      split; reflexivity.
  - destruct e; try discriminate.
    unfold bind at 1, print at 1, ret at 1.
    unfold bind at 1, create_retrieval_chain. cbn [default].
    unfold bind at 1, lift at 1. rewrite from_template_default.
    unfold bind at 1, print at 1, ret at 1, ret.
    intros [= <- <-] _. cbn [documents chain model_name].
    split; [eexists; reflexivity|].
    split; [left; eexists; reflexivity|].
    split; reflexivity.
Qed.

(** C1.  A system that [__init__] has built without retriever -- the
    import of the vector store raised an [ImportError], or the building
    of the store did, and nothing else leaves the retriever [None] --
    answers every question by sending to the language model the default
    template filled with the texts of all loaded documents, joined by
    blank lines, as the context and with the question; the text of every
    loaded document occurs in that prompt, and the answer of the model is
    returned as it is. *)
Theorem fallback_uses_full_corpus folder model size overlap tree
    (st : console) sys st' :
  init folder model size overlap tree st = (Ok sys, st') ->
  the_retriever sys = None ->
  ((exists msg, import_chroma = Raise (ImportError msg))
   \/ (import_chroma = Ok tt
       /\ exists msg,
            chroma_retriever model size overlap (documents sys)
            = Raise (ImportError msg)))
  /\ (exists st0,
        _load_docx_documents folder tree st = (Ok (documents sys), st0))
  /\ forall question (c : console),
       let context :=
         Py.join (Py.NL +:+ Py.NL) (List.map page_content (documents sys)) in
       let prompt :=
         template_prefix +:+ context +:+ template_middle +:+ question
         +:+ template_suffix in
       query sys question c
       = (llm_invoke model prompt,
          Console (stdout c) (prompts c ++ [(model, prompt)])
            (asked c ++ [question]))
       /\ forall d, In d (documents sys) ->
                    Py.contains prompt (page_content d) = true.
Proof.
  intros Hinit Hnone.
  destruct (init_without_retriever _ _ _ _ _ _ _ _ Hinit Hnone)
    as (Hload & Hwhy & Hc & Hm).
  split; [exact Hwhy|]. split; [exact Hload|].
  intros question c. split.
  - unfold query. rewrite Hc, Hm, format_default. reflexivity.
  - intros d Hd.
    destruct (join_In (Py.NL +:+ Py.NL) (page_content d)
                (List.map page_content (documents sys))) as (a & b & E);
      [now apply in_map|].
    rewrite E.
    replace (template_prefix +:+ (a +:+ page_content d +:+ b)
             +:+ template_middle +:+ question +:+ template_suffix)
      with ((template_prefix +:+ a) +:+ page_content d
            +:+ (b +:+ template_middle +:+ question +:+ template_suffix))
      by now rewrite !app_assoc_s.
    apply contains_app.
Qed.

Lemma query_asked (sys : DocxRAGSystem) question (c : console) r c' :
  query sys question c = (r, c') -> asked c' = asked c ++ [question].
Proof.
  unfold query. destruct (chain sys) as [template context|rt template].
  - destruct (format _ _); now intros [= <- <-].
  - now intros [= <- <-].
Qed.

Lemma answer_question_asked (sys : DocxRAGSystem) line (c : console) r c' :
  answer_question sys line c = (r, c') ->
  asked c' = asked c ++ [line] /\ Scraper.returns_or_interrupts r.
Proof.
  unfold answer_question, try_except, bind.
  destruct (query sys line c) as [[response|e] c1] eqn:Eq;
    apply query_asked in Eq.
  - unfold print. now intros [= <- <-].
  - destruct (is_Exception e) eqn:Ee; unfold print; now intros [= <- <-].
Qed.

Lemma loop_quit (sys : DocxRAGSystem) line rest (st : console) :
  Py.lower line = "quit" ->
  interactive_loop sys (line :: rest) st
  = (Ok tt, Console (stdout st ++ [question_prompt]) (prompts st) (asked st)).
Proof.
  intros Hq. cbn [interactive_loop]. unfold bind, print.
  now rewrite Hq.
Qed.

Lemma loop_question (sys : DocxRAGSystem) line rest (st : console) :
  Py.lower line <> "quit" ->
  interactive_loop sys (line :: rest) st
  = (answer_question sys line ;;; interactive_loop sys rest)
      (Console (stdout st ++ [question_prompt]) (prompts st) (asked st)).
Proof.
  intros Hq. cbn [interactive_loop]. unfold bind at 1, print at 1.
  now destruct (String.eqb_spec (Py.lower line) "quit").
Qed.

Lemma loop_asked (sys : DocxRAGSystem) lines (st : console) st' :
  interactive_loop sys lines st = (Ok tt, st') ->
  asked st' = asked st ++ questions_before_quit lines
  /\ exists line, In line lines /\ Py.lower line = "quit".
Proof.
  revert st. induction lines as [|line rest IH]; intros st.
  - cbn [interactive_loop]. unfold bind, print, raise. discriminate.
  - destruct (String.eqb_spec (Py.lower line) "quit") as [Hq|Hq].
    + rewrite (loop_quit _ _ _ _ Hq). intros [= <-].
      cbn [questions_before_quit asked]. rewrite Hq, app_nil_r. cbn.
      split; [reflexivity|]. exists line. split; [now left|exact Hq].
    + rewrite (loop_question _ _ _ _ Hq). unfold bind at 1.
      destruct (answer_question sys line _) as [[u|e] c1] eqn:Ea;
        [|discriminate].
      apply answer_question_asked in Ea as [Ea _]. cbn [asked] in Ea.
      intros Hl. destruct (IH _ Hl) as [E (q & Hin & Hlow)].
      cbn [questions_before_quit].
      destruct (String.eqb_spec (Py.lower line) "quit"); [contradiction|].
      split.
      * rewrite E, Ea, <- app_assoc. reflexivity.
      * exists q. split; [now right|exact Hlow].
Qed.

Lemma loop_step (sys : DocxRAGSystem) line rest (st : console) :
  Py.lower line <> "quit" ->
  interactive_loop sys (line :: rest) st
  = match
      query sys line
        (Console (stdout st ++ [question_prompt]) (prompts st) (asked st))
    with
    | (Ok response, st1) =>
        interactive_loop sys rest
          (Console (stdout st1 ++ [response_label +:+ " " +:+ response])
             (prompts st1) (asked st1))
    | (Raise e, st1) =>
        if is_Exception e
        then interactive_loop sys rest
               (Console
                  (stdout st1 ++ ["Error processing query: " +:+ exn_text e])
                  (prompts st1) (asked st1))
        else (Raise e, st1)
    end.
Proof.
  intros Hq. rewrite (loop_question _ _ _ _ Hq).
  unfold bind at 1, answer_question, try_except. unfold bind at 1.
  destruct (query sys line _) as [[response|e] st1]; [reflexivity|].
  now destruct (is_Exception e).
Qed.

Lemma loop_prompts (sys : DocxRAGSystem) context lines (st : console) st' :
  chain sys = simple_chain default_template context ->
  interactive_loop sys lines st = (Ok tt, st') ->
  prompts st'
  = prompts st
    ++ List.map
         (fun question =>
            (model_name sys,
             template_prefix +:+ context +:+ template_middle +:+ question
             +:+ template_suffix))
         (questions_before_quit lines).
Proof.
  intros Hc. revert st. induction lines as [|line rest IH]; intros st.
  - cbn [interactive_loop]. unfold bind, print, raise. discriminate.
  - destruct (String.eqb_spec (Py.lower line) "quit") as [Hq|Hq].
    + rewrite (loop_quit _ _ _ _ Hq). intros [= <-].
      cbn [questions_before_quit prompts]. rewrite Hq. cbn.
      now rewrite app_nil_r.
    + rewrite (loop_step _ _ _ _ Hq). unfold query. rewrite Hc, format_default.
      cbn [questions_before_quit].
      destruct (String.eqb_spec (Py.lower line) "quit"); [contradiction|].
      destruct (llm_invoke _ _) as [response|e].
      * intros Hl. rewrite (IH _ Hl). cbn [prompts List.map].
        now rewrite <- app_assoc.
      * destruct (is_Exception e); [|discriminate].
        intros Hl. rewrite (IH _ Hl). cbn [prompts List.map].
        now rewrite <- app_assoc.
Qed.

(** C10.  A line whose lower-case form is quit ends the loop normally:
    nothing but the prompt is printed, [query] is not called and no
    prompt is sent to the language model, and nothing after the line is
    read.  Every other line is given to [query] as the question, on the
    console as it is after the prompt: the answer is printed after the
    label, or the error of the query is printed, and the loop goes on
    with the next line, unless an interrupt ends it.  When the loop ends
    normally, the questions given to [query] are exactly the lines before
    the first line that says quit, in their order, and a system without
    retriever has sent one prompt to the language model for each of them
    and none for the line that says quit. *)
Theorem quit_is_case_insensitive (sys : DocxRAGSystem) :
  (forall line rest (st : console),
     Py.lower line = "quit" ->
     interactive_loop sys (line :: rest) st
     = (Ok tt,
        Console (stdout st ++ [question_prompt]) (prompts st) (asked st)))
  /\ (forall line rest (st : console),
        Py.lower line <> "quit" ->
        interactive_loop sys (line :: rest) st
        = match
            query sys line
              (Console (stdout st ++ [question_prompt]) (prompts st) (asked st))
          with
          | (Ok response, st1) =>
              interactive_loop sys rest
                (Console (stdout st1 ++ [response_label +:+ " " +:+ response])
                   (prompts st1) (asked st1))
          | (Raise e, st1) =>
              if is_Exception e
              then interactive_loop sys rest
                     (Console
                        (stdout st1
                         ++ ["Error processing query: " +:+ exn_text e])
                        (prompts st1) (asked st1))
              else (Raise e, st1)
          end)
  /\ (forall question (c : console) r c',
        query sys question c = (r, c') -> asked c' = asked c ++ [question])
  /\ (forall lines (st : console) st',
        interactive_loop sys lines st = (Ok tt, st') ->
        asked st' = asked st ++ questions_before_quit lines
        /\ exists line, In line lines /\ Py.lower line = "quit")
  /\ (forall context lines (st : console) st',
        chain sys = simple_chain default_template context ->
        interactive_loop sys lines st = (Ok tt, st') ->
        prompts st'
        = prompts st
          ++ List.map
               (fun question =>
                  (model_name sys,
                   template_prefix +:+ context +:+ template_middle
                   +:+ question +:+ template_suffix))
               (questions_before_quit lines)).
Proof.
  split; [intros; now apply loop_quit|].
  split; [intros; now apply loop_step|].
  split; [exact (query_asked sys)|].
  split; [intros lines st st' Hl; exact (loop_asked sys lines st st' Hl)|].
  intros context lines st st'. apply loop_prompts.
Qed.

End WithServices.

(** Two installations: the import fails in the first, the building of
    the store in the second. *)
Lemma fallback_uses_full_corpus_witness :
  (exists sys st',
     init (H:=offline) "docs" "llama3.2" 500 100 archive blank = (Ok sys, st')
     /\ the_retriever sys = None
     /\ fst (query (H:=offline) sys "Where did Alice go?" blank)
        = llm_invoke (Services:=offline) "llama3.2"
            (template_prefix
             +:+ Py.join (Py.NL +:+ Py.NL)
                   (List.map page_content (documents sys))
             +:+ template_middle +:+ "Where did Alice go?" +:+ template_suffix))
  /\ (exists sys st',
        init (H:=no_chromadb) "docs" "llama3.2" 500 100 archive blank
        = (Ok sys, st')
        /\ the_retriever sys = None
        /\ fst (query (H:=no_chromadb) sys "Where did Alice go?" blank)
           = llm_invoke (Services:=no_chromadb) "llama3.2"
               (template_prefix
                +:+ Py.join (Py.NL +:+ Py.NL)
                      (List.map page_content (documents sys))
                +:+ template_middle +:+ "Where did Alice go?"
                +:+ template_suffix)).
Proof.
  split.
  - destruct (init (H:=offline) "docs" "llama3.2" 500 100 archive blank)
      as [[sys|e] st'] eqn:E; [|vm_compute in E; discriminate E].
    assert (Hr : the_retriever sys = None).
    { vm_compute in E. now injection E as <- _. }
    exists sys, st'. split; [reflexivity|]. split; [exact Hr|].
    destruct (fallback_uses_full_corpus (H:=offline) "docs" "llama3.2" 500 100
                archive blank sys st' E Hr) as (_ & _ & Hq).
    now rewrite (proj1 (Hq "Where did Alice go?" blank)).
  - destruct (init (H:=no_chromadb) "docs" "llama3.2" 500 100 archive blank)
      as [[sys|e] st'] eqn:E; [|vm_compute in E; discriminate E].
    assert (Hr : the_retriever sys = None).
    { vm_compute in E. now injection E as <- _. }
    exists sys, st'. split; [reflexivity|]. split; [exact Hr|].
    destruct (fallback_uses_full_corpus (H:=no_chromadb) "docs" "llama3.2"
                500 100 archive blank sys st' E Hr) as (_ & _ & Hq).
    now rewrite (proj1 (Hq "Where did Alice go?" blank)).
Defined.

Lemma quit_is_case_insensitive_witness :
  interactive_loop (H:=offline) example_system ["QUIT"; "never read"] blank
  = (Ok tt, Console ([] ++ [question_prompt]) [] [])
  /\ interactive_loop (H:=offline) example_system ["quit?"; "Quit"] blank
     = match
         query (H:=offline) example_system "quit?"
           (Console ([] ++ [question_prompt]) [] [])
       with
       | (Ok response, st1) =>
           interactive_loop (H:=offline) example_system ["Quit"]
             (Console (stdout st1 ++ [response_label +:+ " " +:+ response])
                (prompts st1) (asked st1))
       | (Raise e, st1) =>
           if is_Exception e
           then interactive_loop (H:=offline) example_system ["Quit"]
                  (Console
                     (stdout st1 ++ ["Error processing query: " +:+ exn_text e])
                     (prompts st1) (asked st1))
           else (Raise e, st1)
       end
  /\ asked (snd (interactive_loop (H:=offline) example_system
                   ["Who stayed home?"; "Quit"; "quit"] blank))
     = [] ++ questions_before_quit ["Who stayed home?"; "Quit"; "quit"]
  /\ prompts (snd (interactive_loop (H:=offline) example_system
                     ["Who stayed home?"; "Quit"; "quit"] blank))
     = [] ++ List.map
               (fun question =>
                  ("llama3.2",
                   template_prefix +:+ "Bob stayed home." +:+ template_middle
                   +:+ question +:+ template_suffix))
               (questions_before_quit ["Who stayed home?"; "Quit"; "quit"]).
Proof.
  destruct (quit_is_case_insensitive (H:=offline) example_system)
    as (Hquit & Hask & _ & Hall & Hprompts).
  split; [exact (Hquit "QUIT" ["never read"] blank eq_refl)|].
  split; [exact (Hask "quit?" ["Quit"] blank ltac:(discriminate))|].
  split.
  - exact (proj1 (Hall ["Who stayed home?"; "Quit"; "quit"] blank
                    (snd (interactive_loop (H:=offline) example_system
                            ["Who stayed home?"; "Quit"; "quit"] blank))
                    ltac:(vm_compute; reflexivity))).
  - exact (Hprompts "Bob stayed home." ["Who stayed home?"; "Quit"; "quit"]
             blank
             (snd (interactive_loop (H:=offline) example_system
                     ["Who stayed home?"; "Quit"; "quit"] blank))
             eq_refl ltac:(vm_compute; reflexivity)).
Defined.

(** C9 at the failing input: the model named on the command line is
    mistral, and the prompt goes to llama3.2.  [main] never reads the
    model argument. *)
Theorem model_flag_is_ignored :
  (forall retriever (services : Services retriever) folder model tree lines
          (st : console),
     main {| args_folder_path := folder; args_model := model |} tree lines st
     = main {| args_folder_path := folder; args_model := "llama3.2" |}
         tree lines st)
  /\ List.map fst
       (prompts
          (snd (main (H:=offline)
                  {| args_folder_path := "docs"; args_model := "mistral" |}
                  archive ["Who stayed home?"; "quit"] blank)))
     = ["llama3.2"].
Proof. split; [reflexivity|vm_compute; reflexivity]. Qed.

End AnswerFacts.

(** ** The chunk splitter *)

Module SplitterFacts.
Import Splitter.

Lemma drop_length n s : String.length (Py.drop n s) = String.length s - n.
Proof.
  revert s; induction n as [|n IH]; intros [|c s]; simpl; try reflexivity.
  apply IH.
Qed.

Lemma drop_drop n m s : Py.drop n (Py.drop m s) = Py.drop (m + n) s.
Proof.
  revert s; induction m as [|m IH]; intros s; [reflexivity|].
  destruct s as [|c s]; [now destruct n|]. simpl. apply IH.
Qed.

Lemma take_length n s : String.length (Py.take n s) = Nat.min n (String.length s).
Proof.
  revert s; induction n as [|n IH]; intros [|c s]; simpl; try reflexivity.
  now rewrite IH.
Qed.

Lemma take_le_drop n m s :
  n <= m -> Py.take m s = Py.take n s +:+ Py.take (m - n) (Py.drop n s).
Proof.
  revert m s; induction n as [|n IH]; intros m s Hle.
  - rewrite Nat.sub_0_r. now destruct s.
  - destruct m as [|m]; [lia|]. destruct s as [|c s].
    + simpl. now destruct (m - n).
    + simpl. f_equal. apply IH. lia.
Qed.

Lemma drop_app_le n a b :
  n <= String.length a -> Py.drop n (a +:+ b) = Py.drop n a +:+ b.
Proof.
  revert a; induction n as [|n IH]; intros a Hn; [now destruct a|].
  destruct a as [|c a]; [simpl in Hn; lia|].
  simpl. apply IH. simpl in Hn. lia.
Qed.

Lemma concat_cons x l :
  String.concat "" (x :: l) = x +:+ String.concat "" l.
Proof. destruct l; simpl; [now rewrite app_empty_r|reflexivity]. Qed.

Lemma ceil_div_step a b : 0 < b -> ceil_div (a + b) b = S (ceil_div a b).
Proof.
  intros Hb. unfold ceil_div.
  replace (a + b + b - 1) with ((a + b - 1) + 1 * b) by lia.
  rewrite Nat.div_add by lia. lia.
Qed.

Lemma ceil_div_small a b : 0 < a -> a <= b -> ceil_div a b = 1.
Proof.
  intros Ha Hb. unfold ceil_div.
  replace (a + b - 1) with ((a - 1) + 1 * b) by lia.
  rewrite Nat.div_add by lia. rewrite Nat.div_small by lia. reflexivity.
Qed.

Lemma expected_last len C O :
  O < C -> 0 < len -> len <= C -> expected len C O = 1.
Proof.
  intros HO Hl HC. unfold expected, chunk_count.
  destruct (Nat.eqb_spec len 0); [lia|].
  destruct (Nat.leb_spec len O); [reflexivity|].
  rewrite Nat.max_0_r. apply ceil_div_small; lia.
Qed.

Lemma expected_more len C O :
  O < C -> C < len -> expected len C O = S (expected (len - (C - O)) C O).
Proof.
  intros HO HC. unfold expected, chunk_count.
  destruct (Nat.eqb_spec len 0); [lia|].
  destruct (Nat.leb_spec len O); [lia|].
  destruct (Nat.eqb_spec (len - (C - O)) 0); [lia|].
  destruct (Nat.leb_spec (len - (C - O)) O); [lia|].
  rewrite !Nat.max_0_r.
  replace (len - O) with ((len - (C - O) - O) + (C - O)) by lia.
  apply ceil_div_step. lia.
Qed.

Section Window.
Variables chunk_size chunk_overlap : nat.
Hypothesis overlap_lt : chunk_overlap < chunk_size.

Local Abbreviation step := (chunk_size - chunk_overlap).

Lemma split_from_nth fuel text :
  String.length text <= fuel ->
  forall i, i < length (split_from fuel text chunk_size chunk_overlap) ->
    nth i (split_from fuel text chunk_size chunk_overlap) ""
    = Py.take chunk_size (Py.drop (i * step) text).
Proof.
  revert text; induction fuel as [|fuel IH]; intros text Hf i Hi;
    [simpl in Hi; lia|].
  destruct text as [|c text]; [simpl in Hi; lia|].
  cbn [split_from] in *.
  destruct i as [|i]; [reflexivity|].
  cbn [nth length] in *.
  destruct (String.length (String c text) <=? chunk_size) eqn:E;
    [simpl in Hi; lia|].
  rewrite IH.
  - rewrite drop_drop. f_equal; lia.
  - rewrite drop_length. simpl in *. lia.
  - lia.
Qed.

Lemma split_from_length fuel text :
  String.length text <= fuel ->
  length (split_from fuel text chunk_size chunk_overlap)
  = expected (String.length text) chunk_size chunk_overlap.
Proof.
  revert text; induction fuel as [|fuel IH]; intros text Hf.
  - destruct text; [reflexivity|simpl in Hf; lia].
  - destruct text as [|c text]; [reflexivity|].
    cbn [split_from].
    destruct (Nat.leb_spec (String.length (String c text)) chunk_size) as [E|E].
    + rewrite expected_last; [reflexivity|assumption|simpl; lia|assumption].
    + rewrite expected_more by assumption. cbn [length]. f_equal.
      rewrite IH by (rewrite drop_length; simpl in *; lia).
      now rewrite drop_length.
Qed.

Lemma split_from_reconstruct fuel text :
  String.length text <= fuel ->
  reconstruct chunk_overlap (split_from fuel text chunk_size chunk_overlap)
  = text.
Proof.
  revert text; induction fuel as [|fuel IH]; intros text Hf.
  - destruct text; [reflexivity|simpl in Hf; lia].
  - destruct text as [|c text]; [reflexivity|].
    cbn [split_from].
    destruct (Nat.leb_spec (String.length (String c text)) chunk_size) as [E|E].
    + cbn [reconstruct List.map String.concat].
      rewrite app_empty_r. now apply take_all.
    + specialize (IH (Py.drop step (String c text))).
      rewrite drop_length in IH. specialize (IH ltac:(simpl in *; lia)).
      remember (String c text) as t eqn:Et.
      destruct (split_from fuel (Py.drop step t) chunk_size chunk_overlap)
        as [|first rest] eqn:Es.
      * cbn [reconstruct] in IH.
        assert (String.length (Py.drop step t) = 0) as L by now rewrite <- IH.
        rewrite drop_length in L. lia.
      * cbn [reconstruct] in IH |- *. cbn [List.map].
        rewrite concat_cons.
        assert (chunk_overlap <= String.length first) as Hlen.
        { pose proof (split_from_nth fuel (Py.drop step t)) as Hn.
          rewrite Es in Hn.
          assert (String.length (Py.drop step t) <= fuel) as Hd.
          { rewrite drop_length. lia. }
          specialize (Hn Hd 0 (Nat.lt_0_succ _)).
          cbn [nth] in Hn. rewrite Hn, take_length, !drop_length. lia. }
        rewrite <- drop_app_le by exact Hlen.
        rewrite IH, drop_drop.
        replace (step + chunk_overlap) with chunk_size by lia.
        apply take_drop.
Qed.

End Window.

(** C2, as amended.  For a text, a chunk size and a smaller overlap, the
    window splitter of the specification gives chunks of which the i-th is
    the text from offset i * (chunk_size - overlap) on, cut to chunk_size
    characters; put together without the overlapping prefixes they are the
    text again; an empty text gives no chunk; and the number of chunks is
    ceil (max (len - overlap) 0 / (chunk_size - overlap)) when the text is
    empty or longer than the overlap, and 1 when it is not empty and no
    longer than the overlap. *)
Theorem split_text_spec text chunk_size chunk_overlap :
  chunk_overlap < chunk_size ->
  (forall i, i < length (split_text text chunk_size chunk_overlap) ->
     nth i (split_text text chunk_size chunk_overlap) ""
     = Py.take chunk_size (Py.drop (i * (chunk_size - chunk_overlap)) text))
  /\ reconstruct chunk_overlap (split_text text chunk_size chunk_overlap) = text
  /\ split_text "" chunk_size chunk_overlap = []
  /\ (String.length text = 0 \/ chunk_overlap < String.length text ->
      length (split_text text chunk_size chunk_overlap)
      = chunk_count (String.length text) chunk_size chunk_overlap)
  /\ (0 < String.length text <= chunk_overlap ->
      length (split_text text chunk_size chunk_overlap) = 1).
Proof.
  intros Hlt. unfold split_text.
  split; [now apply split_from_nth|].
  split; [now apply split_from_reconstruct|].
  split; [reflexivity|].
  rewrite (split_from_length _ _ Hlt) by reflexivity. unfold expected.
  split.
  - intros [H0|Hl].
    + rewrite H0. cbn [Nat.eqb]. unfold chunk_count, ceil_div.
      cbn [Nat.sub Nat.max Nat.add]. apply eq_sym, Nat.div_small. lia.
    + destruct (Nat.eqb_spec (String.length text) 0); [lia|].
      destruct (Nat.leb_spec (String.length text) chunk_overlap); [lia|].
      reflexivity.
  - intros [Hpos Hle].
    destruct (Nat.eqb_spec (String.length text) 0); [lia|].
    destruct (Nat.leb_spec (String.length text) chunk_overlap); [|lia].
    reflexivity.
Qed.

(** A text no longer than the overlap: the count of the specification is
    0, and no sequence of 0 chunks covers the text. *)
Lemma short_text_has_a_chunk :
  split_text "ab" 3 2 = ["ab"]
  /\ chunk_count (String.length "ab") 3 2 = 0
  /\ forall chunks,
       reconstruct 2 chunks = "ab" ->
       length chunks <> chunk_count (String.length "ab") 3 2.
Proof.
  split; [reflexivity|]. split; [reflexivity|].
  intros [|first rest]; [discriminate|]. cbn. discriminate.
Qed.

Lemma split_text_spec_witness :
  nth 1 (split_text "Alice went to the store." 20 5) ""
  = Py.take 20 (Py.drop (1 * (20 - 5)) "Alice went to the store.")
  /\ reconstruct 5 (split_text "Alice went to the store." 20 5)
     = "Alice went to the store."
  /\ length (split_text "Alice went to the store." 20 5)
     = chunk_count (String.length "Alice went to the store.") 20 5
  /\ length (split_text "Bob" 20 5) = 1.
Proof.
  destruct (split_text_spec "Alice went to the store." 20 5 ltac:(lia))
    as (Hnth & Hrec & _ & Hcount & _).
  split; [apply Hnth; vm_compute; lia|].
  split; [exact Hrec|].
  split; [apply Hcount; right; vm_compute; lia|].
  apply (split_text_spec "Bob" 20 5 ltac:(lia)). vm_compute. lia.
Defined.

End SplitterFacts.

(** ** File names *)

Module NameFacts.
Import Scraper.

Lemma length_take n s :
  String.length (Py.take n s) = Nat.min n (String.length s).
Proof.
  revert s; induction n as [|n IH]; intros [|c s]; simpl; try reflexivity.
  now rewrite IH.
Qed.

Lemma clean_char_keeps c : forbidden c = false -> clean_char c = c.
Proof. destruct c as [[] [] [] [] [] [] [] []]; intros E; try reflexivity; discriminate E. Qed.

Lemma clean_char_invalid c : is_invalid c = true -> clean_char c = "_"%char.
Proof. destruct c as [[] [] [] [] [] [] [] []]; intros E; try reflexivity; discriminate E. Qed.

Lemma map_clean_keeps s :
  Py.forallb (fun c => negb (forbidden c)) s = true -> Py.map clean_char s = s.
Proof.
  induction s as [|c s IH]; simpl; [reflexivity|].
  intros [Hc Hs]%andb_true_iff. apply negb_true_iff in Hc.
  now rewrite (clean_char_keeps _ Hc), (IH Hs).
Qed.

Lemma map_app f a b : Py.map f (a +:+ b) = Py.map f a +:+ Py.map f b.
Proof. induction a as [|c a IH]; simpl; [reflexivity|now rewrite IH]. Qed.

(** [sanitize_filename] keeps the length of a name up to 240 characters,
    and the names it leaves as they are are exactly those of at most 240
    characters without a reserved character, line feed or carriage
    return. *)
Theorem sanitize_filename_fixed_points (s : string) :
  String.length (sanitize_filename s) = Nat.min 240 (String.length s)
  /\ (sanitize_filename s = s
      <-> String.length s <= 240
          /\ Py.forallb (fun c => negb (forbidden c)) s = true).
Proof.
  split.
  - now rewrite SanitizeFacts.sanitize_unfold, length_take, map_length.
  - split.
    + intros E. split.
      * rewrite <- E. apply SanitizeFacts.sanitize_length.
      * rewrite <- E. apply SanitizeFacts.sanitize_allowed.
    + intros [Hlen Hs]. rewrite SanitizeFacts.sanitize_unfold.
      rewrite (map_clean_keeps _ Hs). now apply take_all.
Qed.

Lemma sanitize_filename_fixed_points_witness :
  sanitize_filename "Inaugural Address" = "Inaugural Address".
Proof.
  apply (proj2 (sanitize_filename_fixed_points "Inaugural Address")).
  split; [vm_compute; lia|reflexivity].
Defined.

(** Titles that agree on their first 240 characters get the same name,
    and so do titles that differ only in which reserved character stands
    at some position. *)
Theorem sanitize_filename_collisions :
  (forall s t, Py.take 240 s = Py.take 240 t ->
               sanitize_filename s = sanitize_filename t)
  /\ (forall a b c d, is_invalid c = true -> is_invalid d = true ->
        sanitize_filename (a +:+ String c b)
        = sanitize_filename (a +:+ String d b)).
Proof.
  split.
  - intros s t E. rewrite !SanitizeFacts.sanitize_unfold, !take_map.
    now rewrite E.
  - intros a b c d Hc Hd. rewrite !SanitizeFacts.sanitize_unfold, !map_app.
    cbn [Py.map]. now rewrite (clean_char_invalid _ Hc), (clean_char_invalid _ Hd).
Qed.

Lemma sanitize_filename_collisions_witness :
  sanitize_filename (Py.repeat "a" 240 +:+ "b")
  = sanitize_filename (Py.repeat "a" 240 +:+ "c")
  /\ sanitize_filename ("Remarks: Q" +:+ String "/" "A")
     = sanitize_filename ("Remarks: Q" +:+ String ":" "A").
Proof.
  split.
  - apply (proj1 sanitize_filename_collisions). vm_compute. reflexivity.
  - apply (proj2 sanitize_filename_collisions); reflexivity.
Defined.

(** *** The name of the file of a document *)

Lemma forallb_app_s p a b :
  Py.forallb p (a +:+ b) = Py.forallb p a && Py.forallb p b.
Proof.
  induction a as [|c a IH]; simpl; [reflexivity|].
  now rewrite IH, andb_assoc.
Qed.

Lemma digit_allowed k : (k <= 9)%N -> forbidden (Py.digit_char k) = false.
Proof. intros Hk. DateFacts.digit_cases Hk; reflexivity. Qed.

Lemma pad2_allowed n : Py.forallb (fun c => negb (forbidden c)) (Py.pad2 n) = true.
Proof.
  unfold Py.pad2. cbn [Py.forallb].
  now rewrite !digit_allowed by apply DateFacts.mod10_le.
Qed.

Lemma pad4_allowed n : Py.forallb (fun c => negb (forbidden c)) (Py.pad4 n) = true.
Proof.
  unfold Py.pad4. cbn [Py.forallb]. rewrite pad2_allowed.
  now rewrite !digit_allowed by apply DateFacts.mod10_le.
Qed.

Lemma length_drop n s : String.length (Py.drop n s) = String.length s - n.
Proof.
  revert s; induction n as [|n IH]; intros [|c s]; simpl; try reflexivity.
  apply IH.
Qed.

Lemma forallb_drop p n s :
  Py.forallb p s = true -> Py.forallb p (Py.drop n s) = true.
Proof.
  revert s; induction n as [|n IH]; intros [|c s] Hs; simpl; try assumption.
  apply IH. simpl in Hs. now apply andb_true_iff in Hs.
Qed.

Lemma formatted_date_shape fdate :
  sentinel_or_date fdate ->
  7 <= String.length fdate <= 10
  /\ Py.forallb (fun c => negb (forbidden c)) fdate = true.
Proof.
  intros [->|(y & m & d & Hv & ->)]; [split; [simpl; lia|reflexivity]|].
  destruct (DateFacts.valid_date_bounds _ _ _ Hv) as (Hy & _).
  destruct (DateFacts.pretty_year y Hy) as (k & Hk & E & _).
  unfold date_text. rewrite E. split.
  - rewrite !app_length_s, length_drop. simpl. lia.
  - rewrite !forallb_app_s, (forallb_drop _ _ _ (pad4_allowed y)),
      !pad2_allowed. reflexivity.
Qed.

Lemma convert_total date_str :
  exists fdate, fst (convert_date_format date_str) = Ok fdate
                /\ sentinel_or_date fdate.
Proof.
  unfold convert_date_format.
  destruct (strptime date_str) as [dt|e] eqn:E.
  - exists (strftime dt). split; [reflexivity|]. right.
    exists (year dt), (month dt), (day dt). split; [|reflexivity].
    apply DateFacts.strptime_sound in E.
    destruct E as (? & ? & ? & ? & ? & ? & ? & ? & ? & ? & ? & Hv). exact Hv.
  - destruct (DateFacts.strptime_raises _ _ E) as [msg ->].
    exists "0000-00-00". split; [reflexivity|now left].
Qed.

Lemma endswith_app a b : Py.endswith (a +:+ b) b = true.
Proof.
  unfold Py.endswith. rewrite app_length_s.
  replace (String.length a + String.length b - String.length b)
    with (String.length a) by lia.
  rewrite drop_app, String.eqb_refl. apply Nat.leb_le. lia.
Qed.


End NameFacts.

(** ** Text after the date *)

Module ParseFacts.
Import Scraper.

Lemma m_Y_head_rest y t :
  head (m_Y (Py.pad4 y +:+ t)) = Some (Py.pad4 y, t).
Proof.
  unfold Py.pad4, Py.pad2, m_Y, m_class2, m_bind, m_class.
  pose proof (DateFacts.digit_char_props _ (DateFacts.mod10_le (y / 1000))) as (D3 & _).
  pose proof (DateFacts.digit_char_props _ (DateFacts.mod10_le (y / 100))) as (D2 & _).
  pose proof (DateFacts.digit_char_props _ (DateFacts.mod10_le (y / 10))) as (D1 & _).
  pose proof (DateFacts.digit_char_props _ (DateFacts.mod10_le y)) as (D0 & _).
  simpl. rewrite D3. simpl. rewrite D2. simpl. rewrite D1. simpl. rewrite D0.
  reflexivity.
Qed.

Lemma pad4_app_no_leading_space y t : no_leading_space (Py.pad4 y +:+ t).
Proof.
  unfold Py.pad4; simpl.
  apply (DateFacts.digit_char_props _ (DateFacts.mod10_le (y / 1000))).
Qed.

Lemma format_regex_head name name' w1 ds d w2 y t :
  In name' month_name -> Py.lower name = Py.lower name' ->
  spaces w1 -> spaces w2 -> day_numeral ds d -> (1 <= d <= 31)%N ->
  head (format_regex
          (name +:+ w1 +:+ ds +:+ "," +:+ w2 +:+ Py.pad4 y +:+ t))
  = Some ((name, ds, Py.pad4 y), t)
  /\ Py.int ds = d.
Proof.
  intros Hn Hl S1 S2 Hds Hd.
  destruct (DateFacts.m_d_head ds d (w2 +:+ Py.pad4 y +:+ t) Hds Hd)
    as [HD Hint].
  split; [|exact Hint]. unfold format_regex.
  eapply DateFacts.head_m_bind.
  { rewrite (DateFacts.m_B_month name name'); [reflexivity|exact Hn|exact Hl]. }
  eapply DateFacts.head_m_bind.
  { apply DateFacts.spaces_plus_head; [exact S1|].
    eapply DateFacts.day_numeral_no_leading_space; exact Hds. }
  eapply DateFacts.head_m_bind; [exact HD|].
  eapply DateFacts.head_m_bind; [reflexivity|].
  eapply DateFacts.head_m_bind.
  { simpl. apply DateFacts.spaces_plus_head;
      [exact S2|apply pad4_app_no_leading_space]. }
  eapply DateFacts.head_m_bind; [apply m_Y_head_rest|].
  reflexivity.
Qed.

Lemma format_regex_rest s y m d t :
  written_date s y m d ->
  exists groups, re_match format_regex (s +:+ t) = Some (groups, t).
Proof.
  intros (name & name' & w1 & ds & w2 & -> & Hn & Hl & S1 & S2 & Hds & Hv).
  destruct (DateFacts.valid_date_bounds _ _ _ Hv) as (Hy & Hm & Hd).
  exists (name, ds, Py.pad4 y). unfold re_match. rewrite !app_assoc_s.
  apply (format_regex_head name name' w1 ds d w2 y t); try assumption.
  eapply nth_error_In; exact Hn.
Qed.

(** A date in the format followed by any further text, be it only a
    space, is not converted: [strptime] refuses it, the sentinel is
    returned and one error record that quotes the text is logged. *)
Theorem convert_date_format_trailing_text s y m d t :
  written_date s y m d -> t <> "" ->
  exists msg,
    convert_date_format (s +:+ t)
    = (Ok "0000-00-00",
       [LogError ("Error parsing date '" +:+ (s +:+ t) +:+ "': " +:+ msg)]).
Proof.
  intros Hw Ht. destruct (format_regex_rest s y m d t Hw) as ([[b dd] yy] & E).
  unfold convert_date_format, strptime. rewrite E.
  destruct (String.eqb_spec t "") as [->|_]; [congruence|].
  eexists. reflexivity.
Qed.

Lemma convert_date_format_trailing_text_witness :
  exists msg,
    convert_date_format ("july  4, 1976" +:+ " ")
    = (Ok "0000-00-00",
       [LogError ("Error parsing date '" +:+ ("july  4, 1976" +:+ " ") +:+ "': "
                  +:+ msg)]).
Proof.
  apply (convert_date_format_trailing_text "july  4, 1976" 1976 7 4 " ");
    [|discriminate].
  exists "july", "July", "  ", "4", " ".
  repeat split; try reflexivity; try discriminate.
  right. split; [lia|reflexivity].
Defined.

Lemma single_space : spaces " ".
Proof. split; [discriminate|reflexivity]. Qed.

(** A text in the literal format that names no day of the calendar (the
    thirtieth of February, the twenty-ninth of February of a year that is
    no leap year, a day of the year 0000) is not converted: the sentinel
    is returned. *)
Theorem impossible_dates_get_the_sentinel name (y m d : N) :
  nth_error month_name (N.to_nat m - 1) = Some name ->
  (1 <= m <= 12)%N -> (1 <= d <= 31)%N -> (y <= 9999)%N ->
  valid_date y m d = false ->
  fst (convert_date_format (literal_date name d y)) = Ok "0000-00-00".
Proof.
  intros Hn Hm Hd Hy Hv.
  destruct (format_regex_head name name " " (Py.pad2 d) d " " y ""
              (nth_error_In _ _ Hn) eq_refl single_space single_space
              (or_introl eq_refl) Hd) as [Hh Hint].
  unfold convert_date_format, strptime, re_match, literal_date.
  replace (name +:+ " " +:+ Py.pad2 d +:+ ", " +:+ Py.pad4 y)
    with (name +:+ " " +:+ Py.pad2 d +:+ "," +:+ " " +:+ Py.pad4 y +:+ "")
    by now rewrite app_empty_r.
  rewrite Hh. cbn [String.eqb negb].
  rewrite (DateFacts.index_of_month m name Hm Hn), Hint,
    DateFacts.int_pad4 by exact Hy.
  now rewrite Hv.
Qed.

Lemma impossible_dates_get_the_sentinel_witness :
  fst (convert_date_format (literal_date "February" 29 1900)) = Ok "0000-00-00"
  /\ fst (convert_date_format (literal_date "April" 31 2021)) = Ok "0000-00-00"
  /\ fst (convert_date_format (literal_date "January" 1 0)) = Ok "0000-00-00".
Proof.
  split; [|split].
  - apply (impossible_dates_get_the_sentinel "February" 1900 2 29);
      [reflexivity|lia|lia|lia|reflexivity].
  - apply (impossible_dates_get_the_sentinel "April" 2021 4 31);
      [reflexivity|lia|lia|lia|reflexivity].
  - apply (impossible_dates_get_the_sentinel "January" 0 1 1);
      [reflexivity|lia|lia|lia|reflexivity].
Defined.

Lemma date_text_not_sentinel y m d :
  valid_date y m d = true -> date_text y m d <> "0000-00-00".
Proof.
  intros Hv. destruct (DateFacts.valid_date_bounds _ _ _ Hv) as (Hy & Hm & _).
  destruct (DateFacts.pretty_year y Hy) as (k & Hk & E & _).
  unfold date_text. rewrite E. unfold Py.pad4, Py.pad2.
  destruct k as [|[|[|[|k]]]]; [|simpl; discriminate..|lia].
  apply DateFacts.le_12_cases in Hm. simpl in Hm.
  repeat (destruct Hm as [<-|Hm]; [simpl; intros [= _ _ _ _ E1 E2];
                                   first [discriminate E1|discriminate E2]|]).
  destruct Hm.
Qed.

(** The sentinel cannot be mistaken for a date: [convert_date_format]
    returns 0000-00-00 exactly when [strptime] raises its [ValueError],
    and exactly then it logs an error record; a text that [strptime]
    parses is converted to the text of its date, which is never
    0000-00-00. *)
Theorem sentinel_means_unparsed s :
  (fst (convert_date_format s) = Ok "0000-00-00"
   <-> exists msg, strptime s = Raise (ValueError msg))
  /\ (fst (convert_date_format s) = Ok "0000-00-00"
      <-> snd (convert_date_format s) <> [])
  /\ (forall dt,
        strptime s = Ok dt ->
        fst (convert_date_format s) = Ok (strftime dt)
        /\ strftime dt <> "0000-00-00").
Proof.
  unfold convert_date_format.
  destruct (strptime s) as [dt|e] eqn:E.
  - pose proof (DateFacts.strptime_sound _ _ E) as Hw.
    assert (Hv : valid_date (year dt) (month dt) (day dt) = true).
    { destruct Hw as (? & ? & ? & ? & ? & ? & ? & ? & ? & ? & ? & Hv).
      exact Hv. }
    pose proof (date_text_not_sentinel _ _ _ Hv) as Hne.
    cbn [fst snd]. split; [|split]; [split|split|].
    + intros Es. exfalso. apply Hne.
      exact (f_equal (fun r => match r with Ok t => t | Raise _ => "" end) Es).
    + intros [msg Hm]. discriminate Hm.
    + intros Es. exfalso. apply Hne.
      exact (f_equal (fun r => match r with Ok t => t | Raise _ => "" end) Es).
    + intros Hn. now destruct Hn.
    + intros dt' [= <-]. split; [reflexivity|exact Hne].
  - destruct (DateFacts.strptime_raises _ _ E) as [msg ->]. cbn [fst snd].
    split; [|split]; [split|split|].
    + intros _. now exists msg.
    + reflexivity.
    + discriminate.
    + reflexivity.
    + intros dt [=].
Qed.

Lemma sentinel_means_unparsed_witness :
  fst (convert_date_format "soon") = Ok "0000-00-00"
  /\ fst (convert_date_format "May 5, 0099") = Ok "99-05-05".
Proof.
  split.
  - apply (proj2 (proj1 (proj2 (sentinel_means_unparsed "soon")))).
    vm_compute. discriminate.
  - exact (proj1 (proj2 (proj2 (sentinel_means_unparsed "May 5, 0099"))
                    (Date 99 5 5) ltac:(vm_compute; reflexivity))).
Defined.

End ParseFacts.

(** ** What a run touches *)

Module ConfineFacts.
Import Scraper.

Section WithBrowser.
Context {B elem : Type} `{Capabilities B elem}.
Local Abbreviation M := (M B elem).
Variable base : string.
Local Abbreviation ok := (confined (B:=B) (elem:=elem) base).
Local Abbreviation within := (changes_within (B:=B) (elem:=elem) base).

Lemma within_refl (st : state B elem) : within st st.
Proof.
  split; [|split].
  - exists []. rewrite app_nil_r. split; [reflexivity|constructor].
  - reflexivity.
  - exists []. now rewrite app_nil_r.
Qed.

Lemma within_trans (st1 st2 st3 : state B elem) :
  within st1 st2 -> within st2 st3 -> within st1 st3.
Proof.
  intros ((t1 & T1 & Q1) & F1 & (l1 & L1)) ((t2 & T2 & Q2) & F2 & (l2 & L2)).
  split; [|split].
  - exists (t1 ++ t2). rewrite T2, T1, app_assoc.
    split; [reflexivity|]. apply Forall_app. now split.
  - intros path Hp. now rewrite (F2 _ Hp), (F1 _ Hp).
  - exists (l1 ++ l2). now rewrite L2, L1, app_assoc.
Qed.

Lemma confined_ret {A} (a : A) : ok (ret a).
Proof. intros st r st' [= <- <-]. apply within_refl. Qed.

Lemma within_log (st : state B elem) records :
  within st (State (browser st) (files st) (log st ++ records) (events st)).
Proof.
  split; [|split]; cbn [events files log].
  - exists []. rewrite app_nil_r. split; [reflexivity|constructor].
  - reflexivity.
  - now exists records.
Qed.

Lemma confined_logger_error msg : ok (logger_error msg).
Proof. intros st r st' [= <- <-]. apply within_log. Qed.

Lemma confined_logger_info msg : ok (logger_info msg).
Proof. intros st r st' [= <- <-]. apply within_log. Qed.

Lemma confined_convert d : ok (convert_date_format_m d).
Proof.
  intros st r st'. unfold convert_date_format_m.
  destruct (convert_date_format d). intros [= <- <-]. apply within_log.
Qed.

(** Sequencing, with what is known of the value passed on. *)
Lemma confined_bind_post {A C} (Post : A -> Prop) (m : M A) (k : A -> M C) :
  ok m ->
  (forall st a st', m st = (Ok a, st') -> Post a) ->
  (forall a, Post a -> ok (k a)) ->
  ok (bind m k).
Proof.
  intros Hm Hpost Hk st r st'. unfold bind.
  destruct (m st) as [[a|e] st1] eqn:E1.
  - intros E2. apply (within_trans _ st1); [exact (Hm _ _ _ E1)|].
    exact (Hk a (Hpost _ _ _ E1) _ _ _ E2).
  - intros [= <- <-]. exact (Hm _ _ _ E1).
Qed.

Lemma confined_bind {A C} (m : M A) (k : A -> M C) :
  ok m -> (forall a, ok (k a)) -> ok (bind m k).
Proof.
  intros Hm Hk. apply (confined_bind_post (fun _ => True)); auto.
Qed.

Lemma confined_try_except {A} (body : M A) catches handler :
  ok body -> (forall e, ok (handler e)) ->
  ok (try_except body catches handler).
Proof.
  intros Hb Hh st r st'. unfold try_except.
  destruct (body st) as [[a|e] st1] eqn:E1.
  - intros [= <- <-]. exact (Hb _ _ _ E1).
  - destruct (catches e).
    + intros E2. apply (within_trans _ st1); [exact (Hb _ _ _ E1)|].
      exact (Hh e _ _ _ E2).
    + intros [= <- <-]. exact (Hb _ _ _ E1).
Qed.

Lemma confined_try_finally {A} (body : M A) fin :
  ok body -> ok fin -> ok (try_finally body fin).
Proof.
  intros Hb Hf st r st'. unfold try_finally.
  destruct (body st) as [r1 st1] eqn:E1.
  destruct (fin st1) as [[u|e] st2] eqn:E2; intros [= <- <-];
    (apply (within_trans _ st1); [exact (Hb _ _ _ E1)|exact (Hf _ _ _ E2)]).
Qed.

Lemma within_event (st : state B elem) b' (ev : event elem) :
  confined_event base ev ->
  within st (State b' (files st) (log st) (events st ++ [ev])).
Proof.
  intros Hev. split; [|split]; cbn [events files log].
  - exists [ev]. split; [reflexivity|]. now constructor.
  - reflexivity.
  - exists []. now rewrite app_nil_r.
Qed.

Lemma confined_call {A} (ev : event elem) (op : B -> result A * B) :
  confined_event base ev -> ok (call ev op).
Proof.
  intros Hev st r st'. unfold call.
  destruct (op (browser st)) as [r1 b']. intros [= <- <-].
  now apply within_event.
Qed.

Lemma within_file (st : state B elem) path text (ev : event elem) :
  in_output_dir path -> confined_event base ev ->
  within st (State (browser st) (<[path := text]> (files st)) (log st)
               (events st ++ [ev])).
Proof.
  intros Hin Hev. split; [|split]; cbn [events files log].
  - exists [ev]. split; [reflexivity|]. now constructor.
  - intros p Hp. apply lookup_insert_ne. intros ->. now apply Hp.
  - exists []. now rewrite app_nil_r.
Qed.

Lemma confined_open_w path : in_output_dir path -> ok (open_w path).
Proof.
  intros Hin st r st'. unfold open_w.
  destruct (can_open path); intros [= <- <-].
  - now apply within_file.
  - apply within_refl.
Qed.

Lemma confined_write path text : in_output_dir path -> ok (write path text).
Proof. intros Hin st r st' [= <- <-]. now apply within_file. Qed.

Lemma confined_close path : in_output_dir path -> ok (close path).
Proof.
  intros Hin st r st' [= <- <-]. now apply (within_event st (browser st)).
Qed.

Ltac confined_step :=
  first
    [ apply confined_ret | apply confined_logger_error
    | apply confined_logger_info | apply confined_convert
    | apply confined_call; exact I
    | apply confined_open_w; assumption
    | apply confined_write; assumption
    | apply confined_close; assumption
    | apply confined_bind; [|intros ?]
    | apply confined_try_except; [|intros ?]
    | apply confined_try_finally ].

Lemma confined_read_date : ok read_date.
Proof. unfold read_date. repeat confined_step. Qed.

Lemma confined_read_content : ok read_content.
Proof. unfold read_content. repeat confined_step. Qed.

Lemma filepath_in_output_dir fdate link_text :
  sentinel_or_date fdate ->
  in_output_dir (os_path_join output_dir (document_filename fdate link_text)).
Proof.
  intros Hf. pose proof (ExtractFacts.filename_no_slash fdate link_text Hf) as Hn.
  exists (document_filename fdate link_text).
  split; [now apply ExtractFacts.filepath_under_output_dir|exact Hn].
Qed.

Lemma confined_extract link_text : ok (extract_and_save_document link_text).
Proof.
  unfold extract_and_save_document.
  apply confined_try_except; [|intros e; destruct e; apply confined_logger_error].
  apply confined_bind; [apply confined_call; exact I|intros _].
  apply (confined_bind_post (fun df => sentinel_or_date (snd df)));
    [apply confined_read_date| |].
  { intros st [date fdate] st' E.
    exact (ExtractFacts.read_date_formatted _ _ _ _ E). }
  intros [date fdate] Hf. cbn [fst snd] in *.
  pose proof (filepath_in_output_dir fdate link_text Hf) as Hin.
  apply confined_bind; [apply confined_read_content|intros content].
  unfold with_open_w. repeat confined_step.
Qed.

Lemma confined_get_document_links : ok get_document_links.
Proof. unfold get_document_links. repeat confined_step. Qed.

Lemma confined_go_to_next_page : ok go_to_next_page.
Proof. unfold go_to_next_page, sleep. repeat confined_step. Qed.

Lemma confined_cleanup : ok cleanup.
Proof. unfold cleanup. repeat confined_step. Qed.

Lemma confined_process_document link : ok (process_document link).
Proof.
  unfold process_document, sleep.
  repeat first [ apply confined_extract | confined_step ].
Qed.

Lemma confined_process_links page links : ok (process_links base page links).
Proof.
  induction links as [|link rest IH]; cbn [process_links];
    [apply confined_ret|].
  apply confined_bind; [|intros _; exact IH].
  apply confined_try_except; [apply confined_process_document|intros e].
  apply confined_bind; [apply confined_logger_error|intros _].
  apply confined_call. right. now exists page.
Qed.

Lemma confined_scrape_page page : ok (scrape_page base page).
Proof.
  unfold scrape_page.
  apply confined_bind; [apply confined_logger_info|intros _].
  apply confined_bind; [apply confined_get_document_links|intros links].
  apply confined_bind; [apply confined_process_links|intros _].
  apply confined_go_to_next_page.
Qed.

Lemma confined_scrape_pages fuel page (st : state B elem) r st' :
  scrape_pages fuel base page st = Some (r, st') -> within st st'.
Proof.
  revert page st. induction fuel as [|fuel IH]; intros page st;
    cbn [scrape_pages]; [discriminate|].
  destruct (scrape_page base page st) as [[[|]|e] st1] eqn:E;
    pose proof (confined_scrape_page _ _ _ _ E) as H1.
  - intros E2. exact (within_trans _ _ _ H1 (IH _ _ E2)).
  - now intros [= <- <-].
  - now intros [= <- <-].
Qed.

Lemma confined_guarded (r1 : result unit) (st1 : state B elem) r st' :
  try_finally
    (try_except (fun _ => (r1, st1)) is_Exception
       (fun e => logger_error ("Fatal error: " +:+ exn_text e)))
    cleanup st1 = (r, st') ->
  within st1 st'.
Proof.
  unfold try_finally, try_except.
  destruct r1 as [u|e]; [|destruct (is_Exception e)]; unfold logger_error;
    match goal with |- context [cleanup ?s] =>
      destruct (cleanup s) as [[u'|e'] st2] eqn:Ec end;
    intros [= <- <-]; pose proof (confined_cleanup _ _ _ Ec) as Hc;
    first [ exact Hc
          | exact (within_trans _ _ _ (within_log st1 _) Hc) ].
Qed.

Lemma log_file_outside : ~ in_output_dir log_file.
Proof. intros (filename & E & _). discriminate E. Qed.

(** Whatever the browser and the site do, a run of the scraper loads by
    address only the base address and its listing pages
    [base_url?page=k], and it creates or changes no file other than files
    that lie directly in the output directory and the log file
    [scraping.log], which lies outside the output directory and to which
    records are only appended. *)
Theorem scraper_is_confined fuel (st : state B elem) r st' :
  start_scraping fuel base st = Some (r, st') ->
  (exists tr, events st' = events st ++ tr /\ Forall (confined_event base) tr)
  /\ (forall path,
        ~ in_output_dir path -> files st' !! path = files st !! path)
  /\ (exists records, log st' = log st ++ records)
  /\ ~ in_output_dir log_file.
Proof.
  intros E.
  enough (within st st') as (Ht & Hf & Hl)
      by (repeat split; try assumption; apply log_file_outside).
  revert E. unfold start_scraping.
  destruct (call (EGet base) (driver_get base) st) as [r0 st0] eqn:E0.
  pose proof (confined_call (EGet base) (driver_get base) (or_introl eq_refl)
                _ _ _ E0) as H0.
  assert (Hbody : forall r1 st1,
            match r0 with
            | Ok _ => scrape_pages fuel base 1 st0
            | Raise e => Some (Raise e, st0)
            end = Some (r1, st1) -> within st0 st1).
  { intros r1 st1. destruct r0 as [u|e].
    - apply confined_scrape_pages.
    - intros [= <- <-]. apply within_refl. }
  destruct (match r0 with
            | Ok _ => scrape_pages fuel base 1 st0
            | Raise e => Some (Raise e, st0)
            end) as [[r1 st1]|]; [|discriminate].
  intros [= E].
  exact (within_trans _ _ _ H0
           (within_trans _ _ _ (Hbody _ _ eq_refl) (confined_guarded _ _ _ _ E))).
Qed.

End WithBrowser.

Lemma scraper_is_confined_witness :
  files (snd (default (Ok tt, session two_documents)
                (start_scraping 2 "https://archive.example/documents"
                   (session two_documents))))
  !! "/etc/passwd"
  = files (session two_documents) !! "/etc/passwd"
  /\ exists records,
       log (snd (default (Ok tt, session two_documents)
                   (start_scraping 2 "https://archive.example/documents"
                      (session two_documents))))
       = log (session two_documents) ++ records.
Proof.
  destruct (start_scraping (H:=scripted) 2 "https://archive.example/documents"
              (session two_documents)) as [[r st']|] eqn:E;
    [|vm_compute in E; discriminate E].
  destruct (scraper_is_confined (H:=scripted)
              "https://archive.example/documents" 2
              (session two_documents) r st' E) as (_ & Hf & Hl & _).
  split; [|exact Hl].
  apply Hf. intros (filename & E' & _). discriminate E'.
Defined.

End ConfineFacts.

(** ** Errors that end a run, missing elements, and sites without end *)

Module RunFacts.
Import Scraper.

Section WithBrowser.
Context {B elem : Type} `{Capabilities B elem}.
Local Abbreviation M := (M B elem).

Lemma cleanup_quits (st : state B elem) b' :
  driver_quit (browser st) = (Ok tt, b') ->
  cleanup st = (Ok tt, State b' (files st) (log st) (events st ++ [EQuit])).
Proof.
  intros Hq. unfold cleanup, try_except, call. now rewrite Hq.
Qed.

(** An error that is not handled below the top level ends the run: when
    the base address cannot be loaded, nothing else is attempted, one
    fatal error is logged and the browser is released; and an error other
    than a timeout while the links of the first page are awaited is fatal
    in the same way, before any document is touched.  In both cases the
    run itself returns normally.  An interrupt, which is no [Exception],
    is not logged: the browser is released and the interrupt is raised
    again. *)
Theorem fatal_errors_end_the_run fuel base (st : state B elem) :
  (forall e b1 b2,
     driver_get base (browser st) = (Raise e, b1) ->
     is_Exception e = true ->
     driver_quit b1 = (Ok tt, b2) ->
     start_scraping fuel base st
     = Some (Ok tt,
             State b2 (files st)
               (log st ++ [LogError ("Fatal error: " +:+ exn_text e)])
               (events st ++ [EGet base; EQuit])))
  /\ (forall b1 e b2 b3,
        driver_get base (browser st) = (Ok tt, b1) ->
        wait_presence_of_all_elements links_locator b1 = (Raise e, b2) ->
        is_Timeout e = false ->
        is_Exception e = true ->
        driver_quit b2 = (Ok tt, b3) ->
        start_scraping (S fuel) base st
        = Some (Ok tt,
                State b3 (files st)
                  (log st ++ [LogInfo ("Processing page " +:+ pretty 1%N);
                              LogError ("Fatal error: " +:+ exn_text e)])
                  (events st ++ [EGet base; EWaitAll links_locator; EQuit])))
  /\ (forall e b1 b2,
        driver_get base (browser st) = (Raise e, b1) ->
        is_Exception e = false ->
        driver_quit b1 = (Ok tt, b2) ->
        start_scraping fuel base st
        = Some (Raise e,
                State b2 (files st) (log st)
                  (events st ++ [EGet base; EQuit]))).
Proof.
  split; [|split].
  - intros e b1 b2 Hget Ee Hquit.
    unfold start_scraping, call. rewrite Hget.
    unfold try_finally, try_except. rewrite Ee. unfold logger_error.
    cbn [browser files log events].
    erewrite cleanup_quits by exact Hquit.
    cbn [browser files log events]. now rewrite <- app_assoc.
  - intros b1 e b2 b3 Hget Hwait Et Ee Hquit.
    unfold start_scraping, call. rewrite Hget. cbn [scrape_pages].
    unfold scrape_page. unfold bind at 1, logger_info at 1.
    cbn [browser files log events].
    unfold bind at 1, get_document_links, try_except.
    unfold bind at 1, call. cbn [browser files log events].
    fold links_locator. rewrite Hwait, Et.
    unfold try_finally, try_except. rewrite Ee. unfold logger_error.
    cbn [browser files log events].
    erewrite cleanup_quits by exact Hquit.
    cbn [browser files log events]. now rewrite <- !app_assoc.
  - intros e b1 b2 Hget Ee Hquit.
    unfold start_scraping, call. rewrite Hget.
    unfold try_finally, try_except. rewrite Ee.
    erewrite cleanup_quits by exact Hquit.
    cbn [browser files log events]. now rewrite <- app_assoc.
Qed.

(** A document page on which neither the date nor the content element is
    found is saved all the same: the file is named with the sentinel date,
    its header says NO_DATE and its body NO CONTENT FOUND. *)
Theorem missing_date_and_content link_text (st : state B elem) el b1 b2 b3 :
  wait_presence_of_element content_locator (browser st) = (Ok el, b1) ->
  driver_find_element (ClassName "date-display-single") b1
  = (Raise NoSuchElementException, b2) ->
  driver_find_element content_locator b2
  = (Raise NoSuchElementException, b3) ->
  can_open (output_dir +:+ "/" +:+ document_filename "0000-00-00" link_text)
  = true ->
  extract_and_save_document link_text st
  = (Ok tt,
     State b3
       (<[output_dir +:+ "/" +:+ document_filename "0000-00-00" link_text
          := document_text "NO_DATE" link_text "NO CONTENT FOUND"]> (files st))
       (log st ++ [LogInfo ("Saved document to: "
                            +:+ document_filename "0000-00-00" link_text)])
       (events st
        ++ [EWait content_locator; EFind (ClassName "date-display-single");
            EFind content_locator]
        ++ [EOpen (output_dir +:+ "/"
                   +:+ document_filename "0000-00-00" link_text);
            EWrite (output_dir +:+ "/"
                    +:+ document_filename "0000-00-00" link_text)
              ("Date: " +:+ "NO_DATE" +:+ Py.NL);
            EWrite (output_dir +:+ "/"
                    +:+ document_filename "0000-00-00" link_text)
              ("Title: " +:+ link_text +:+ Py.NL);
            EWrite (output_dir +:+ "/"
                    +:+ document_filename "0000-00-00" link_text)
              (Py.repeat "=" 80 +:+ Py.NL +:+ Py.NL);
            EWrite (output_dir +:+ "/"
                    +:+ document_filename "0000-00-00" link_text)
              "NO CONTENT FOUND";
            EClose (output_dir +:+ "/"
                    +:+ document_filename "0000-00-00" link_text)])).
Proof.
  intros Hwait Hdate Hcontent Hopen.
  set (st1 := State b1 (files st) (log st) (events st ++ [EWait content_locator])).
  set (st2 := State b2 (files st) (log st)
                (events st1 ++ [EFind (ClassName "date-display-single")])).
  set (st3 := State b3 (files st) (log st)
                (events st2 ++ [EFind content_locator])).
  assert (H1 : call (EWait content_locator)
                 (wait_presence_of_element content_locator) st = (Ok el, st1))
    by (unfold call; now rewrite Hwait).
  assert (H2 : read_date st1 = (Ok ("NO_DATE", "0000-00-00"), st2)).
  { unfold read_date, try_except, bind, call. unfold st1 at 1. cbn [browser].
    now rewrite Hdate. }
  assert (H3 : read_content st2 = (Ok "NO CONTENT FOUND", st3)).
  { unfold read_content, try_except, bind, call. unfold st2 at 1.
    cbn [browser]. fold content_locator. now rewrite Hcontent. }
  assert (Hns : Py.contains_char "/" (document_filename "0000-00-00" link_text)
                = false)
    by (apply ExtractFacts.filename_no_slash; now left).
  unfold extract_and_save_document. apply ExtractFacts.try_except_Ok.
  fold content_locator.
  rewrite (ExtractFacts.bind_Ok _ _ _ _ _ H1), (ExtractFacts.bind_Ok _ _ _ _ _ H2).
  cbn [fst snd]. rewrite (ExtractFacts.bind_Ok _ _ _ _ _ H3).
  rewrite (ExtractFacts.filepath_under_output_dir _ Hns).
  erewrite ExtractFacts.bind_Ok
    by (apply ExtractFacts.with_open_w_writes; exact Hopen).
  unfold logger_info, document_text, st3, st2, st1.
  cbn [browser files log events].
  rewrite <- !app_assoc, !app_assoc_s. reflexivity.
Qed.

(** The scraper has no limit on the number of pages: on a site of which
    every listing page shows no document (the wait for the links times
    out, or finds none) and a link to a next page that can be clicked,
    the loop over the pages never ends. *)
Theorem no_page_limit fuel base (st : state B elem) :
  (forall b, exists b',
     driver_get base b = (Ok tt, b')) ->
  (forall b, exists b',
     wait_presence_of_all_elements links_locator b = (Ok [], b')
     \/ wait_presence_of_all_elements links_locator b
        = (Raise TimeoutException, b')) ->
  (forall b, exists next b' b'',
     driver_find_element next_locator b = (Ok next, b')
     /\ element_click next b' = (Ok tt, b'')) ->
  start_scraping fuel base st = None.
Proof.
  intros Hget Hlinks Hnext.
  assert (Hpage : forall page (s : state B elem),
            exists s', scrape_page base page s = (Ok true, s')).
  { intros page s. unfold scrape_page.
    unfold bind at 1, logger_info at 1.
    unfold bind at 1, get_document_links, try_except.
    unfold bind at 1, call at 1. cbn [browser files log events].
    fold links_locator.
    destruct (Hlinks (browser s)) as (b1 & [-> | ->]).
    - unfold ret at 1.
      cbn [process_links]. unfold bind at 1, ret at 1.
      unfold go_to_next_page, try_except, bind, call, sleep, ret.
      cbn [browser files log events]. fold next_locator.
      destruct (Hnext b1) as (next & b2 & b3 & -> & E).
      cbn [browser]. rewrite E. eexists. reflexivity.
    - cbn [is_Timeout]. unfold bind at 1, logger_error at 1, ret at 1.
      cbn [process_links]. unfold bind at 1, ret at 1.
      unfold go_to_next_page, try_except, bind, call, sleep, ret.
      cbn [browser files log events]. fold next_locator.
      destruct (Hnext b1) as (next & b2 & b3 & -> & E).
      cbn [browser]. rewrite E. eexists. reflexivity. }
  assert (Hloop : forall page (s : state B elem),
            scrape_pages fuel base page s = None).
  { induction fuel as [|n IH]; intros page s; cbn [scrape_pages];
      [reflexivity|].
    destruct (Hpage page s) as (s' & ->). apply IH. }
  unfold start_scraping, call.
  destruct (Hget (browser st)) as (b1 & ->). now rewrite Hloop.
Qed.

End WithBrowser.

Lemma fatal_errors_end_the_run_witness :
  start_scraping 0 "https://archive.example/documents" (session browser_crash)
  = Some (Ok tt,
          State [] ∅
            ([] ++ [LogError
                      ("Fatal error: "
                       +:+ exn_text
                             (OtherException
                                "unknown error: net::ERR_CONNECTION_RESET"))])
            ([] ++ [EGet "https://archive.example/documents"; EQuit]))
  /\ start_scraping 1 "https://archive.example/documents"
       (session [RUnit (Ok tt);
                 RElems (Raise (OtherException "invalid session id"));
                 RUnit (Ok tt)])
     = Some (Ok tt,
             State [] ∅
               ([] ++ [LogInfo ("Processing page " +:+ pretty 1%N);
                       LogError ("Fatal error: "
                                 +:+ exn_text
                                       (OtherException "invalid session id"))])
               ([] ++ [EGet "https://archive.example/documents";
                       EWaitAll links_locator; EQuit]))
  /\ start_scraping 0 "https://archive.example/documents"
       (session [RUnit (Raise KeyboardInterrupt); RUnit (Ok tt)])
     = Some (Raise KeyboardInterrupt,
             State [] ∅ []
               ([] ++ [EGet "https://archive.example/documents"; EQuit])).
Proof.
  split; [|split].
  - exact (proj1 (fatal_errors_end_the_run (H:=scripted) 0
                    "https://archive.example/documents"
                    (session browser_crash))
             (OtherException "unknown error: net::ERR_CONNECTION_RESET")
             [RUnit (Ok tt)] []
             ltac:(reflexivity) ltac:(reflexivity) ltac:(reflexivity)).
  - exact (proj1 (proj2 (fatal_errors_end_the_run (H:=scripted) 0
                    "https://archive.example/documents"
                    (session [RUnit (Ok tt);
                              RElems (Raise (OtherException "invalid session id"));
                              RUnit (Ok tt)])))
             [RElems (Raise (OtherException "invalid session id")); RUnit (Ok tt)]
             (OtherException "invalid session id")
             [RUnit (Ok tt)] []
             ltac:(reflexivity) ltac:(reflexivity) ltac:(reflexivity)
             ltac:(reflexivity) ltac:(reflexivity)).
  - exact (proj2 (proj2 (fatal_errors_end_the_run (H:=scripted) 0
                    "https://archive.example/documents"
                    (session [RUnit (Raise KeyboardInterrupt); RUnit (Ok tt)])))
             KeyboardInterrupt [RUnit (Ok tt)] []
             ltac:(reflexivity) ltac:(reflexivity) ltac:(reflexivity)).
Defined.

Lemma missing_date_and_content_witness :
  files (snd (extract_and_save_document "Radio Address" (session bare_page)))
  !! "presidential_documents/0000-00-00_Radio Address.txt"
  = Some (document_text "NO_DATE" "Radio Address" "NO CONTENT FOUND").
Proof.
  rewrite (missing_date_and_content (H:=scripted) "Radio Address"
             (session bare_page) 10
             [RElem (Raise NoSuchElementException);
              RElem (Raise NoSuchElementException)]
             [RElem (Raise NoSuchElementException)] []
             ltac:(reflexivity) ltac:(reflexivity) ltac:(reflexivity)
             ltac:(reflexivity)).
  cbn [snd files]. apply lookup_insert_eq.
Defined.

Lemma no_page_limit_witness :
  start_scraping (H:=endless) 1000 "https://archive.example/documents"
    (State tt ∅ [] [])
  = None.
Proof.
  apply (no_page_limit (H:=endless)).
  - intros b. exists b. reflexivity.
  - intros b. exists b. right. reflexivity.
  - intros b. exists tt, b, b. split; reflexivity.
Defined.

End RunFacts.

(** ** Files are written whole *)

Module SaveFacts.
Import Scraper.

Section WithBrowser.
Context {B elem : Type} `{Capabilities B elem}.
Local Abbreviation M := (M B elem).

(** The calls through [open] that [m] adds form whole saves. *)
Local Abbreviation whole :=
  (emits (B:=B) (elem:=elem) (fun tr => saves (file_events tr))).

Lemma saves_app (a b : list (event elem)) : saves a -> saves b -> saves (a ++ b).
Proof.
  induction 1 as [|path date link_text content rest _ IH]; intros Hb;
    [exact Hb|].
  rewrite <- app_assoc. constructor. now apply IH.
Qed.

Lemma file_events_app (a b : list (event elem)) :
  file_events (a ++ b) = file_events a ++ file_events b.
Proof. apply List.filter_app. Qed.

Lemma whole_silent {A} (m : M A) :
  (forall st r st', m st = (r, st') -> events st' = events st) -> whole m.
Proof.
  intros Hm st r st' E. exists []. rewrite app_nil_r.
  split; [exact (Hm _ _ _ E)|constructor].
Qed.

Lemma whole_ret {A} (a : A) : whole (ret a).
Proof. apply whole_silent. now intros st r st' [= <- <-]. Qed.

Lemma whole_logger_error msg : whole (logger_error msg).
Proof. apply whole_silent. now intros st r st' [= <- <-]. Qed.

Lemma whole_logger_info msg : whole (logger_info msg).
Proof. apply whole_silent. now intros st r st' [= <- <-]. Qed.

Lemma whole_convert d : whole (convert_date_format_m d).
Proof.
  apply whole_silent. intros st r st'. unfold convert_date_format_m.
  destruct (convert_date_format d). now intros [= <- <-].
Qed.

Lemma whole_bind {A C} (m : M A) (k : A -> M C) :
  whole m -> (forall a, whole (k a)) -> whole (bind m k).
Proof.
  intros Hm Hk st r st'. unfold bind.
  destruct (m st) as [[a|e] st1] eqn:E1.
  - intros E2. destruct (Hm _ _ _ E1) as (t1 & T1 & S1).
    destruct (Hk a _ _ _ E2) as (t2 & T2 & S2).
    exists (t1 ++ t2). rewrite T2, T1, app_assoc. split; [reflexivity|].
    rewrite file_events_app. now apply saves_app.
  - intros [= <- <-]. exact (Hm _ _ _ E1).
Qed.

Lemma whole_try_except {A} (body : M A) catches handler :
  whole body -> (forall e, whole (handler e)) ->
  whole (try_except body catches handler).
Proof.
  intros Hb Hh st r st'. unfold try_except.
  destruct (body st) as [[a|e] st1] eqn:E1.
  - intros [= <- <-]. exact (Hb _ _ _ E1).
  - destruct (catches e).
    + intros E2. destruct (Hb _ _ _ E1) as (t1 & T1 & S1).
      destruct (Hh e _ _ _ E2) as (t2 & T2 & S2).
      exists (t1 ++ t2). rewrite T2, T1, app_assoc. split; [reflexivity|].
      rewrite file_events_app. now apply saves_app.
    + intros [= <- <-]. exact (Hb _ _ _ E1).
Qed.

Lemma whole_call {A} (ev : event elem) (op : B -> result A * B) :
  is_file_event ev = false -> whole (call ev op).
Proof.
  intros Hev st r st'. unfold call.
  destruct (op (browser st)) as [r1 b']. intros [= <- <-]; simpl.
  exists [ev]. split; [reflexivity|].
  unfold file_events. cbn [List.filter]. rewrite Hev. constructor.
Qed.

(** The [with] block of [extract_and_save_document]: a whole save, or
    nothing when the file cannot be opened. *)
Lemma whole_with_open_w path date link_text content :
  whole (with_open_w path
           (write path ("Date: " +:+ date +:+ Py.NL) ;;;
            write path ("Title: " +:+ link_text +:+ Py.NL) ;;;
            write path (Py.repeat "=" 80 +:+ Py.NL +:+ Py.NL) ;;;
            write path content)).
Proof.
  intros st r st'. destruct (can_open path) eqn:Hopen.
  - rewrite (ExtractFacts.with_open_w_writes _ _ _ _ _ _ Hopen).
    intros [= <- <-]. cbn [events]. eexists. split; [reflexivity|].
    apply (saves_cons path date link_text content []). constructor.
  - unfold with_open_w, bind, open_w. rewrite Hopen. intros [= <- <-].
    exists []. rewrite app_nil_r. split; [reflexivity|constructor].
Qed.

Ltac whole_step :=
  first
    [ apply whole_ret | apply whole_logger_error | apply whole_logger_info
    | apply whole_convert | apply whole_with_open_w
    | apply whole_call; reflexivity
    | apply whole_bind; [|intros ?]
    | apply whole_try_except; [|intros ?] ].

Lemma whole_extract link_text : whole (extract_and_save_document link_text).
Proof.
  unfold extract_and_save_document, read_date, read_content.
  apply whole_try_except; [|intros e; destruct e; apply whole_logger_error].
  repeat whole_step.
Qed.

Lemma whole_process_links base page links :
  whole (process_links base page links).
Proof.
  induction links as [|link rest IH]; cbn [process_links]; [apply whole_ret|].
  apply whole_bind; [|intros _; exact IH].
  unfold process_document, sleep.
  repeat first [ apply whole_extract | whole_step ].
Qed.

Lemma whole_scrape_page base page : whole (scrape_page base page).
Proof.
  unfold scrape_page, get_document_links, go_to_next_page, sleep.
  repeat first [ apply whole_process_links | whole_step ].
Qed.

Lemma whole_scrape_pages fuel base page (st : state B elem) r st' :
  scrape_pages fuel base page st = Some (r, st') ->
  exists tr, events st' = events st ++ tr /\ saves (file_events tr).
Proof.
  revert page st. induction fuel as [|fuel IH]; intros page st;
    cbn [scrape_pages]; [discriminate|].
  destruct (scrape_page base page st) as [[[|]|e] st1] eqn:E;
    destruct (whole_scrape_page _ _ _ _ _ E) as (t1 & T1 & S1).
  - intros E2. destruct (IH _ _ E2) as (t2 & T2 & S2).
    exists (t1 ++ t2). rewrite T2, T1, app_assoc. split; [reflexivity|].
    rewrite file_events_app. now apply saves_app.
  - intros [= <- <-]. now exists t1.
  - intros [= <- <-]. now exists t1.
Qed.


End WithBrowser.


End SaveFacts.

(** ** The order of ingestion *)

Module OrderFacts.
Import Rag.

Section WithServices.
Context {retriever : Type} `{Services retriever}.

Lemma load_paths_app a b acc :
  load_paths (a ++ b) acc
  = match load_paths a acc with
    | Ok documents => load_paths b documents
    | Raise e => Raise e
    end.
Proof.
  revert acc; induction a as [|p a IH]; intros acc; cbn [load_paths app];
    [reflexivity|].
  destruct (loader_load p); [apply IH|reflexivity].
Qed.

Lemma load_files_paths root files acc :
  load_files root files acc
  = load_paths (List.map (os_path_join root) (List.filter is_docx files)) acc.
Proof.
  revert acc; induction files as [|name files IH]; intros acc;
    cbn [load_files List.filter]; [reflexivity|].
  unfold is_docx at 1. destruct (Py.endswith name ".docx").
  - cbn [List.map load_paths].
    destruct (loader_load (os_path_join root name)); [apply IH|reflexivity].
  - apply IH.
Qed.

Lemma load_walk_paths items acc :
  load_walk items acc = load_paths (docx_paths items) acc.
Proof.
  revert acc; induction items as [|[[root dirs] files] items IH]; intros acc;
    [reflexivity|].
  cbn [load_walk]. unfold docx_paths. cbn [flat_map fst snd].
  rewrite load_paths_app, load_files_paths. unfold is_docx.
  destruct (load_paths _ acc) as [docs|e]; [apply IH|reflexivity].
Qed.

Lemma load_paths_ok (f : string -> list Document) paths acc :
  (forall p, In p paths -> loader_load p = Ok (f p)) ->
  load_paths paths acc = Ok (acc ++ concat (List.map f paths)).
Proof.
  revert acc; induction paths as [|p paths IH]; intros acc Hf;
    cbn [load_paths List.map concat].
  - now rewrite app_nil_r.
  - rewrite (Hf p (or_introl eq_refl)), IH by (intros q Hq; apply Hf; now right).
    now rewrite <- app_assoc.
Qed.

Lemma load_paths_fail (f : string -> list Document) before p after e acc :
  (forall q, In q before -> loader_load q = Ok (f q)) ->
  loader_load p = Raise e ->
  load_paths (before ++ p :: after) acc = Raise e.
Proof.
  intros Hf Hp. rewrite load_paths_app, (load_paths_ok f) by exact Hf.
  cbn [load_paths]. now rewrite Hp.
Qed.

Lemma texts_of_paths_app a b acc :
  texts_of_paths (a ++ b) acc
  = match texts_of_paths a acc with
    | Ok text => texts_of_paths b text
    | Raise e => Raise e
    end.
Proof.
  revert acc; induction a as [|p a IH]; intros acc; cbn [texts_of_paths app];
    [reflexivity|].
  destruct (loader_load p); [apply IH|reflexivity].
Qed.

Lemma texts_of_files_paths root files acc :
  texts_of_files root files acc
  = texts_of_paths (List.map (os_path_join root) (List.filter is_docx files))
      acc.
Proof.
  revert acc; induction files as [|name files IH]; intros acc;
    cbn [texts_of_files List.filter]; [reflexivity|].
  unfold is_docx at 1. destruct (Py.endswith name ".docx").
  - cbn [List.map texts_of_paths].
    destruct (loader_load (os_path_join root name)); [apply IH|reflexivity].
  - apply IH.
Qed.

Lemma texts_of_walk_paths items acc :
  texts_of_walk items acc = texts_of_paths (docx_paths items) acc.
Proof.
  revert acc; induction items as [|[[root dirs] files] items IH]; intros acc;
    [reflexivity|].
  cbn [texts_of_walk]. unfold docx_paths. cbn [flat_map fst snd].
  rewrite texts_of_paths_app, texts_of_files_paths. unfold is_docx.
  destruct (texts_of_paths _ acc) as [text|e]; [apply IH|reflexivity].
Qed.

Lemma texts_of_paths_ok (f : string -> list Document) paths acc :
  (forall p, In p paths -> loader_load p = Ok (f p)) ->
  texts_of_paths paths acc
  = Ok (acc +:+ lines_of
                  (List.map (fun p => Py.join " " (List.map page_content (f p)))
                     paths)).
Proof.
  revert acc; induction paths as [|p paths IH]; intros acc Hf;
    cbn [texts_of_paths List.map lines_of].
  - now rewrite app_empty_r.
  - rewrite (Hf p (or_introl eq_refl)), IH by (intros q Hq; apply Hf; now right).
    now rewrite !app_assoc_s.
Qed.

Lemma texts_of_paths_fail (f : string -> list Document) before p after e acc :
  (forall q, In q before -> loader_load q = Ok (f q)) ->
  loader_load p = Raise e ->
  texts_of_paths (before ++ p :: after) acc = Raise e.
Proof.
  intros Hf Hp. rewrite texts_of_paths_app, (texts_of_paths_ok f) by exact Hf.
  cbn [texts_of_paths]. now rewrite Hp.
Qed.

(** [_load_docx_documents] hands the files whose name ends in .docx to the
    loader in the order of the walk and returns the documents of all of
    them in that order, those of one file together; when they yield no
    document at all it raises the error that speaks of no files found;
    and when the loader fails on a file, the error of the first such file
    is raised, nothing is printed and no document is returned. *)
Theorem documents_in_walk_order folder tree (st : console) :
  (forall f : string -> list Document,
     (forall p, In p (docx_paths (os_walk folder tree)) ->
                loader_load p = Ok (f p)) ->
     _load_docx_documents folder tree st
     = match concat (List.map f (docx_paths (os_walk folder tree))) with
       | [] => (Raise (ValueError ("No DOCX files found in " +:+ folder)), st)
       | d :: docs =>
           (Ok (d :: docs),
            Console
              (stdout st ++ ["Loaded " +:+ pretty (length (d :: docs))
                             +:+ " documents"])
              (prompts st) (asked st))
       end)
  /\ (forall (f : string -> list Document) before p after e,
        docx_paths (os_walk folder tree) = before ++ p :: after ->
        (forall q, In q before -> loader_load q = Ok (f q)) ->
        loader_load p = Raise e ->
        _load_docx_documents folder tree st = (Raise e, st)).
Proof.
  split.
  - intros f Hf. unfold _load_docx_documents, bind, lift.
    rewrite load_walk_paths, (load_paths_ok f) by exact Hf.
    cbn [app]. destruct (concat _) as [|d docs]; reflexivity.
  - intros f before p after e Hpaths Hf Hp.
    unfold _load_docx_documents, bind, lift.
    now rewrite load_walk_paths, Hpaths, (load_paths_fail f before p after e)
      by assumption.
Qed.

(** [load_docx_texts_from_folder] visits the same files in the same
    order; its result is, for each file in turn, the texts of the
    documents of the file separated by spaces and followed by a line
    feed; and the error of the first file on which the loader fails is
    raised. *)
Theorem texts_in_walk_order folder tree :
  (forall f : string -> list Document,
     (forall p, In p (docx_paths (os_walk folder tree)) ->
                loader_load p = Ok (f p)) ->
     load_docx_texts_from_folder folder tree
     = Ok (lines_of
             (List.map (fun p => Py.join " " (List.map page_content (f p)))
                (docx_paths (os_walk folder tree)))))
  /\ (forall (f : string -> list Document) before p after e,
        docx_paths (os_walk folder tree) = before ++ p :: after ->
        (forall q, In q before -> loader_load q = Ok (f q)) ->
        loader_load p = Raise e ->
        load_docx_texts_from_folder folder tree = Raise e).
Proof.
  split.
  - intros f Hf. unfold load_docx_texts_from_folder.
    now rewrite texts_of_walk_paths, (texts_of_paths_ok f) by exact Hf.
  - intros f before p after e Hpaths Hf Hp.
    unfold load_docx_texts_from_folder.
    now rewrite texts_of_walk_paths, Hpaths,
      (texts_of_paths_fail f before p after e) by assumption.
Qed.

End WithServices.

Lemma documents_in_walk_order_witness :
  _load_docx_documents (H:=offline) "docs" archive blank
  = (Ok [ {| page_content := "Text of docs/farewell.docx";
             source := "docs/farewell.docx" |};
          {| page_content := "Text of docs/2001/inaugural.docx";
             source := "docs/2001/inaugural.docx" |} ],
     Console ([] ++ ["Loaded " +:+ pretty 2 +:+ " documents"]) [] [])
  /\ _load_docx_documents (H:=fragile) "docs" scans blank
     = (Raise (OtherException "File is not a zip file"), blank).
Proof.
  split.
  - exact (proj1 (documents_in_walk_order (H:=offline) "docs" archive blank)
             (fun p => [ {| page_content := "Text of " +:+ p; source := p |} ])
             ltac:(intros p _; reflexivity)).
  - apply (proj2 (documents_in_walk_order (H:=fragile) "docs" scans blank)
             (fun p => [ {| page_content := "Text of " +:+ p; source := p |} ])
             ["docs/a.docx"] "docs/scan.docx" ["docs/z.docx"]).
    + reflexivity.
    + intros q [<-|[]]. reflexivity.
    + reflexivity.
Defined.

Lemma texts_in_walk_order_witness :
  load_docx_texts_from_folder (H:=offline) "docs" archive
  = Ok (lines_of
          (List.map
             (fun p => Py.join " "
                         (List.map page_content
                            [ {| page_content := "Text of " +:+ p;
                                 source := p |} ]))
             (docx_paths (os_walk "docs" archive))))
  /\ load_docx_texts_from_folder (H:=fragile) "docs" scans
     = Raise (OtherException "File is not a zip file").
Proof.
  split.
  - exact (proj1 (texts_in_walk_order (H:=offline) "docs" archive)
             (fun p => [ {| page_content := "Text of " +:+ p; source := p |} ])
             ltac:(intros p _; reflexivity)).
  - apply (proj2 (texts_in_walk_order (H:=fragile) "docs" scans)
             (fun p => [ {| page_content := "Text of " +:+ p; source := p |} ])
             ["docs/a.docx"] "docs/scan.docx" ["docs/z.docx"]).
    + reflexivity.
    + intros q [<-|[]]. reflexivity.
    + reflexivity.
Defined.

End OrderFacts.

(** ** Sessions of the command-line program *)

Module SessionFacts.
Import Rag.

Section WithServices.
Context {retriever : Type} `{Services retriever}.

Lemma load_nothing folder tree (st : console) :
  matching_files tree = 0 ->
  _load_docx_documents folder tree st
  = (Raise (ValueError ("No DOCX files found in " +:+ folder)), st).
Proof.
  intros H0. unfold _load_docx_documents, bind, lift.
  rewrite OrderFacts.load_walk_paths.
  pose proof (IngestFacts.docx_paths_count folder tree) as Hc.
  rewrite H0 in Hc. destruct (docx_paths (os_walk folder tree));
    [reflexivity|discriminate].
Qed.

Lemma main_init_error args tree lines (st : console) e st1 :
  init (args_folder_path args) "llama3.2" 500 100 tree st = (Raise e, st1) ->
  is_Exception e = true ->
  main args tree lines st
  = (Ok tt,
     Console (stdout st1 ++ ["Error initializing RAG system: " +:+ exn_text e])
       (prompts st1) (asked st1)).
Proof.
  intros Hinit Ee. unfold main, try_except. unfold bind at 1.
  now rewrite Hinit, Ee.
Qed.


(** What becomes of a question: the answer is printed after the label, or
    the error of the query is printed; in both cases the loop goes on
    with the next line. *)
Theorem query_errors_do_not_end_the_loop (sys : DocxRAGSystem) line rest
    (st : console) :
  Py.lower line <> "quit" ->
  (forall response st1,
     query sys line
       (Console (stdout st ++ [question_prompt]) (prompts st) (asked st))
     = (Ok response, st1) ->
     interactive_loop sys (line :: rest) st
     = interactive_loop sys rest
         (Console (stdout st1 ++ [response_label +:+ " " +:+ response])
            (prompts st1) (asked st1)))
  /\ (forall e st1,
        query sys line
          (Console (stdout st ++ [question_prompt]) (prompts st) (asked st))
        = (Raise e, st1) ->
        is_Exception e = true ->
        interactive_loop sys (line :: rest) st
        = interactive_loop sys rest
            (Console (stdout st1 ++ ["Error processing query: " +:+ exn_text e])
               (prompts st1) (asked st1))).
Proof.
  intros Hq. split.
  - intros response st1 E. rewrite (AnswerFacts.loop_question _ _ _ _ Hq).
    unfold bind at 1, answer_question, try_except. unfold bind at 1.
    now rewrite E.
  - intros e st1 E Ee. rewrite (AnswerFacts.loop_question _ _ _ _ Hq).
    unfold bind at 1, answer_question, try_except. unfold bind at 1.
    now rewrite E, Ee.
Qed.

Lemma loop_without_quit (sys : DocxRAGSystem) lines (st : console) :
  Forall (fun line => Py.lower line <> "quit") lines ->
  exists e st',
    interactive_loop sys lines st = (Raise e, st')
    /\ (e = EOFError \/ is_Exception e = false).
Proof.
  intros Hl. revert st. induction Hl as [|line rest Hq _ IH]; intros st.
  - cbn [interactive_loop]. unfold bind, print, raise.
    eexists _, _. split; [reflexivity|now left].
  - rewrite (AnswerFacts.loop_question _ _ _ _ Hq). unfold bind at 1.
    destruct (answer_question sys line _) as [[u|e] c1] eqn:Ea.
    + apply IH.
    + apply AnswerFacts.answer_question_asked in Ea as [_ Hr].
      eexists _, _. split; [reflexivity|right; exact Hr].
Qed.

(** When standard input ends before a line says quit, the end of input
    is caught by the handler around the set-up: after a set-up that
    succeeded, [main] prints that there was an error initializing the
    system (end of file when reading a line) and returns normally, unless
    an interrupt ended the run before. *)
Theorem end_of_input_is_reported_as_init_error args tree lines
    (st : console) sys st1 :
  init (args_folder_path args) "llama3.2" 500 100 tree st = (Ok sys, st1) ->
  Forall (fun line => Py.lower line <> "quit") lines ->
  (exists out p a,
     main args tree lines st
     = (Ok tt,
        Console
          (out ++ ["Error initializing RAG system: "
                   +:+ "EOF when reading a line"]) p a))
  \/ (exists e st', main args tree lines st = (Raise e, st')
                    /\ is_Exception e = false).
Proof.
  intros Hinit Hl.
  assert (Hmain : main args tree lines st
                  = try_except (interactive_loop sys lines) is_Exception
                      (fun e => print ("Error initializing RAG system: "
                                       +:+ exn_text e)) st1).
  { unfold main, try_except. unfold bind at 1. now rewrite Hinit. }
  rewrite Hmain. unfold try_except.
  destruct (loop_without_quit sys lines st1 Hl) as (e & st' & -> & [->|He]).
  - cbn [is_Exception]. left. unfold print. eexists _, _, _. reflexivity.
  - rewrite He. right. eexists _, _. split; [reflexivity|exact He].
Qed.

(** The vector store is given up only for an [ImportError].  After the
    documents are loaded: when the store is built, the system answers
    through its retriever; when the import or the building of the store
    raises any other error (the embedding service cannot be reached,
    say), the set-up fails with that error; and an [ImportError] raised
    while the store is built leads to the fallback chain over all
    documents, as a failing import does. *)
Theorem vector_store_outcomes folder model size overlap tree (st : console)
    docs st0 :
  _load_docx_documents folder tree st = (Ok docs, st0) ->
  (forall r,
     import_chroma = Ok tt ->
     chroma_retriever model size overlap docs = Ok r ->
     init folder model size overlap tree st
     = (Ok {| folder_path := folder; model_name := model; chunk_size := size;
              chunk_overlap := overlap; documents := docs;
              the_retriever := Some r;
              chain := retrieval_chain r default_template |}, st0))
  /\ (forall e,
        import_chroma = Raise e
        \/ (import_chroma = Ok tt
            /\ chroma_retriever model size overlap docs = Raise e) ->
        (forall msg, e <> ImportError msg) ->
        init folder model size overlap tree st = (Raise e, st0))
  /\ (forall msg,
        import_chroma = Ok tt ->
        chroma_retriever model size overlap docs = Raise (ImportError msg) ->
        init folder model size overlap tree st
        = (Ok {| folder_path := folder; model_name := model;
                 chunk_size := size; chunk_overlap := overlap;
                 documents := docs; the_retriever := None;
                 chain := simple_chain default_template
                            (Py.join (Py.NL +:+ Py.NL)
                               (List.map page_content docs)) |},
           Console
             (stdout st0
              ++ ["Chroma not available. Falling back to in-memory storage.";
                  "No retriever available. Using direct document context."])
             (prompts st0) (asked st0))).
Proof.
  intros Hload. split; [|split].
  - intros r Himport Hstore. unfold init. unfold bind at 1. rewrite Hload.
    unfold bind at 1, try_except. unfold bind at 1, lift at 1.
    rewrite Himport. unfold bind at 1, lift at 1. rewrite Hstore.
    unfold ret at 1. unfold bind at 1, create_retrieval_chain.
    cbn [default]. unfold bind at 1, lift at 1.
    rewrite AnswerFacts.from_template_default. reflexivity.
  - intros e He Hne. unfold init. unfold bind at 1. rewrite Hload.
    unfold bind at 1, try_except. unfold bind at 1, lift at 1.
    destruct He as [Himport|[Himport Hstore]]; rewrite Himport.
    + destruct e; try reflexivity. now destruct (Hne msg).
    + unfold bind at 1, lift at 1. rewrite Hstore.
      destruct e; try reflexivity. now destruct (Hne msg).
  - intros msg Himport Hstore. unfold init. unfold bind at 1. rewrite Hload.
    unfold bind at 1, try_except. unfold bind at 1, lift at 1.
    rewrite Himport. unfold bind at 1, lift at 1. rewrite Hstore.
    unfold bind at 1, print at 1, ret at 1.
    unfold bind at 1, create_retrieval_chain. cbn [default].
    unfold bind at 1, lift at 1. rewrite AnswerFacts.from_template_default.
    unfold bind at 1, print at 1, ret. cbn [stdout prompts asked].
    now rewrite <- app_assoc.
Qed.

Lemma query_fallback (sys : DocxRAGSystem) question (c : console) :
  chain sys
  = simple_chain default_template
      (Py.join (Py.NL +:+ Py.NL) (List.map page_content (documents sys))) ->
  query sys question c
  = (llm_invoke (model_name sys) (fallback_prompt (documents sys) question),
     Console (stdout c)
       (prompts c
        ++ [(model_name sys, fallback_prompt (documents sys) question)])
       (asked c ++ [question])).
Proof.
  intros Hc. unfold query. rewrite Hc, AnswerFacts.format_default.
  reflexivity.
Qed.

Lemma loop_transcript (sys : DocxRAGSystem) questions quit rest (st : console) :
  chain sys
  = simple_chain default_template
      (Py.join (Py.NL +:+ Py.NL) (List.map page_content (documents sys))) ->
  (forall p e, llm_invoke (model_name sys) p = Raise e ->
               is_Exception e = true) ->
  Forall (fun q => Py.lower q <> "quit") questions ->
  Py.lower quit = "quit" ->
  interactive_loop sys (questions ++ quit :: rest) st
  = (Ok tt,
     Console
       (stdout st
        ++ flat_map
             (fun q =>
                [question_prompt;
                 outcome_line
                   (llm_invoke (model_name sys)
                      (fallback_prompt (documents sys) q))])
             questions
        ++ [question_prompt])
       (prompts st
        ++ List.map
             (fun q => (model_name sys, fallback_prompt (documents sys) q))
             questions)
       (asked st ++ questions)).
Proof.
  intros Hc Hllm Hqs Hquit. revert st.
  induction Hqs as [|q questions Hq _ IH]; intros st.
  - cbn [app flat_map List.map].
    rewrite (AnswerFacts.loop_quit _ _ _ _ Hquit), !app_nil_r. reflexivity.
  - cbn [app flat_map List.map].
    rewrite (AnswerFacts.loop_question _ _ _ _ Hq).
    unfold bind at 1, answer_question, try_except. unfold bind at 1.
    rewrite (query_fallback _ _ _ Hc).
    destruct (llm_invoke _ _) as [response|e] eqn:El.
    + unfold print at 1. rewrite IH. cbn [stdout prompts asked outcome_line].
      now rewrite <- !app_assoc.
    + rewrite (Hllm _ _ El). unfold print at 1. rewrite IH.
      cbn [stdout prompts asked outcome_line]. now rewrite <- !app_assoc.
Qed.

(** A session of a system that was set up without retriever, whether
    the import of the vector store or the building of the store raised
    the [ImportError], from the first prompt to quit: for
    every line before the first that says quit, the prompt is printed,
    the language model is called once, with the default template filled
    with the texts of all documents and the line, and its answer or its
    error is printed; then the prompt is printed a last time and [main]
    returns.  Lines after the one that says quit are not read. *)
Theorem fallback_session_transcript args tree questions quit rest
    (st : console) sys st1 :
  init (args_folder_path args) "llama3.2" 500 100 tree st = (Ok sys, st1) ->
  the_retriever sys = None ->
  (forall p e, llm_invoke "llama3.2" p = Raise e -> is_Exception e = true) ->
  Forall (fun q => Py.lower q <> "quit") questions ->
  Py.lower quit = "quit" ->
  main args tree (questions ++ quit :: rest) st
  = (Ok tt,
     Console
       (stdout st1
        ++ flat_map
             (fun q =>
                [question_prompt;
                 outcome_line
                   (llm_invoke "llama3.2" (fallback_prompt (documents sys) q))])
             questions
        ++ [question_prompt])
       (prompts st1
        ++ List.map (fun q => ("llama3.2", fallback_prompt (documents sys) q))
             questions)
       (asked st1 ++ questions)).
Proof.
  intros Hinit Hnone Hllm Hqs Hquit.
  destruct (AnswerFacts.init_without_retriever _ _ _ _ _ _ _ _ Hinit Hnone)
    as (_ & _ & Hc & Hm).
  unfold main, try_except. unfold bind at 1. rewrite Hinit.
  rewrite (loop_transcript sys questions quit rest st1 Hc);
    [now rewrite Hm| |assumption|assumption].
  rewrite Hm. exact Hllm.
Qed.

End WithServices.


Lemma query_errors_do_not_end_the_loop_witness :
  (forall response st1,
     query (H:=refused) example_system "Who stayed home?"
       (Console ([] ++ [question_prompt]) [] [])
     = (Ok response, st1) ->
     interactive_loop (H:=refused) example_system ["Who stayed home?"; "quit"]
       blank
     = interactive_loop (H:=refused) example_system ["quit"]
         (Console (stdout st1 ++ [response_label +:+ " " +:+ response])
            (prompts st1) (asked st1)))
  /\ interactive_loop (H:=refused) example_system ["Who stayed home?"; "quit"]
       blank
     = interactive_loop (H:=refused) example_system ["quit"]
         (Console
            (stdout
               (snd (query (H:=refused) example_system "Who stayed home?"
                       (Console ([] ++ [question_prompt]) [] [])))
             ++ ["Error processing query: "
                 +:+ exn_text (OtherException "Connection refused")])
            (prompts
               (snd (query (H:=refused) example_system "Who stayed home?"
                       (Console ([] ++ [question_prompt]) [] []))))
            (asked
               (snd (query (H:=refused) example_system "Who stayed home?"
                       (Console ([] ++ [question_prompt]) [] []))))).
Proof.
  destruct (query_errors_do_not_end_the_loop (H:=refused) example_system
              "Who stayed home?" ["quit"] blank ltac:(discriminate))
    as [Hok Herr].
  split; [exact Hok|].
  exact (Herr (OtherException "Connection refused") _
           ltac:(vm_compute; reflexivity) ltac:(reflexivity)).
Defined.

Lemma end_of_input_is_reported_as_init_error_witness :
  (exists out p a,
     main (H:=offline) {| args_folder_path := "docs"; args_model := "llama3.2" |}
       archive ["Who stayed home?"] blank
     = (Ok tt,
        Console
          (out ++ ["Error initializing RAG system: "
                   +:+ "EOF when reading a line"]) p a))
  \/ (exists e st',
        main (H:=offline)
          {| args_folder_path := "docs"; args_model := "llama3.2" |}
          archive ["Who stayed home?"] blank = (Raise e, st')
        /\ is_Exception e = false).
Proof.
  destruct (init (H:=offline) "docs" "llama3.2" 500 100 archive blank)
    as [[sys|e] st1] eqn:E; [|vm_compute in E; discriminate E].
  apply (end_of_input_is_reported_as_init_error (H:=offline)
           {| args_folder_path := "docs"; args_model := "llama3.2" |}
           archive ["Who stayed home?"] blank sys st1 E).
  repeat constructor. discriminate.
Defined.

Lemma vector_store_outcomes_witness :
  init (H:=refused) "docs" "llama3.2" 500 100 archive blank
  = (Raise (OtherException "Connection refused"),
     snd (_load_docx_documents (H:=refused) "docs" archive blank)).
Proof.
  destruct (_load_docx_documents (H:=refused) "docs" archive blank)
    as [[docs|e] st0] eqn:E; [|vm_compute in E; discriminate E].
  apply (proj1 (proj2 (vector_store_outcomes (H:=refused) "docs" "llama3.2"
                         500 100 archive blank docs st0 E))).
  - right. split; reflexivity.
  - discriminate.
Defined.

Lemma fallback_session_transcript_witness :
  List.map fst
    (prompts
       (snd (main (H:=no_chromadb)
               {| args_folder_path := "docs"; args_model := "llama3.2" |}
               archive (["Where did Alice go?"; "Who stayed home?"]
                        ++ "Quit" :: ["never read"]) blank)))
  = ["llama3.2"; "llama3.2"].
Proof.
  destruct (init (H:=no_chromadb) "docs" "llama3.2" 500 100 archive blank)
    as [[sys|e] st1] eqn:E; [|vm_compute in E; discriminate E].
  assert (Hr : the_retriever sys = None).
  { vm_compute in E. now injection E as <- _. }
  rewrite (fallback_session_transcript (H:=no_chromadb)
             {| args_folder_path := "docs"; args_model := "llama3.2" |}
             archive ["Where did Alice go?"; "Who stayed home?"] "Quit"
             ["never read"] blank sys st1
             E Hr ltac:(discriminate)
             ltac:(repeat constructor; discriminate) eq_refl).
  cbn [snd prompts]. rewrite map_app.
  assert (prompts st1 = []) as ->.
  { vm_compute in E. now injection E as _ <-. }
  reflexivity.
Defined.

End SessionFacts.
